(** * Plugin registry auditor: a shallow embedding of [PluginAuditor]

    The repository ships two revisions of the same class, both exporting
    [PluginAuditor] with the methods [makeRequest], [auditPlugin] and
    [normalizeRepositoryUrl]:

    - the accumulating revision (rate-limit aware, keeps going after a failed
      fetch, always returns metadata), embedded in [Module Auditor];
    - the early-abort revision of [audit.js], embedded in [Module AuditJs].

    JavaScript values are a small inductive type, the network and the
    built-ins that the code calls but does not define ([https.get],
    [JSON.parse], [Date.prototype.toLocaleString]) are the fields of an
    environment record, and the body of [auditPlugin] is written in a state
    and exception monad whose state holds the submission object, the local
    variables [issues], [repoData], [npmData] and the log of requests. *)

From Stdlib Require Import ZArith List String Ascii Bool Lia DecimalString.
Import ListNotations.

Local Open Scope list_scope.
Local Open Scope string_scope.

(** ** JavaScript values and built-ins *)

Module JS.

(** JSON-shaped values. Numbers are the integers (status codes, counters);
    a string is a sequence of code units below 256, one [ascii] each. *)
#[local] Set Warnings "-register-all".
Inductive value : Type :=
| VUndefined
| VNull
| VBool (b : bool)
| VNum (n : Z)
| VStr (s : string)
| VArr (elems : list value)
| VObj (props : list (string * value)).

(** [ToBoolean]. *)
Definition truthy (v : value) : bool :=
  match v with
  | VUndefined | VNull => false
  | VBool b => b
  | VNum n => negb (n =? 0)%Z
  | VStr s => negb (s =? EmptyString)
  | VArr _ | VObj _ => true
  end.

Definition nullish (v : value) : bool :=
  match v with
  | VUndefined | VNull => true
  | _ => false
  end.

(** The [typeof] operator. *)
Definition typeof (v : value) : string :=
  match v with
  | VUndefined => "undefined"
  | VNull | VArr _ | VObj _ => "object"
  | VBool _ => "boolean"
  | VNum _ => "number"
  | VStr _ => "string"
  end.

(** Own-property lookup in an object literal; [undefined] when absent. *)
Fixpoint lookup (k : string) (ps : list (string * value)) : value :=
  match ps with
  | [] => VUndefined
  | (k', v) :: rest => if k =? k' then v else lookup k rest
  end.

(** [v.k] on a value that is neither [null] nor [undefined]. None of the
    property names read by the auditor lives on a prototype, so only plain
    objects answer with something else than [undefined]. *)
Definition member (v : value) (k : string) : value :=
  match v with
  | VObj ps => lookup k ps
  | _ => VUndefined
  end.

(** [v?.k]. *)
Definition opt_member (v : value) (k : string) : value :=
  if nullish v then VUndefined else member v k.

(** [a || b] on values. *)
Definition or_else (a b : value) : value := if truthy a then a else b.

(** [String.prototype.startsWith]: [startsWith s p] is [s.startsWith(p)]. *)
Fixpoint startsWith (s p : string) {struct p} : bool :=
  match p with
  | EmptyString => true
  | String a p' =>
      match s with
      | EmptyString => false
      | String b s' => Ascii.eqb a b && startsWith s' p'
      end
  end.

(** [String.prototype.includes]: [includes hay needle] is [hay.includes(needle)]. *)
Fixpoint includes (hay needle : string) : bool :=
  startsWith hay needle ||
  match hay with
  | EmptyString => false
  | String _ rest => includes rest needle
  end.

(** [Array.prototype.includes] with a string argument. *)
Definition array_includes (elems : list value) (needle : string) : bool :=
  existsb (fun v => match v with VStr s => s =? needle | _ => false end) elems.

(** White space and line terminators among the code units below 256. *)
Definition is_space (c : ascii) : bool :=
  let n := nat_of_ascii c in
  ((9 <=? n) && (n <=? 13) || (n =? 32) || (n =? 160))%nat.

Fixpoint trimStart (s : string) : string :=
  match s with
  | String c rest => if is_space c then trimStart rest else s
  | EmptyString => EmptyString
  end.

Fixpoint trimEnd (s : string) : string :=
  match s with
  | EmptyString => EmptyString
  | String c rest =>
      match trimEnd rest with
      | EmptyString => if is_space c then EmptyString else String c EmptyString
      | t => String c t
      end
  end.

(** [String.prototype.trim]. *)
Definition trim (s : string) : string := trimEnd (trimStart s).

(** Decimal rendering of an integer inside a template literal. *)
Definition show_Z (n : Z) : string := NilZero.string_of_int (Z.to_int n).

Definition hex_digit (n : nat) : ascii :=
  ascii_of_nat (if (n <? 10)%nat then 48 + n else 55 + n).

Definition percent (n : nat) : string :=
  String "%" (String (hex_digit (n / 16)) (String (hex_digit (n mod 16)) EmptyString)).

(** Characters that [encodeURIComponent] leaves alone:
    letters, digits and [- _ . ! ~ * ' ( )]. *)
Definition uri_unreserved (c : ascii) : bool :=
  let n := nat_of_ascii c in
  ((65 <=? n) && (n <=? 90) || (97 <=? n) && (n <=? 122) ||
   (48 <=? n) && (n <=? 57) ||
   (n =? 45) || (n =? 95) || (n =? 46) || (n =? 33) || (n =? 126) ||
   (n =? 42) || (n =? 39) || (n =? 40) || (n =? 41))%nat.

(** [encodeURIComponent]: every other code unit is written as the percent
    escapes of its UTF-8 bytes (one byte below 128, two bytes from 128 on). *)
Fixpoint encodeURIComponent (s : string) : string :=
  match s with
  | EmptyString => EmptyString
  | String c rest =>
      let n := nat_of_ascii c in
      (if uri_unreserved c then String c EmptyString
       else if (n <? 128)%nat then percent n
       else percent (192 + n / 64) ++ percent (128 + n mod 64))
      ++ encodeURIComponent rest
  end.

(** Response headers and request headers: an object with string values. *)
Definition headers_t : Type := list (string * string).

Fixpoint header (k : string) (hs : headers_t) : option string :=
  match hs with
  | [] => None
  | (k', v) :: rest => if k =? k' then Some v else header k rest
  end.

(** [obj[k] = v] on an object literal: an existing key keeps its place. *)
Fixpoint set_header (k v : string) (hs : headers_t) : headers_t :=
  match hs with
  | [] => [(k, v)]
  | (k', v') :: rest =>
      if k =? k' then (k, v) :: rest else (k', v') :: set_header k v rest
  end.

(** [{ ...base, ...extra }]. *)
Definition spread (base extra : headers_t) : headers_t :=
  fold_left (fun acc kv => set_header (fst kv) (snd kv) acc) extra base.

(** What is thrown or handed to [reject]: the object literals built by
    [makeRequest] carry [status], [message] and [response.status]; an
    [Error] raised by the runtime carries a [message] only. *)
Record Failure : Type := mkFailure {
  status : option Z;
  message : string;
  response : option Z
}.

Definition NativeError (msg : string) : Failure :=
  {| status := None; message := msg; response := None |}.

(** The wording of V8's [TypeError]s. *)
Definition cannot_read (v : value) (k : string) : string :=
  "Cannot read properties of " ++
  (match v with VNull => "null" | _ => "undefined" end) ++
  " (reading '" ++ k ++ "')".

Definition not_a_function (expr : string) : string :=
  expr ++ " is not a function".

(** What one [https.get] does: a response arrives, the request emits
    ["error"], or the call itself throws inside the promise executor. *)
Inductive HttpOutcome : Type :=
| Responded (statusCode : Z) (hs : headers_t) (body : string)
| RequestError (msg : string)
| GetThrew (msg : string).

(** The world outside the class: the network, [JSON.parse] (a value, or the
    message of the [SyntaxError]) and the locale-dependent rendering of
    [new Date(reset * 1000).toLocaleString()] from the raw header. *)
Record Env : Type := mkEnv {
  https_get : string -> headers_t -> HttpOutcome;
  JSON_parse : string -> value + string;
  Date_toLocaleString : option string -> string
}.

(** The object a fulfilled [makeRequest] resolves to. *)
Record Response : Type := mkResponse {
  data : value;
  resp_status : Z;
  resp_headers : option headers_t
}.

(** [{ repo, owner, npm_package_name }]: each field a string, or missing;
    whatever else the caller put on the object is kept in [other_fields]. *)
Record Submission : Type := mkSubmission {
  repo : option string;
  owner : option string;
  npm_package_name : option string;
  other_fields : list (string * value)
}.

(** Truthiness of a field and its rendering in a template literal. *)
Definition present (f : option string) : bool :=
  match f with
  | Some s => negb (s =? EmptyString)
  | None => false
  end.

Definition show (f : option string) : string :=
  match f with
  | Some s => s
  | None => "undefined"
  end.

Definition field_value (f : option string) : value :=
  match f with
  | Some s => VStr s
  | None => VUndefined
  end.

(** [{ passed, issues, metadata }]; the early returns build an object
    without the [metadata] key. *)
Record AuditResult : Type := mkResult {
  passed : bool;
  issues : list string;
  metadata : option value
}.

(** *** The monad of a method body *)

Record State : Type := mkState {
  heap_submission : Submission;
  var_issues : list string;
  var_repoData : option Response;
  var_npmData : value;
  net_requests : list (string * headers_t)
}.

Inductive completion (A : Type) : Type :=
| Normal (a : A)
| Return (r : AuditResult)
| Throw (e : Failure).
Arguments Normal {A} a.
Arguments Return {A} r.
Arguments Throw {A} e.

Definition M (A : Type) : Type := State -> completion A * State.

Definition ret {A} (a : A) : M A := fun st => (Normal a, st).

Definition bind {A B} (m : M A) (f : A -> M B) : M B :=
  fun st =>
    match m st with
    | (Normal a, st') => f a st'
    | (Return r, st') => (Return r, st')
    | (Throw e, st') => (Throw e, st')
    end.

Definition throw {A} (e : Failure) : M A := fun st => (Throw e, st).

Definition return_ {A} (r : AuditResult) : M A := fun st => (Return r, st).

(** [try { body } catch (error) { handler }]: a [return] inside [body]
    leaves the function, only a throw reaches the handler. *)
Definition try_catch {A} (body : M A) (handler : Failure -> M A) : M A :=
  fun st =>
    match body st with
    | (Throw e, st') => handler e st'
    | other => other
    end.

Definition when (b : bool) (m : M unit) : M unit := if b then m else ret tt.

Definition get_submission : M Submission :=
  fun st => (Normal (heap_submission st), st).

Definition get_issues : M (list string) :=
  fun st => (Normal (var_issues st), st).

Definition get_repoData : M (option Response) :=
  fun st => (Normal (var_repoData st), st).

Definition get_npmData : M value :=
  fun st => (Normal (var_npmData st), st).

(** The four writes of the method body, as state transformers. *)
Definition add_issue (msg : string) (st : State) : State :=
  {| heap_submission := heap_submission st;
     var_issues := var_issues st ++ [msg];
     var_repoData := var_repoData st;
     var_npmData := var_npmData st;
     net_requests := net_requests st |}.

Definition put_repoData (r : Response) (st : State) : State :=
  {| heap_submission := heap_submission st;
     var_issues := var_issues st;
     var_repoData := Some r;
     var_npmData := var_npmData st;
     net_requests := net_requests st |}.

Definition put_npmData (v : value) (st : State) : State :=
  {| heap_submission := heap_submission st;
     var_issues := var_issues st;
     var_repoData := var_repoData st;
     var_npmData := v;
     net_requests := net_requests st |}.

Definition add_request (url : string) (hs : headers_t) (st : State) : State :=
  {| heap_submission := heap_submission st;
     var_issues := var_issues st;
     var_repoData := var_repoData st;
     var_npmData := var_npmData st;
     net_requests := net_requests st ++ [(url, hs)] |}.

(** [issues.push(msg)]. *)
Definition push (msg : string) : M unit :=
  fun st => (Normal tt, add_issue msg st).

Definition set_repoData (r : Response) : M unit :=
  fun st => (Normal tt, put_repoData r st).

Definition set_npmData (v : value) : M unit :=
  fun st => (Normal tt, put_npmData v st).

(** The request leaves the process: it is appended to the log. *)
Definition log_request (url : string) (hs : headers_t) : M unit :=
  fun st => (Normal tt, add_request url hs st).

(** [v.k], which throws a [TypeError] on [null] and [undefined]. *)
Definition prop (v : value) (k : string) : M value :=
  if nullish v then throw (NativeError (cannot_read v k)) else ret (member v k).

(** Awaiting a settled promise. *)
Definition await {A} (p : Failure + A) : M A :=
  match p with
  | inl e => throw e
  | inr a => ret a
  end.

Definition init (s : Submission) : State :=
  {| heap_submission := s;
     var_issues := [];
     var_repoData := None;
     var_npmData := VNull;
     net_requests := [] |}.

(** How an [async] method settles. *)
Inductive Outcome : Type :=
| Resolved (r : AuditResult)
| ResolvedUndefined
| Rejected (e : Failure).

Definition settle (c : completion unit) : Outcome :=
  match c with
  | Normal _ => ResolvedUndefined
  | Return r => Resolved r
  | Throw e => Rejected e
  end.

End JS.

Export JS.

Declare Scope js_scope.
Delimit Scope js_scope with js.
Notation "x <- m ;; k" := (bind m (fun x => k))
  (at level 61, m at next level, right associativity) : js_scope.
Notation "m ;; k" := (bind m (fun _ => k))
  (at level 61, right associativity) : js_scope.
Local Open Scope js_scope.

(** ** The accumulating revision *)

Module Auditor.

Record PluginAuditor : Type := mkAuditor {
  githubToken : option string
}.

Section Methods.

Variable env : Env.
Variable this : PluginAuditor.

Definition is_status (o : option Z) (n : Z) : bool :=
  match o with
  | Some m => (m =? n)%Z
  | None => false
  end.

Definition is_header (o : option string) (s : string) : bool :=
  match o with
  | Some v => v =? s
  | None => false
  end.

(** The headers [makeRequest] sends. *)
Definition request_headers (url : string) (option_headers : headers_t) : headers_t :=
  let headers :=
    spread [("User-Agent", "Maiar-Plugin-Auditor");
            ("Accept", "application/vnd.github.v3+json")] option_headers in
  if present (githubToken this) && includes url "api.github.com"
  then set_header "Authorization" ("token " ++ show (githubToken this)) headers
  else headers.

(** How the promise built by [makeRequest] settles. *)
Definition settled (url : string) (option_headers : headers_t) : Failure + Response :=
  match https_get env url (request_headers url option_headers) with
  | GetThrew msg => inl (NativeError msg)
  | RequestError msg =>
      inl {| status := Some 500%Z;
             message := "Network error: " ++ msg;
             response := None |}
  | Responded statusCode hs body =>
      if includes url "api.github.com" &&
         is_header (header "x-ratelimit-remaining" hs) "0"
      then
        inl {| status := Some 429%Z;
               message := "GitHub API rate limit exceeded. Resets at " ++
                          Date_toLocaleString env (header "x-ratelimit-reset" hs);
               response := Some 429%Z |}
      else if (statusCode >=? 400)%Z then
        inl {| status := Some statusCode;
               message := "HTTP " ++ show_Z statusCode ++ ": " ++ body;
               response := Some statusCode |}
      else
        match JSON_parse env body with
        | inl v =>
            inr {| data := v; resp_status := statusCode; resp_headers := Some hs |}
        | inr msg =>
            inl {| status := Some 500%Z;
                   message := "Failed to parse JSON response: " ++ msg;
                   response := None |}
        end
  end.

(** [await this.makeRequest(url, { headers })]. *)
Definition makeRequest (url : string) (option_headers : headers_t) : M Response :=
  log_request url (request_headers url option_headers) ;;
  await (settled url option_headers).

Definition normalizeRepositoryUrl (repository : value) : value :=
  if negb (truthy repository) then VStr EmptyString
  else if typeof repository =? "string" then repository
  else if (typeof repository =? "object") && truthy (member repository "url")
       then member repository "url"
  else VStr EmptyString.

(** [x.includes(needle)] for whatever [x] turns out to be. *)
Definition call_includes (expr : string) (x : value) (needle : string) : M bool :=
  match x with
  | VStr s => ret (includes s needle)
  | VArr elems => ret (array_includes elems needle)
  | VUndefined | VNull => throw (NativeError (cannot_read x "includes"))
  | _ => throw (NativeError (not_a_function (expr ++ ".includes")))
  end.

(** [!d || d.trim().length < 10]. *)
Definition description_too_short (d : value) : M bool :=
  if negb (truthy d) then ret true
  else
    match d with
    | VStr s => ret (String.length (trim s) <? 10)%nat
    | _ => throw (NativeError (not_a_function "repoData.data.description.trim"))
    end.

Definition repoUrl (s : Submission) : string :=
  "https://api.github.com/repos/" ++ show (owner s) ++ "/" ++ show (repo s).

Definition topicsUrl (s : Submission) : string :=
  "https://api.github.com/repos/" ++ show (owner s) ++ "/" ++ show (repo s) ++ "/topics".

Definition npmUrl (s : Submission) : string :=
  "https://registry.npmjs.org/" ++ encodeURIComponent (show (npm_package_name s)).

(** The [options] of the topics request: the preview media type. *)
Definition topicsOptions : headers_t :=
  [("Accept", "application/vnd.github.mercy-preview+json")].

Definition ownerSlashRepo (s : Submission) : string :=
  show (owner s) ++ "/" ++ show (repo s).

Definition MISSING_FIELDS := "Missing required fields in submission".
Definition REPO_NOT_FOUND := "GitHub repository not found".
Definition REPO_FORBIDDEN := "GitHub API access forbidden: ".
Definition REPO_ERROR := "Error accessing GitHub repository: ".
Definition REPO_PRIVATE := "Repository must be public".
Definition REPO_DESCRIPTION :=
  "Repository must have a clear, descriptive description (minimum 10 characters)".
Definition REPO_TOPIC :=
  "Repository must have the " ++ String "034"%char "maiar" ++
  String "034"%char " topic tagged".
Definition TOPICS_ERROR := "Error checking repository topics: ".
Definition NPM_PRIVATE := "npm package must be public".
Definition NPM_MISMATCH := "npm package repository URL must match GitHub repository".
Definition NPM_NOT_FOUND := "npm package not found".
Definition NPM_ERROR := "Error accessing npm package: ".
Definition UNEXPECTED := "Unexpected error during audit: ".

(** "Fetch GitHub repository data" (the rate-limit lines written to the
    console are left out: they neither throw nor touch a variable). *)
Definition fetchRepository : M unit :=
  try_catch
    (s <- get_submission ;;
     repoResponse <- makeRequest (repoUrl s) [] ;;
     set_repoData repoResponse)
    (fun error =>
       if is_status (status error) 429 then push (message error)
       else if is_status (response error) 404 then push REPO_NOT_FOUND
       else if is_status (response error) 403 then
         push (REPO_FORBIDDEN ++ message error)
       else push (REPO_ERROR ++ message error)).

(** "Check repository topics". *)
Definition checkTopics : M unit :=
  try_catch
    (s <- get_submission ;;
     topicsResponse <-
       makeRequest (topicsUrl s) topicsOptions ;;
     names <- prop (data topicsResponse) "names" ;;
     tagged <- call_includes "topicsResponse.data.names" names "maiar" ;;
     when (negb tagged) (push REPO_TOPIC))
    (fun error => push (TOPICS_ERROR ++ message error)).

(** "Only check GitHub-specific requirements if we have repository data". *)
Definition checkRepository : M unit :=
  rd <- get_repoData ;;
  match rd with
  | None => ret tt
  | Some repoData =>
      private <- prop (data repoData) "private" ;;
      when (truthy private) (push REPO_PRIVATE) ;;
      description <- prop (data repoData) "description" ;;
      short <- description_too_short description ;;
      when short (push REPO_DESCRIPTION) ;;
      checkTopics
  end.

(** "Check repository URL in package.json matches GitHub repository". *)
Definition crossReference (npmData : value) : M unit :=
  rd <- get_repoData ;;
  match rd with
  | None => ret tt
  | Some _ =>
      repository <- prop npmData "repository" ;;
      let normalizedRepoUrl := normalizeRepositoryUrl repository in
      s <- get_submission ;;
      matches <- call_includes "normalizedRepoUrl" normalizedRepoUrl (ownerSlashRepo s) ;;
      when (negb matches) (push NPM_MISMATCH)
  end.

(** "Check npm package". *)
Definition checkNpmPackage : M unit :=
  try_catch
    (s <- get_submission ;;
     npmResponse <- makeRequest (npmUrl s) [] ;;
     set_npmData (data npmResponse) ;;
     npmData <- get_npmData ;;
     private <- prop npmData "private" ;;
     when (truthy private) (push NPM_PRIVATE) ;;
     crossReference npmData)
    (fun error =>
       if is_status (response error) 404 then push NPM_NOT_FOUND
       else push (NPM_ERROR ++ message error)).

(** The body of the outer [try]. *)
Definition tryBlock : M unit :=
  s <- get_submission ;;
  if negb (present (repo s)) || negb (present (owner s)) ||
     negb (present (npm_package_name s))
  then
    push MISSING_FIELDS ;;
    issues <- get_issues ;;
    return_ {| passed := false; issues := issues; metadata := None |}
  else
    fetchRepository ;;
    checkRepository ;;
    checkNpmPackage.

(** [metadata.github]. *)
Definition githubMetadata : M value :=
  rd <- get_repoData ;;
  match rd with
  | None => ret VNull
  | Some repoData =>
      if truthy (data repoData) then
        name <- prop (data repoData) "name" ;;
        owner_ <- prop (data repoData) "owner" ;;
        login <- prop owner_ "login" ;;
        full_name <- prop (data repoData) "full_name" ;;
        stargazers_count <- prop (data repoData) "stargazers_count" ;;
        description <- prop (data repoData) "description" ;;
        topics <- prop (data repoData) "topics" ;;
        updated_at <- prop (data repoData) "updated_at" ;;
        private <- prop (data repoData) "private" ;;
        s <- get_submission ;;
        ret (VObj [("name", name);
                   ("owner", login);
                   ("fullName", full_name);
                   ("stars", stargazers_count);
                   ("description", description);
                   ("topics", topics);
                   ("lastUpdated", updated_at);
                   ("isPublic", VBool (negb (truthy private)));
                   ("url", VStr ("https://github.com/" ++ show (owner s) ++
                                 "/" ++ show (repo s)))])
      else ret VNull
  end.

(** The [author] entry of [metadata.npm]. *)
Definition normalizeAuthor (author : value) : value :=
  if typeof author =? "object" then
    VObj [("name", opt_member author "name");
          ("email", opt_member author "email");
          ("url", opt_member author "url")]
  else
    VObj [("name", author); ("email", VNull); ("url", VNull)].

(** [metadata.npm]. *)
Definition npmMetadata : M value :=
  npmData <- get_npmData ;;
  if truthy npmData then
    s <- get_submission ;;
    dist_tags <- prop npmData "dist-tags" ;;
    time <- prop npmData "time" ;;
    author <- prop npmData "author" ;;
    maintainers <- prop npmData "maintainers" ;;
    ret (VObj [("name", field_value (npm_package_name s));
               ("version", opt_member dist_tags "latest");
               ("lastPublished", opt_member time "modified");
               ("author", normalizeAuthor author);
               ("maintainers", or_else maintainers (VArr []));
               ("url", VStr ("https://www.npmjs.com/package/" ++
                             show (npm_package_name s)))])
  else ret VNull.

(** "Always return metadata even if there are issues". *)
Definition finalReturn : M unit :=
  issues <- get_issues ;;
  github <- githubMetadata ;;
  npm <- npmMetadata ;;
  return_ {| passed := (List.length issues =? 0)%nat;
             issues := issues;
             metadata := Some (VObj [("github", github); ("npm", npm)]) |}.

Definition auditBody : M unit :=
  try_catch tryBlock (fun error => push (UNEXPECTED ++ message error)) ;;
  finalReturn.

(** [auditPlugin(submission)]: how the promise settles, and the state the
    call leaves behind (the submission object and the requests made). *)
Definition auditPlugin (submission : Submission) : Outcome * State :=
  let (c, st) := auditBody (init submission) in (settle c, st).

End Methods.

End Auditor.

(** ** The early-abort revision, [audit.js] *)

Module AuditJs.

Import Auditor.

Section Methods.

Variable env : Env.
Variable this : PluginAuditor.

Definition REPO_NOT_PUBLIC := "GitHub repository is not public".

Definition request_headers (url : string) (option_headers : headers_t) : headers_t :=
  let headers := spread [("User-Agent", "Maiar-Plugin-Auditor")] option_headers in
  if present (githubToken this) && includes url "api.github.com"
  then set_header "Authorization" ("token " ++ show (githubToken this)) headers
  else headers.

Definition settled (url : string) (option_headers : headers_t) : Failure + Response :=
  match https_get env url (request_headers url option_headers) with
  | GetThrew msg => inl (NativeError msg)
  | RequestError msg => inl (NativeError msg)
  | Responded statusCode hs body =>
      if (statusCode >=? 400)%Z then
        inl {| status := Some statusCode;
               message := body;
               response := Some statusCode |}
      else
        match JSON_parse env body with
        | inl v => inr {| data := v; resp_status := statusCode; resp_headers := None |}
        | inr msg => inl (NativeError msg)
        end
  end.

Definition makeRequest (url : string) (option_headers : headers_t) : M Response :=
  log_request url (request_headers url option_headers) ;;
  await (settled url option_headers).

Definition normalizeRepositoryUrl (repository : value) : value :=
  if negb (truthy repository) then VStr EmptyString
  else if typeof repository =? "string" then repository
  else if (typeof repository =? "object") && truthy (member repository "url")
       then member repository "url"
  else VStr EmptyString.

(** [return { passed: false, issues }]. *)
Definition abort {A} : M A :=
  issues <- get_issues ;;
  return_ {| passed := false; issues := issues; metadata := None |}.

(** "Fetch GitHub repository data". *)
Definition fetchRepository : M Response :=
  try_catch
    (s <- get_submission ;;
     repoResponse <- makeRequest (repoUrl s) [] ;;
     set_repoData repoResponse ;;
     ret repoResponse)
    (fun error =>
       (if is_status (response error) 404 then push REPO_NOT_FOUND
        else if is_status (response error) 403 then push REPO_NOT_PUBLIC
        else push (REPO_ERROR ++ message error)) ;;
       abort).

(** "Check repository topics". *)
Definition checkTopics : M unit :=
  try_catch
    (s <- get_submission ;;
     topicsResponse <-
       makeRequest (topicsUrl s) topicsOptions ;;
     names <- prop (data topicsResponse) "names" ;;
     tagged <- call_includes "topicsResponse.data.names" names "maiar" ;;
     when (negb tagged) (push REPO_TOPIC))
    (fun error =>
       push (TOPICS_ERROR ++ message error) ;;
       abort).

(** "Check npm package". *)
Definition fetchNpmPackage : M unit :=
  try_catch
    (s <- get_submission ;;
     npmResponse <- makeRequest (npmUrl s) [] ;;
     set_npmData (data npmResponse))
    (fun error =>
       (if is_status (response error) 404 then push NPM_NOT_FOUND
        else push (NPM_ERROR ++ message error)) ;;
       abort).

(** The body of the outer [try]. *)
Definition tryBlock : M unit :=
  s <- get_submission ;;
  if negb (present (repo s)) || negb (present (owner s)) ||
     negb (present (npm_package_name s))
  then
    push MISSING_FIELDS ;;
    abort
  else
    repoData <- fetchRepository ;;
    private <- prop (data repoData) "private" ;;
    when (truthy private) (push REPO_PRIVATE) ;;
    description <- prop (data repoData) "description" ;;
    short <- description_too_short description ;;
    when short (push REPO_DESCRIPTION) ;;
    checkTopics ;;
    fetchNpmPackage ;;
    npmData <- get_npmData ;;
    npm_private <- prop npmData "private" ;;
    when (truthy npm_private) (push NPM_PRIVATE) ;;
    repository <- prop npmData "repository" ;;
    let normalizedRepoUrl := normalizeRepositoryUrl repository in
    s <- get_submission ;;
    matches <- call_includes "normalizedRepoUrl" normalizedRepoUrl (ownerSlashRepo s) ;;
    when (negb matches) (push NPM_MISMATCH).

(** [metadata.github]. *)
Definition githubMetadata : M value :=
  rd <- get_repoData ;;
  match rd with
  | None => ret VNull
  | Some repoData =>
      name <- prop (data repoData) "name" ;;
      owner_ <- prop (data repoData) "owner" ;;
      login <- prop owner_ "login" ;;
      full_name <- prop (data repoData) "full_name" ;;
      stargazers_count <- prop (data repoData) "stargazers_count" ;;
      description <- prop (data repoData) "description" ;;
      topics <- prop (data repoData) "topics" ;;
      updated_at <- prop (data repoData) "updated_at" ;;
      ret (VObj [("name", name);
                 ("owner", login);
                 ("fullName", full_name);
                 ("stars", stargazers_count);
                 ("description", description);
                 ("topics", topics);
                 ("lastUpdated", updated_at)])
  end.

(** [metadata.npm]. *)
Definition npmMetadata : M value :=
  npmData <- get_npmData ;;
  if truthy npmData then
    s <- get_submission ;;
    dist_tags <- prop npmData "dist-tags" ;;
    latest <- prop dist_tags "latest" ;;
    time <- prop npmData "time" ;;
    modified <- prop time "modified" ;;
    author <- prop npmData "author" ;;
    maintainers <- prop npmData "maintainers" ;;
    ret (VObj [("name", field_value (npm_package_name s));
               ("version", latest);
               ("lastPublished", modified);
               ("author", author);
               ("maintainers", maintainers)])
  else ret VNull.

Definition finalReturn : M unit :=
  issues <- get_issues ;;
  github <- githubMetadata ;;
  npm <- npmMetadata ;;
  return_ {| passed := (List.length issues =? 0)%nat;
             issues := issues;
             metadata := Some (VObj [("github", github); ("npm", npm)]) |}.

Definition auditBody : M unit :=
  try_catch tryBlock (fun error => push (UNEXPECTED ++ message error)) ;;
  finalReturn.

Definition auditPlugin (submission : Submission) : Outcome * State :=
  let (c, st) := auditBody (init submission) in (settle c, st).

End Methods.

End AuditJs.

(** ** A small program logic for method bodies *)

Section Logic.

Context {A : Type}.

(** [m] leaves the submission object as it found it. *)
Definition frames (m : M A) : Prop :=
  forall st, heap_submission (snd (m st)) = heap_submission st.

(** A verdict is coherent when [passed] says that there is no issue. *)
Definition coherent (r : AuditResult) : Prop :=
  passed r = true <-> issues r = [].

(** Whatever [m] hands to a [return] statement satisfies [P]. *)
Definition returns (P : AuditResult -> Prop) (m : M A) : Prop :=
  forall st r, fst (m st) = Return r -> P r.

(** [m] runs to its end or throws, but contains no [return]. *)
Definition no_return (m : M A) : Prop :=
  forall st r, fst (m st) <> Return r.

End Logic.

(** The issues that the package stage can add. *)
Definition is_npm_issue (i : string) : bool :=
  (i =? Auditor.NPM_PRIVATE) || (i =? Auditor.NPM_MISMATCH) ||
  (i =? Auditor.NPM_NOT_FOUND) || startsWith i Auditor.NPM_ERROR.

(** What [metadata.npm] holds once a truthy package document was fetched. *)
Definition npmSummary (s : Submission) (npmData : value) : value :=
  VObj [("name", field_value (npm_package_name s));
        ("version", opt_member (member npmData "dist-tags") "latest");
        ("lastPublished", opt_member (member npmData "time") "modified");
        ("author", Auditor.normalizeAuthor (member npmData "author"));
        ("maintainers", or_else (member npmData "maintainers") (VArr []));
        ("url", VStr ("https://www.npmjs.com/package/" ++ show (npm_package_name s)))].

(** The one issue the repository stage records for a rejected fetch. *)
Definition repositoryIssue (error : Failure) : string :=
  if Auditor.is_status (status error) 429 then message error
  else if Auditor.is_status (response error) 404 then Auditor.REPO_NOT_FOUND
  else if Auditor.is_status (response error) 403
       then Auditor.REPO_FORBIDDEN ++ message error
  else Auditor.REPO_ERROR ++ message error.

(** The guard of the first [if], negated: all three fields are truthy. *)
Definition fields_present (s : Submission) : bool :=
  present (repo s) && present (owner s) && present (npm_package_name s).

(** A field that is absent from the object, or the empty string. *)
Definition missing_or_empty (f : option string) : Prop :=
  f = None \/ f = Some EmptyString.

(** The same world with another [JSON.parse]. *)
Definition with_parser (env : Env) (parse : string -> value + string) : Env :=
  {| https_get := https_get env;
     JSON_parse := parse;
     Date_toLocaleString := Date_toLocaleString env |}.

(** What [makeRequest] rejects with when the quota is used up. *)
Definition rateLimitExceeded (env : Env) (hs : headers_t) : Failure :=
  {| status := Some 429%Z;
     message := "GitHub API rate limit exceeded. Resets at " ++
                Date_toLocaleString env (header "x-ratelimit-reset" hs);
     response := Some 429%Z |}.

(** The request at [url] is fulfilled and brings back the document [doc]. *)
Definition fetches (settled : string -> headers_t -> Failure + Response)
    (url : string) (option_headers : headers_t) (doc : value) : Prop :=
  exists resp, settled url option_headers = inr resp /\ data resp = doc.

(** None of the three issues of the repository checks is in the verdict. *)
Definition no_repository_issue (r : AuditResult) : Prop :=
  ~ In Auditor.REPO_PRIVATE (issues r) /\
  ~ In Auditor.REPO_DESCRIPTION (issues r) /\
  ~ In Auditor.REPO_TOPIC (issues r).

(** The repository checks read with the length of the description as it
    stands, before trimming. *)
Definition untrimmed_length_suffices : Prop :=
  forall (env : Env) (this : Auditor.PluginAuditor) (s : Submission)
         (repositoryDoc topicsDoc : value) (d : string) (names : list value)
         (r : AuditResult),
    fields_present s = true ->
    member repositoryDoc "private" = VBool false ->
    member repositoryDoc "description" = VStr d ->
    (10 <= String.length d)%nat ->
    member topicsDoc "names" = VArr names ->
    In (VStr "maiar") names ->
    fetches (Auditor.settled env this) (Auditor.repoUrl s) [] repositoryDoc ->
    fetches (Auditor.settled env this) (Auditor.topicsUrl s) Auditor.topicsOptions
      topicsDoc ->
    fst (Auditor.auditPlugin env this s) = Resolved r ->
    no_repository_issue r.

(** The issues that only the outer [catch] can add. *)
Definition is_unexpected_issue (i : string) : bool :=
  startsWith i Auditor.UNEXPECTED.

(** What the verdict of [audit.js] may hold once the repository checks pass. *)
Definition expected_issue (i : string) : bool :=
  is_npm_issue i || is_unexpected_issue i.

(** [{name, email, url}], in this order and with nothing else. *)
Definition is_structured_author (v : value) : bool :=
  match v with
  | VObj [(k1, _); (k2, _); (k3, _)] =>
      (k1 =? "name") && (k2 =? "email") && (k3 =? "url")
  | _ => false
  end.

(** ** Worlds to run the auditor in *)

Module Scenario.

Import Auditor.

Definition submission : Submission :=
  {| repo := Some "plugin-x";
     owner := Some "acme";
     npm_package_name := Some "plugin-x";
     other_fields := [] |}.

Definition anonymous : PluginAuditor := {| githubToken := None |}.

(** A network that answers the three requests of an audit of [submission]. *)
Definition network (repository topics package : HttpOutcome)
    (url : string) (hs : headers_t) : HttpOutcome :=
  if url =? "https://api.github.com/repos/acme/plugin-x" then repository
  else if url =? "https://api.github.com/repos/acme/plugin-x/topics" then topics
  else if url =? "https://registry.npmjs.org/plugin-x" then package
  else Responded 404 [] "Not Found".

(** Bodies are named rather than spelled out; [documents] is the parser
    restricted to the three bodies of a scenario. *)
Definition documents (repository topics package : value) (body : string)
    : value + string :=
  if body =? "<repository document>" then inl repository
  else if body =? "<topics document>" then inl topics
  else if body =? "<package document>" then inl package
  else inr "Unexpected token < in JSON at position 0".

Definition world (repository topics package : HttpOutcome)
    (repositoryDoc topicsDoc packageDoc : value) : Env :=
  {| https_get := network repository topics package;
     JSON_parse := documents repositoryDoc topicsDoc packageDoc;
     Date_toLocaleString := fun _ => "1/1/2030, 12:00:00 AM" |}.

Definition ok (body : string) : HttpOutcome :=
  Responded 200 [("x-ratelimit-remaining", "59")] body.

Definition repositoryDoc (description : string) : value :=
  VObj [("name", VStr "plugin-x");
        ("full_name", VStr "acme/plugin-x");
        ("owner", VObj [("login", VStr "acme")]);
        ("private", VBool false);
        ("description", VStr description);
        ("stargazers_count", VNum 7);
        ("topics", VArr [VStr "maiar"]);
        ("updated_at", VStr "2025-01-01T00:00:00Z")].

Definition topicsDoc : value := VObj [("names", VArr [VStr "maiar"])].

Definition packageDoc (author : value) : value :=
  VObj [("name", VStr "plugin-x");
        ("dist-tags", VObj [("latest", VStr "1.0.0")]);
        ("time", VObj [("modified", VStr "2025-01-02T00:00:00Z")]);
        ("author", author);
        ("repository",
         VObj [("url", VStr "git+https://github.com/acme/plugin-x.git")])].

(** Everything in order. *)
Definition healthy : Env :=
  world (ok "<repository document>") (ok "<topics document>")
        (ok "<package document>")
        (repositoryDoc "A plugin that does x") topicsDoc (packageDoc (VStr "Jane Doe")).

(** The repository is gone, the package is there. *)
Definition repository_gone : Env :=
  world (Responded 404 [("x-ratelimit-remaining", "58")] "Not Found")
        (ok "<topics document>") (ok "<package document>")
        (repositoryDoc "A plugin that does x") topicsDoc (packageDoc (VStr "Jane Doe")).

(** GitHub answers 403 with the quota used up. *)
Definition rate_limited_headers : headers_t :=
  [("x-ratelimit-limit", "60");
   ("x-ratelimit-remaining", "0");
   ("x-ratelimit-reset", "1893456000")].

Definition rate_limited : Env :=
  world (Responded 403 rate_limited_headers "API rate limit exceeded")
        (ok "<topics document>") (ok "<package document>")
        (repositoryDoc "A plugin that does x") topicsDoc (packageDoc (VStr "Jane Doe")).

(** GitHub answers 403 with quota left. *)
Definition forbidden : Env :=
  world (Responded 403 [("x-ratelimit-remaining", "12")] "Forbidden")
        (ok "<topics document>") (ok "<package document>")
        (repositoryDoc "A plugin that does x") topicsDoc (packageDoc (VStr "Jane Doe")).

(** A submission whose owner is the empty string. *)
Definition ownerless_submission : Submission :=
  {| repo := Some "plugin-x";
     owner := Some EmptyString;
     npm_package_name := Some "plugin-x";
     other_fields := [] |}.

(** The package document as [makeRequest] resolves it in [healthy]. *)
Definition packageResponse : Response :=
  {| data := packageDoc (VStr "Jane Doe");
     resp_status := 200;
     resp_headers := Some [("x-ratelimit-remaining", "59")] |}.

(** The repository data on hand, about to run the package stage. *)
Definition before_package_stage : State :=
  put_repoData
    {| data := repositoryDoc "A plugin that does x";
       resp_status := 200;
       resp_headers := Some [("x-ratelimit-remaining", "59")] |}
    (init submission).

(** A description of ten characters, six of them once trimmed. *)
Definition padded_description : Env :=
  world (ok "<repository document>") (ok "<topics document>")
        (ok "<package document>")
        (repositoryDoc "  plugin  ") topicsDoc (packageDoc (VStr "Jane Doe")).

(** A repository document without an [owner]. *)
Definition ownerless : Env :=
  world (ok "<repository document>") (ok "<topics document>")
        (ok "<package document>")
        (VObj [("private", VBool false);
               ("description", VStr "A plugin that does x")])
        topicsDoc (packageDoc (VStr "Jane Doe")).

(** A package document without [dist-tags]. *)
Definition untagged : Env :=
  world (ok "<repository document>") (ok "<topics document>")
        (ok "<package document>")
        (repositoryDoc "A plugin that does x") topicsDoc
        (VObj [("name", VStr "plugin-x");
               ("repository", VStr "https://github.com/acme/plugin-x")]).

End Scenario.

(** ** What the checks look for, as tests on the fetched documents *)

Module Checks.

(** [x.includes(needle)] for an [x] that has the method: a string or an
    array. *)
Definition value_includes (x : value) (needle : string) : bool :=
  match x with
  | VStr s => includes s needle
  | VArr elems => array_includes elems needle
  | _ => false
  end.

(** A string of at least ten characters once trimmed. *)
Definition description_ok (d : value) : bool :=
  match d with
  | VStr s => truthy d && negb (String.length (trim s) <? 10)%nat
  | _ => false
  end.

(** The repository document raises neither of its two issues. *)
Definition repository_ok (doc : value) : bool :=
  negb (nullish doc) && negb (truthy (member doc "private")) &&
  description_ok (member doc "description").

(** The topics document lists the tag. *)
Definition topics_ok (doc : value) : bool :=
  negb (nullish doc) && value_includes (member doc "names") "maiar".

(** The package document is public and points back to the repository. *)
Definition package_ok (s : Submission) (doc : value) : bool :=
  negb (nullish doc) && negb (truthy (member doc "private")) &&
  value_includes (Auditor.normalizeRepositoryUrl (member doc "repository"))
    (Auditor.ownerSlashRepo s).

(** The two tests on the repository document run without a [TypeError], so
    that the topics request is reached: the document is an object or a
    primitive, and its description is falsy or a string. *)
Definition repository_checks_run (doc : value) : bool :=
  negb (nullish doc) &&
  (negb (truthy (member doc "description")) ||
   (typeof (member doc "description") =? "string")).

(** A settled request that was fulfilled with a document passing [ok]. *)
Definition fulfilled_with (ok : value -> bool) (p : Failure + Response) : bool :=
  match p with
  | inr resp => ok (data resp)
  | inl _ => false
  end.

Definition is_fulfilled (p : Failure + Response) : bool :=
  match p with
  | inr _ => true
  | inl _ => false
  end.

(** What [metadata.github] holds for a truthy repository document whose
    [owner] can be read. *)
Definition githubSummary (s : Submission) (doc : value) : value :=
  VObj [("name", member doc "name");
        ("owner", member (member doc "owner") "login");
        ("fullName", member doc "full_name");
        ("stars", member doc "stargazers_count");
        ("description", member doc "description");
        ("topics", member doc "topics");
        ("lastUpdated", member doc "updated_at");
        ("isPublic", VBool (negb (truthy (member doc "private"))));
        ("url", VStr ("https://github.com/" ++ show (owner s) ++ "/" ++ show (repo s)))].

(** The two entries of [metadata], from the variables of the method. *)
Definition githubEntry (s : Submission) (repoData : option Response) : value :=
  match repoData with
  | Some rd => if truthy (data rd) then githubSummary s (data rd) else VNull
  | None => VNull
  end.

Definition npmEntry (s : Submission) (npmData : value) : value :=
  if truthy npmData then npmSummary s npmData else VNull.

(** The object of the final [return], from the state it is evaluated in. *)
Definition finalResult (st : State) : AuditResult :=
  {| passed := (List.length (var_issues st) =? 0)%nat;
     issues := var_issues st;
     metadata :=
       Some (VObj [("github", githubEntry (heap_submission st) (var_repoData st));
                   ("npm", npmEntry (heap_submission st) (var_npmData st))]) |}.

(** The repository document is truthy and its [owner] is [null] or missing:
    [owner.login] cannot be read. *)
Definition owner_unreadable (repoData : option Response) : bool :=
  match repoData with
  | Some rd => truthy (data rd) && nullish (member (data rd) "owner")
  | None => false
  end.

(** The value has an [includes] method: it is a string or an array. *)
Definition has_includes (v : value) : bool :=
  match v with
  | VStr _ | VArr _ => true
  | _ => false
  end.

(** The repository document passes its checks and its [owner] can be read. *)
Definition repository_passes (doc : value) : bool :=
  repository_ok doc && negb (nullish (member doc "owner")).

(** The data of a fulfilled request, [null] for a rejected one. *)
Definition fetched (p : Failure + Response) : value :=
  match p with
  | inr resp => data resp
  | inl _ => VNull
  end.

(** The three requests of an audit, as they are logged. *)
Definition repositoryRequest (this : Auditor.PluginAuditor) (s : Submission)
    : string * headers_t :=
  (Auditor.repoUrl s, Auditor.request_headers this (Auditor.repoUrl s) []).

Definition topicsRequest (this : Auditor.PluginAuditor) (s : Submission)
    : string * headers_t :=
  (Auditor.topicsUrl s,
   Auditor.request_headers this (Auditor.topicsUrl s) Auditor.topicsOptions).

Definition packageRequest (this : Auditor.PluginAuditor) (s : Submission)
    : string * headers_t :=
  (Auditor.npmUrl s, Auditor.request_headers this (Auditor.npmUrl s) []).

(** The same requests as [audit.js] sends them. *)
Definition repositoryRequest_js (this : Auditor.PluginAuditor) (s : Submission)
    : string * headers_t :=
  (Auditor.repoUrl s, AuditJs.request_headers this (Auditor.repoUrl s) []).

Definition topicsRequest_js (this : Auditor.PluginAuditor) (s : Submission)
    : string * headers_t :=
  (Auditor.topicsUrl s,
   AuditJs.request_headers this (Auditor.topicsUrl s) Auditor.topicsOptions).

Definition packageRequest_js (this : Auditor.PluginAuditor) (s : Submission)
    : string * headers_t :=
  (Auditor.npmUrl s, AuditJs.request_headers this (Auditor.npmUrl s) []).

(** The issue [audit.js] records for a rejected repository request. *)
Definition repositoryIssue_js (error : Failure) : string :=
  if Auditor.is_status (response error) 404 then Auditor.REPO_NOT_FOUND
  else if Auditor.is_status (response error) 403 then AuditJs.REPO_NOT_PUBLIC
  else Auditor.REPO_ERROR ++ message error.

(** The issue either revision records for a rejected package request. *)
Definition packageIssue (error : Failure) : string :=
  if Auditor.is_status (response error) 404 then Auditor.NPM_NOT_FOUND
  else Auditor.NPM_ERROR ++ message error.

(** The [try] block around the topics request runs to its end: the request
    is fulfilled with a document whose [names] has an [includes] method. *)
Definition topics_block_completes (p : Failure + Response) : bool :=
  fulfilled_with
    (fun doc => negb (nullish doc) && has_includes (member doc "names")) p.

(** [dist-tags] and [time] of the package document can be read from. *)
Definition package_readable (doc : value) : bool :=
  negb (nullish (member doc "dist-tags")) && negb (nullish (member doc "time")).

(** What [metadata] holds at the end of [audit.js]. *)
Definition githubSummary_js (doc : value) : value :=
  VObj [("name", member doc "name");
        ("owner", member (member doc "owner") "login");
        ("fullName", member doc "full_name");
        ("stars", member doc "stargazers_count");
        ("description", member doc "description");
        ("topics", member doc "topics");
        ("lastUpdated", member doc "updated_at")].

Definition npmSummary_js (s : Submission) (doc : value) : value :=
  VObj [("name", field_value (npm_package_name s));
        ("version", member (member doc "dist-tags") "latest");
        ("lastPublished", member (member doc "time") "modified");
        ("author", member doc "author");
        ("maintainers", member doc "maintainers")].

Definition finalResult_js (st : State) : AuditResult :=
  {| passed := (List.length (var_issues st) =? 0)%nat;
     issues := var_issues st;
     metadata :=
       Some (VObj [("github",
                    match var_repoData st with
                    | Some rd => githubSummary_js (data rd)
                    | None => VNull
                    end);
                   ("npm",
                    if truthy (var_npmData st)
                    then npmSummary_js (heap_submission st) (var_npmData st)
                    else VNull)]) |}.

(** The final [return] of [audit.js] cannot be evaluated: the repository
    document is [null] or has no [owner] to read [login] from, or the
    package document is truthy without [dist-tags] or [time]. *)
Definition metadata_unreadable_js (repoData : option Response) (npmData : value)
    : bool :=
  match repoData with
  | Some rd => nullish (data rd) || nullish (member (data rd) "owner")
  | None => false
  end ||
  truthy npmData && negb (package_readable npmData).

(** [audit.js] returns early, with a result that has no [metadata]. *)
Definition returns_early_js (env : Env) (this : Auditor.PluginAuditor)
    (s : Submission) : bool :=
  negb (fields_present s) ||
  match AuditJs.settled env this (Auditor.repoUrl s) [] with
  | inl _ => true
  | inr rresp =>
      repository_checks_run (data rresp) &&
      (negb (topics_block_completes
               (AuditJs.settled env this (Auditor.topicsUrl s) Auditor.topicsOptions)) ||
       negb (is_fulfilled (AuditJs.settled env this (Auditor.npmUrl s) [])))
  end.

(** [audit.js] reaches its final [return] and cannot evaluate it. *)
Definition rejects_js (env : Env) (this : Auditor.PluginAuditor)
    (s : Submission) : bool :=
  fields_present s &&
  match AuditJs.settled env this (Auditor.repoUrl s) [] with
  | inl _ => false
  | inr rresp =>
      if repository_checks_run (data rresp) then
        topics_block_completes
          (AuditJs.settled env this (Auditor.topicsUrl s) Auditor.topicsOptions) &&
        fulfilled_with (metadata_unreadable_js (Some rresp))
          (AuditJs.settled env this (Auditor.npmUrl s) [])
      else metadata_unreadable_js (Some rresp) VNull
  end.

(** The package document passes its checks in [audit.js] and its metadata
    can be assembled. *)
Definition package_passes_js (s : Submission) (doc : value) : bool :=
  package_ok s doc && package_readable doc.

(** The verdict of an early return. *)
Definition aborted (found : list string) : AuditResult :=
  {| passed := false; issues := found; metadata := None |}.

(** The headers [makeRequest] starts from, in each revision. *)
Definition defaultHeaders : headers_t :=
  [("User-Agent", "Maiar-Plugin-Auditor");
   ("Accept", "application/vnd.github.v3+json")].

Definition defaultHeaders_js : headers_t :=
  [("User-Agent", "Maiar-Plugin-Auditor")].

(** The token travels with the request. *)
Definition attaches_token (this : Auditor.PluginAuditor) (url : string) : bool :=
  present (Auditor.githubToken this) && includes url "api.github.com".

(** The last value given for [k] in a list of headers, as a spread takes it. *)
Definition last_header (k : string) (hs : headers_t) : option string :=
  header k (rev hs).

(** Every character of [s] passes [p]. *)
Fixpoint all_chars (p : ascii -> bool) (s : string) : bool :=
  match s with
  | EmptyString => true
  | String c rest => p c && all_chars p rest
  end.

(** What [encodeURIComponent] can put out: an unreserved character, or the
    percent sign and upper-case hexadecimal digits of an escape. *)
Definition uri_safe (c : ascii) : bool :=
  uri_unreserved c || Ascii.eqb c "%"%char.

End Checks.

(** ** The command line *)

Module Console.

(** What is written to the console: a line of [console.log]; the status
    line, which carries a check mark or a cross before [PASSED] or
    [FAILED]; the two-space [JSON.stringify] of a value; a [console.error]
    of a label and an error, or of a label and a string. *)
Inductive Output : Type :=
| Log (line : string)
| LogStatus (passed : bool)
| LogJson (v : value)
| LogError (label : string) (error : Failure)
| LogErrorText (label : string) (text : string).

(** [main] runs to its end, or [process.exit] ends the process. *)
Inductive Ending : Type :=
| Completed
| Exit (code : Z).

Record Run : Type := mkRun {
  output : list Output;
  requests : list (string * headers_t);
  ending : Ending
}.

(** Statements that write and may throw: what was written so far, and the
    value or the error. *)
Definition Cmd (A : Type) : Type := list Output * (Failure + A).

Definition done {A} (a : A) : Cmd A := ([], inr a).

Definition raise {A} (e : Failure) : Cmd A := ([], inl e).

Definition and_then {A B} (m : Cmd A) (f : A -> Cmd B) : Cmd B :=
  match m with
  | (out, inl e) => (out, inl e)
  | (out, inr a) => ((out ++ fst (f a))%list, snd (f a))
  end.

Definition log (line : string) : Cmd unit := ([Log line], inr tt).

Definition write (o : Output) : Cmd unit := ([o], inr tt).

(** [v.k] inside [main]. *)
Definition read (v : value) (k : string) : Cmd value :=
  if nullish v then raise (NativeError (cannot_read v k)) else done (member v k).

(** [lines.forEach((line) => console.log(line))]. *)
Definition log_each (lines : list string) : Cmd unit :=
  (map Log lines, inr tt).

Definition has_key (k : string) (ps : list (string * value)) : bool :=
  existsb (fun kv => fst kv =? k) ps.

(** [`${v}`] for a value that came out of [JSON.parse]: an object answers
    [[object Object]] through [Object.prototype.toString], unless a key of
    its own shadows that method with something that cannot be called; an
    array joins its elements with commas, [null] and [undefined] giving
    nothing; an integer is written in decimal, which is what JavaScript
    writes for the integers below ten to the twenty-first. *)
Fixpoint to_string (v : value) : Failure + string :=
  match v with
  | VUndefined => inr "undefined"
  | VNull => inr "null"
  | VBool b => inr (if b then "true" else "false")
  | VNum n => inr (show_Z n)
  | VStr s => inr s
  | VArr elems =>
      (fix join (l : list value) : Failure + string :=
         match l with
         | [] => inr EmptyString
         | x :: rest =>
             match (if nullish x then inr EmptyString else to_string x) with
             | inl e => inl e
             | inr s =>
                 match rest with
                 | [] => inr s
                 | _ :: _ =>
                     match join rest with
                     | inl e => inl e
                     | inr t => inr (s ++ "," ++ t)
                     end
                 end
             end
         end) elems
  | VObj ps =>
      if has_key "toString" ps
      then inl (NativeError "Cannot convert object to primitive value")
      else inr "[object Object]"
  end.

Definition template (v : value) : Cmd string :=
  match to_string v with
  | inl e => raise e
  | inr s => done s
  end.

(** [result.metadata], [undefined] on a result built without the key. *)
Definition metadata_of (r : AuditResult) : value :=
  match metadata r with
  | Some m => m
  | None => VUndefined
  end.

Definition nl : string := String "010" EmptyString.

(** [{ ... } catch (error) { console.error(...); process.exit(1); }] *)
Definition try_main (body : Cmd unit) : list Output * Ending :=
  match body with
  | (out, inr _) => (out, Completed)
  | (out, inl e) => ((out ++ [LogError "Error running audit:" e])%list, Exit 1)
  end.

(** What precedes the call of [auditPlugin] inside the [try]. *)
Definition preamble (githubToken : option string) : list Output :=
  Log (nl ++ "Running audit...") ::
  (if negb (present githubToken)
   then [Log "Note: Running without GitHub token. Rate limits will be stricter."]
   else []).

(** [await auditor.auditPlugin(submission)]: the result, [undefined] for a
    call that ends without a [return]. *)
Definition awaited (o : Outcome) : Cmd (option AuditResult) :=
  match o with
  | Resolved r => done (Some r)
  | ResolvedUndefined => done None
  | Rejected e => raise e
  end.

End Console.

Export Console.

Declare Scope cmd_scope.
Delimit Scope cmd_scope with cmd.
Notation "x <- m ;; k" := (and_then m (fun x => k))
  (at level 61, m at next level, right associativity) : cmd_scope.
Notation "m ;; k" := (and_then m (fun _ => k))
  (at level 61, right associativity) : cmd_scope.

(** [main] of the accumulating revision, from the construction of the
    auditor on: [githubToken] is [process.env.GITHUB_TOKEN] and [submission]
    the object parsed from the command line. *)
Module Main.

Local Open Scope cmd_scope.

Definition NA : value := VStr "N/A".

(** The object written under "Detailed Metadata". *)
Definition fullMetadata (submission : Submission) (result : AuditResult) : value :=
  let github := opt_member (metadata_of result) "github" in
  let npm := opt_member (metadata_of result) "npm" in
  VObj
    [("submission",
      VObj [("repo", or_else (field_value (repo submission)) NA);
            ("owner", or_else (field_value (owner submission)) NA);
            ("npm_package_name",
             or_else (field_value (npm_package_name submission)) NA)]);
     ("github",
      if truthy github then
        VObj [("name", or_else (member github "name") NA);
              ("owner", or_else (member github "owner") NA);
              ("fullName", or_else (member github "fullName") NA);
              ("stars", or_else (member github "stars") (VNum 0));
              ("description", or_else (member github "description") NA);
              ("topics", or_else (member github "topics") (VArr []));
              ("lastUpdated", or_else (member github "lastUpdated") NA);
              ("isPublic", VBool (negb (truthy (member github "private"))));
              ("url", VStr ("https://github.com/" ++ show (owner submission) ++
                            "/" ++ show (repo submission)))]
      else
        VObj [("name", NA);
              ("owner", NA);
              ("fullName", NA);
              ("stars", VNum 0);
              ("description", NA);
              ("topics", VArr []);
              ("lastUpdated", NA);
              ("isPublic", VStr "Unknown");
              ("url", VStr ("https://github.com/" ++ show (owner submission) ++
                            "/" ++ show (repo submission)))]);
     ("npm",
      if truthy npm then
        VObj [("name", or_else (member npm "name") NA);
              ("version", or_else (member npm "version") NA);
              ("lastPublished", or_else (member npm "lastPublished") NA);
              ("author",
               if typeof (member npm "author") =? "object" then
                 VObj [("name", or_else (opt_member (member npm "author") "name") NA);
                       ("email", or_else (opt_member (member npm "author") "email") NA);
                       ("url", or_else (opt_member (member npm "author") "url") NA)]
               else
                 VObj [("name", or_else (member npm "author") NA);
                       ("email", NA);
                       ("url", NA)]);
              ("maintainers", or_else (member npm "maintainers") (VArr []));
              ("url", VStr ("https://www.npmjs.com/package/" ++
                            show (npm_package_name submission)))]
      else
        VObj [("name", NA);
              ("version", NA);
              ("lastPublished", NA);
              ("author", VObj [("name", NA); ("email", NA); ("url", NA)]);
              ("maintainers", VArr []);
              ("url", VStr ("https://www.npmjs.com/package/" ++
                            show (npm_package_name submission)))])].

(** The statements after the [await]. *)
Definition report (submission : Submission) (result : option AuditResult)
    : Cmd unit :=
  log (nl ++ "Plugin Information:") ;;
  log "==================" ;;
  match result with
  | None => raise (NativeError (cannot_read VUndefined "metadata"))
  | Some r =>
      let github := opt_member (metadata_of r) "github" in
      let npm := opt_member (metadata_of r) "npm" in
      (if truthy github then
         fullName <- template (member github "fullName") ;;
         log ("Repository: " ++ fullName) ;;
         owner_ <- template (member github "owner") ;;
         log ("Owner: " ++ owner_)
       else log "GitHub repository information not available") ;;
      (if truthy npm then
         name <- template (member npm "name") ;;
         log ("NPM Package: " ++ name) ;;
         let author := member npm "author" in
         shown <- (if typeof author =? "object"
                   then name_ <- read author "name" ;;
                        done (or_else name_ (VStr "Unknown"))
                   else done (or_else author (VStr "Unknown"))) ;;
         text <- template shown ;;
         log ("Author: " ++ text)
       else log "NPM package information not available") ;;
      log (nl ++ "Audit Results:") ;;
      log "=============" ;;
      write (LogStatus (passed r)) ;;
      (if (0 <? List.length (issues r))%nat then
         log (nl ++ "Issues Found:") ;;
         log_each (map (fun issue => "- " ++ issue) (issues r))
       else done tt) ;;
      log (nl ++ "Detailed Metadata:") ;;
      write (LogJson (fullMetadata submission r))
  end.

(** [error.response.body] of a rejection of [makeRequest]: the body of an
    answer of 400 and above that was not taken for the rate limit. *)
Definition response_body (env : Env) (this : Auditor.PluginAuditor)
    (url : string) (option_headers : headers_t) : option string :=
  match https_get env url (Auditor.request_headers this url option_headers) with
  | Responded statusCode hs body =>
      if includes url "api.github.com" &&
         Auditor.is_header (header "x-ratelimit-remaining" hs) "0"
      then None
      else if (statusCode >=? 400)%Z then Some body
      else None
  | RequestError _ | GetThrew _ => None
  end.

(** What [auditPlugin] itself writes on its way, which the embedding of the
    method leaves out: the rate-limit lines after a fulfilled repository
    request, and the body of an error answer filed under the generic
    repository issue. *)
Definition written_by_auditPlugin (env : Env) (this : Auditor.PluginAuditor)
    (submission : Submission) : list Output :=
  if fields_present submission then
    match Auditor.settled env this (Auditor.repoUrl submission) [] with
    | inr repoResponse =>
        match resp_headers repoResponse with
        | Some hs =>
            [Log (nl ++ "GitHub API Rate Limit Info:");
             Log ("Remaining: " ++ show (header "x-ratelimit-remaining" hs));
             Log ("Limit: " ++ show (header "x-ratelimit-limit" hs));
             Log ("Resets at: " ++
                  Date_toLocaleString env (header "x-ratelimit-reset" hs))]
        | None => []
        end
    | inl error =>
        if Auditor.is_status (status error) 429 then []
        else if Auditor.is_status (response error) 404 then []
        else if Auditor.is_status (response error) 403 then []
        else if present (response_body env this (Auditor.repoUrl submission) [])
        then [LogErrorText "GitHub API Response:"
                (show (response_body env this (Auditor.repoUrl submission) []))]
        else []
    end
  else [].

Definition main (env : Env) (githubToken : option string)
    (submission : Submission) : Run :=
  let auditor := {| Auditor.githubToken := githubToken |} in
  let (outcome, st) := Auditor.auditPlugin env auditor submission in
  let (out, how) :=
    try_main ((preamble githubToken, inr tt) ;;
              (written_by_auditPlugin env auditor submission, inr tt) ;;
              result <- awaited outcome ;;
              report submission result) in
  {| output := out; requests := net_requests st; ending := how |}.

End Main.

(** [main] of [audit.js], from the construction of the auditor on. *)
Module MainJs.

Local Open Scope cmd_scope.

Definition report (result : option AuditResult) : Cmd unit :=
  log (nl ++ "Plugin Information:") ;;
  log "==================" ;;
  match result with
  | None => raise (NativeError (cannot_read VUndefined "metadata"))
  | Some r =>
      github <- read (metadata_of r) "github" ;;
      (if truthy github then
         fullName <- template (member github "fullName") ;;
         log ("Repository: " ++ fullName) ;;
         owner_ <- template (member github "owner") ;;
         log ("Owner: " ++ owner_)
       else done tt) ;;
      npm <- read (metadata_of r) "npm" ;;
      (if truthy npm then
         name <- template (member npm "name") ;;
         log ("NPM Package: " ++ name) ;;
         let author := member npm "author" in
         shown <- (if typeof author =? "object"
                   then read author "name"
                   else done author) ;;
         text <- template shown ;;
         log ("Author: " ++ text)
       else done tt) ;;
      log (nl ++ "Audit Results:") ;;
      log "=============" ;;
      write (LogStatus (passed r)) ;;
      (if (0 <? List.length (issues r))%nat then
         log (nl ++ "Issues Found:") ;;
         log_each (map (fun issue => "- " ++ issue) (issues r))
       else done tt) ;;
      (if truthy (metadata_of r) then
         log (nl ++ "Detailed Metadata:") ;;
         write (LogJson (metadata_of r))
       else done tt)
  end.

Definition main (env : Env) (githubToken : option string)
    (submission : Submission) : Run :=
  let auditor := {| Auditor.githubToken := githubToken |} in
  let (outcome, st) := AuditJs.auditPlugin env auditor submission in
  let (out, how) :=
    try_main ((preamble githubToken, inr tt) ;;
              result <- awaited outcome ;;
              report result) in
  {| output := out; requests := net_requests st; ending := how |}.

End MainJs.

(** ** More worlds *)

Module Cases.

Import Scenario.

Definition usual (repository topics package : HttpOutcome) (repositoryDocument : value)
    (packageDocument : value) : Env :=
  world repository topics package repositoryDocument topicsDoc packageDocument.

(** The description of the repository is a number. *)
Definition numeric_description : Env :=
  usual (ok "<repository document>") (ok "<topics document>") (ok "<package document>")
    (VObj [("owner", VObj [("login", VStr "acme")]);
           ("private", VBool true);
           ("description", VNum 5)])
    (packageDoc (VStr "Jane Doe")).

(** GitHub cannot be reached. *)
Definition offline : Env :=
  usual (RequestError "getaddrinfo ENOTFOUND api.github.com")
    (ok "<topics document>") (ok "<package document>")
    (repositoryDoc "A plugin that does x") (packageDoc (VStr "Jane Doe")).

(** GitHub answers 200 with a page that is not JSON. *)
Definition html_answer : Env :=
  usual (ok "<html>") (ok "<topics document>") (ok "<package document>")
    (repositoryDoc "A plugin that does x") (packageDoc (VStr "Jane Doe")).

(** GitHub answers 429 with quota left. *)
Definition throttled : Env :=
  usual (Responded 429 [("x-ratelimit-remaining", "12")] "Too Many Requests")
    (ok "<topics document>") (ok "<package document>")
    (repositoryDoc "A plugin that does x") (packageDoc (VStr "Jane Doe")).

(** The registry does not know the package. *)
Definition package_gone : Env :=
  usual (ok "<repository document>") (ok "<topics document>")
    (Responded 404 [] "Not Found")
    (repositoryDoc "A plugin that does x") (packageDoc (VStr "Jane Doe")).

(** The registry answers with the document [null]. *)
Definition null_package : Env :=
  usual (ok "<repository document>") (ok "<topics document>") (ok "<package document>")
    (repositoryDoc "A plugin that does x") VNull.

(** A private repository, everything else in order. *)
Definition private_repository : Env :=
  usual (ok "<repository document>") (ok "<topics document>") (ok "<package document>")
    (VObj [("name", VStr "plugin-x");
           ("full_name", VStr "acme/plugin-x");
           ("owner", VObj [("login", VStr "acme")]);
           ("private", VBool true);
           ("description", VStr "A plugin that does x")])
    (packageDoc (VStr "Jane Doe")).

(** The quota runs out between the repository and the topics request. *)
Definition topics_rate_limited : Env :=
  usual (ok "<repository document>")
    (Responded 200 rate_limited_headers "<topics document>")
    (ok "<package document>")
    (repositoryDoc "A plugin that does x") (packageDoc (VStr "Jane Doe")).


End Cases.

(** ** Readings that one of the two revisions does not bear out *)

(** After a rejected repository request [audit.js] goes on to the package
    and returns metadata. *)
Definition audit_js_keeps_auditing : Prop :=
  forall (env : Env) (this : Auditor.PluginAuditor) (s : Submission) (e : Failure),
    fields_present s = true ->
    AuditJs.settled env this (Auditor.repoUrl s) [] = inl e ->
    exists r st,
      AuditJs.auditPlugin env this s = (Resolved r, st) /\
      In (Auditor.npmUrl s, AuditJs.request_headers this (Auditor.npmUrl s) [])
         (net_requests st) /\
      metadata r <> None.

(** Whichever GitHub request of an audit is cut short by the rate limit, the
    message of the rejection is itself one of the issues. *)
Definition rate_limit_message_is_an_issue : Prop :=
  forall (env : Env) (this : Auditor.PluginAuditor) (s : Submission)
         (url : string) (opts : headers_t) (code : Z) (hs : headers_t) (body : string)
         (r : AuditResult) (st : State),
    fields_present s = true ->
    includes url "api.github.com" = true ->
    https_get env url (Auditor.request_headers this url opts) = Responded code hs body ->
    header "x-ratelimit-remaining" hs = Some "0" ->
    Auditor.auditPlugin env this s = (Resolved r, st) ->
    In (url, Auditor.request_headers this url opts) (net_requests st) ->
    In ("GitHub API rate limit exceeded. Resets at " ++
        Date_toLocaleString env (header "x-ratelimit-reset" hs))
       (issues r).

(** The issue for a rejected repository request, read off the status alone:
    not found, forbidden, or the generic issue. *)
Definition issue_by_status (e : Failure) : string :=
  if Auditor.is_status (status e) 404 then Auditor.REPO_NOT_FOUND
  else if Auditor.is_status (status e) 403
       then Auditor.REPO_FORBIDDEN ++ message e
  else Auditor.REPO_ERROR ++ message e.

(** A revision, given by its [makeRequest] and its [auditPlugin], files
    every rejection of the repository request that is not cut short by the
    rate limit under [issue_by_status]. *)
Definition repository_issue_goes_by_status
    (request_headers : Auditor.PluginAuditor -> string -> headers_t -> headers_t)
    (settled : Env -> Auditor.PluginAuditor -> string -> headers_t ->
               Failure + Response)
    (auditPlugin : Env -> Auditor.PluginAuditor -> Submission -> Outcome * State)
    : Prop :=
  forall (env : Env) (this : Auditor.PluginAuditor) (s : Submission) (e : Failure)
         (r : AuditResult),
    fields_present s = true ->
    settled env this (Auditor.repoUrl s) [] = inl e ->
    (forall code hs body,
        https_get env (Auditor.repoUrl s)
          (request_headers this (Auditor.repoUrl s) []) = Responded code hs body ->
        header "x-ratelimit-remaining" hs <> Some "0") ->
    fst (auditPlugin env this s) = Resolved r ->
    exists rest, issues r = issue_by_status e :: rest.

(** Every author that [audit.js] puts into [metadata.npm] has the structured
    form. *)
Definition audit_js_structures_the_author : Prop :=
  forall (env : Env) (this : Auditor.PluginAuditor) (s : Submission)
         (r : AuditResult) (md : value),
    fst (AuditJs.auditPlugin env this s) = Resolved r ->
    metadata r = Some md ->
    member md "npm" <> VNull ->
    is_structured_author (member (member md "npm") "author") = true.

(** * Proofs *)

(** ** Rules of the program logic *)

Section FrameRules.

Context {A B : Type}.

Lemma frames_ret (a : A) : frames (ret a).
Proof. intro st; reflexivity. Qed.

Lemma frames_throw (e : Failure) : frames (@throw A e).
Proof. intro st; reflexivity. Qed.

Lemma frames_return (r : AuditResult) : frames (@return_ A r).
Proof. intro st; reflexivity. Qed.

Lemma frames_bind (m : M A) (f : A -> M B) :
  frames m -> (forall a, frames (f a)) -> frames (bind m f).
Proof.
  intros Hm Hf st. unfold bind. specialize (Hm st).
  destruct (m st) as [[a | r | e] st1]; cbn in *; auto.
  rewrite Hf. exact Hm.
Qed.

Lemma frames_try_catch (body : M A) (handler : Failure -> M A) :
  frames body -> (forall e, frames (handler e)) -> frames (try_catch body handler).
Proof.
  intros Hm Hh st. unfold try_catch. specialize (Hm st).
  destruct (body st) as [[a | r | e] st1]; cbn in *; auto.
  rewrite Hh. exact Hm.
Qed.

Lemma frames_await (p : Failure + A) : frames (await p).
Proof. destruct p; intro st; reflexivity. Qed.

End FrameRules.

Lemma frames_when (b : bool) (m : M unit) : frames m -> frames (when b m).
Proof. destruct b; cbn; [ auto | apply frames_ret ]. Qed.

Lemma frames_push (msg : string) : frames (push msg).
Proof. intro st; reflexivity. Qed.

Lemma frames_set_repoData (r : Response) : frames (set_repoData r).
Proof. intro st; reflexivity. Qed.

Lemma frames_set_npmData (v : value) : frames (set_npmData v).
Proof. intro st; reflexivity. Qed.

Lemma frames_log_request (url : string) (hs : headers_t) : frames (log_request url hs).
Proof. intro st; reflexivity. Qed.

Lemma frames_get_submission : frames get_submission.
Proof. intro st; reflexivity. Qed.

Lemma frames_get_issues : frames get_issues.
Proof. intro st; reflexivity. Qed.

Lemma frames_get_repoData : frames get_repoData.
Proof. intro st; reflexivity. Qed.

Lemma frames_get_npmData : frames get_npmData.
Proof. intro st; reflexivity. Qed.

Lemma frames_prop (v : value) (k : string) : frames (prop v k).
Proof. unfold prop. destruct (nullish v); intro st; reflexivity. Qed.

Create HintDb frame.
#[local] Hint Resolve frames_when frames_push frames_set_repoData frames_set_npmData
  frames_log_request frames_get_submission frames_get_issues frames_get_repoData
  frames_get_npmData frames_prop : frame.
#[local] Hint Extern 1 (frames (ret _)) => apply frames_ret : frame.
#[local] Hint Extern 1 (frames (throw _)) => apply frames_throw : frame.
#[local] Hint Extern 1 (frames (return_ _)) => apply frames_return : frame.
#[local] Hint Extern 1 (frames (await _)) => apply frames_await : frame.

(** Walks through a method body: one rule per construct, a case split per
    conditional. *)
Ltac frame_step :=
  match goal with
  | |- frames (bind _ _) => apply frames_bind; [ | intro ]
  | |- frames (try_catch _ _) => apply frames_try_catch; [ | intro ]
  | |- frames (if ?c then _ else _) => destruct c
  | |- frames (match ?x with _ => _ end) => destruct x
  | |- frames _ => solve [ auto with frame ]
  end.

Ltac frame_walk := repeat frame_step.

Lemma frames_call_includes expr x needle : frames (Auditor.call_includes expr x needle).
Proof. unfold Auditor.call_includes. frame_walk. Qed.

Lemma frames_description_too_short d : frames (Auditor.description_too_short d).
Proof. unfold Auditor.description_too_short. frame_walk. Qed.

Lemma frames_makeRequest env this url hs : frames (Auditor.makeRequest env this url hs).
Proof. unfold Auditor.makeRequest. frame_walk. Qed.

Lemma frames_makeRequest_js env this url hs : frames (AuditJs.makeRequest env this url hs).
Proof. unfold AuditJs.makeRequest. frame_walk. Qed.

#[local] Hint Resolve frames_call_includes frames_description_too_short
  frames_makeRequest frames_makeRequest_js : frame.

Lemma frames_auditBody env this : frames (Auditor.auditBody env this).
Proof.
  unfold Auditor.auditBody, Auditor.tryBlock, Auditor.finalReturn,
    Auditor.fetchRepository, Auditor.checkRepository, Auditor.checkTopics,
    Auditor.checkNpmPackage, Auditor.crossReference, Auditor.githubMetadata,
    Auditor.npmMetadata.
  frame_walk.
Qed.

Lemma frames_auditBody_js env this : frames (AuditJs.auditBody env this).
Proof.
  unfold AuditJs.auditBody, AuditJs.tryBlock, AuditJs.finalReturn,
    AuditJs.fetchRepository, AuditJs.checkTopics, AuditJs.abort,
    AuditJs.fetchNpmPackage, AuditJs.githubMetadata,
    AuditJs.npmMetadata.
  frame_walk.
Qed.

(** C10. [auditPlugin] never writes to its argument: in both revisions, and
    whether the call resolves early, resolves at the end or rejects, the
    submission object (its three fields and whatever else it holds) is
    afterwards what it was before. *)
Theorem auditPlugin_leaves_submission_untouched :
  forall (env : Env) (this : Auditor.PluginAuditor) (submission : Submission),
    heap_submission (snd (Auditor.auditPlugin env this submission)) = submission /\
    heap_submission (snd (AuditJs.auditPlugin env this submission)) = submission.
Proof.
  intros env this s. split.
  - unfold Auditor.auditPlugin.
    pose proof (frames_auditBody env this (init s)) as H.
    destruct (Auditor.auditBody env this (init s)) as [c st]. exact H.
  - unfold AuditJs.auditPlugin.
    pose proof (frames_auditBody_js env this (init s)) as H.
    destruct (AuditJs.auditBody env this (init s)) as [c st]. exact H.
Qed.

Section ReturnRules.

Context {A B : Type}.

Variable P : AuditResult -> Prop.

Lemma no_return_returns (m : M A) : no_return m -> returns P m.
Proof. intros H st r E. destruct (H st r E). Qed.

Lemma returns_bind (m : M A) (f : A -> M B) :
  returns P m -> (forall a, returns P (f a)) -> returns P (bind m f).
Proof.
  intros Hm Hf st r. unfold bind. specialize (Hm st).
  destruct (m st) as [[a | r1 | e] st1]; cbn in *.
  - apply Hf.
  - intros E. apply Hm. injection E as ->. reflexivity.
  - discriminate.
Qed.

Lemma returns_try_catch (body : M A) (handler : Failure -> M A) :
  returns P body -> (forall e, returns P (handler e)) ->
  returns P (try_catch body handler).
Proof.
  intros Hm Hh st r. unfold try_catch. specialize (Hm st).
  destruct (body st) as [[a | r1 | e] st1]; cbn in *.
  - discriminate.
  - intros E. apply Hm. exact E.
  - apply Hh.
Qed.

(** The early returns: an issue has just been pushed, and the verdict is
    [passed: false] with the issues gathered so far. *)
Lemma coherent_push_abort (msg : string) :
  returns coherent (push msg ;; @AuditJs.abort A).
Proof.
  intros st r. cbn. intros E. injection E as <-. unfold coherent; cbn.
  split; [ discriminate | ].
  intros E. apply app_eq_nil in E. destruct E as [_ E]. discriminate.
Qed.

(** They carry no metadata. *)
Lemma bare_push_abort (msg : string) :
  returns (fun r => metadata r = None) (push msg ;; @AuditJs.abort A).
Proof. intros st r. cbn. intros E. injection E as <-. reflexivity. Qed.

Lemma no_return_ret (a : A) : no_return (ret a).
Proof. intros st r; discriminate. Qed.

Lemma no_return_throw (e : Failure) : no_return (@throw A e).
Proof. intros st r; discriminate. Qed.

Lemma no_return_await (p : Failure + A) : no_return (await p).
Proof. destruct p; intros st r; discriminate. Qed.

End ReturnRules.

Lemma no_return_prop (v : value) (k : string) : no_return (prop v k).
Proof. unfold prop. destruct (nullish v); intros st r; discriminate. Qed.

Lemma no_return_when_push (b : bool) (msg : string) : no_return (when b (push msg)).
Proof. destruct b; intros st r; discriminate. Qed.

Lemma coherent_final (iss : list string) (md : option value) :
  coherent {| passed := (List.length iss =? 0)%nat; issues := iss; metadata := md |}.
Proof.
  unfold coherent; cbn. destruct iss; cbn; split; congruence.
Qed.

(** Walks through a method body looking for its [return] statements;
    [leaf] settles the early returns and [last] the final one. *)
Ltac returns_step leaf last :=
  match goal with
  | |- returns _ (bind (push _) (fun _ => AuditJs.abort)) => leaf
  | |- returns _ (bind (if ?c then _ else _) _) => destruct c
  | |- returns _ (bind _ _) => apply returns_bind; [ | intro ]
  | |- returns _ (try_catch _ _) => apply returns_try_catch; [ | intro ]
  | |- returns _ (if ?c then _ else _) => destruct c
  | |- returns _ (match ?x with _ => _ end) => destruct x
  | |- returns _ (prop _ _) => apply no_return_returns, no_return_prop
  | |- returns _ (when _ (push _)) => apply no_return_returns, no_return_when_push
  | |- returns _ (await _) => apply no_return_returns, no_return_await
  | |- returns _ (return_ _) => last
  | |- returns _ _ => apply no_return_returns; intros ? ?; discriminate
  end.

Ltac coherent_walk :=
  repeat returns_step
    ltac:(apply coherent_push_abort)
    ltac:(intros ? ? E; cbn in E; injection E as <-; apply coherent_final).

Lemma coherent_auditBody env this : returns coherent (Auditor.auditBody env this).
Proof.
  unfold Auditor.auditBody, Auditor.tryBlock, Auditor.finalReturn,
    Auditor.fetchRepository, Auditor.checkRepository, Auditor.checkTopics,
    Auditor.checkNpmPackage, Auditor.crossReference, Auditor.githubMetadata,
    Auditor.npmMetadata, Auditor.makeRequest, Auditor.call_includes,
    Auditor.description_too_short.
  change (fun _ : unit => issues <- get_issues ;;
             return_ {| passed := false; issues := issues; metadata := None |})
    with (fun _ : unit => @AuditJs.abort unit).
  coherent_walk.
Qed.

Lemma coherent_auditBody_js env this : returns coherent (AuditJs.auditBody env this).
Proof.
  unfold AuditJs.auditBody, AuditJs.tryBlock, AuditJs.finalReturn,
    AuditJs.fetchRepository, AuditJs.checkTopics,
    AuditJs.fetchNpmPackage, AuditJs.githubMetadata,
    AuditJs.npmMetadata, AuditJs.makeRequest, Auditor.call_includes,
    Auditor.description_too_short.
  coherent_walk.
Qed.

Lemma settle_resolved (c : completion unit) (r : AuditResult) :
  settle c = Resolved r -> c = Return r.
Proof. destruct c; cbn; congruence. Qed.

(** C1. Whatever result [auditPlugin] resolves to, in either revision and
    on every return path (the early returns on missing fields and failed
    fetches, and the final one), [passed] is true exactly when [issues] is
    empty. *)
Theorem passed_iff_no_issues :
  forall (env : Env) (this : Auditor.PluginAuditor) (submission : Submission)
         (r : AuditResult),
    fst (Auditor.auditPlugin env this submission) = Resolved r \/
    fst (AuditJs.auditPlugin env this submission) = Resolved r ->
    (passed r = true <-> issues r = []).
Proof.
  intros env this s r [H | H].
  - unfold Auditor.auditPlugin in H.
    pose proof (coherent_auditBody env this (init s) r) as S.
    destruct (Auditor.auditBody env this (init s)) as [c st]; cbn in *.
    apply S, settle_resolved, H.
  - unfold AuditJs.auditPlugin in H.
    pose proof (coherent_auditBody_js env this (init s) r) as S.
    destruct (AuditJs.auditBody env this (init s)) as [c st]; cbn in *.
    apply S, settle_resolved, H.
Qed.

Import Auditor.

#[local] Arguments repoUrl : simpl never.
#[local] Arguments topicsUrl : simpl never.
#[local] Arguments npmUrl : simpl never.
#[local] Arguments ownerSlashRepo : simpl never.
#[local] Arguments request_headers : simpl never.
#[local] Arguments settled : simpl never.


Lemma run_fetchRepository_failed env this st e :
  settled env this (repoUrl (heap_submission st)) [] = inl e ->
  fetchRepository env this st =
  (Normal tt,
   add_issue (repositoryIssue e)
     (add_request (repoUrl (heap_submission st))
        (request_headers this (repoUrl (heap_submission st)) []) st)).
Proof.
  intros H.
  unfold fetchRepository, makeRequest, try_catch, bind, get_submission, log_request.
  rewrite H. unfold repositoryIssue. cbn.
  destruct (is_status (status e) 429); [ reflexivity | ].
  destruct (is_status (response e) 404); [ reflexivity | ].
  destruct (is_status (response e) 403); reflexivity.
Qed.

Lemma run_fetchRepository_ok env this st resp :
  settled env this (repoUrl (heap_submission st)) [] = inr resp ->
  fetchRepository env this st =
  (Normal tt,
   put_repoData resp
     (add_request (repoUrl (heap_submission st))
        (request_headers this (repoUrl (heap_submission st)) []) st)).
Proof.
  intros H.
  unfold fetchRepository, makeRequest, try_catch, bind, get_submission, log_request.
  rewrite H. reflexivity.
Qed.

Lemma run_checkRepository_skipped env this st :
  var_repoData st = None -> checkRepository env this st = (Normal tt, st).
Proof.
  intros H. unfold checkRepository, bind, get_repoData. rewrite H. reflexivity.
Qed.

Lemma npm_error_is_npm_issue m : is_npm_issue (NPM_ERROR ++ m) = true.
Proof. reflexivity. Qed.

(** Closes a goal of the shape proved for each stage below, once the stage
    has been run to a concrete final state. *)
Ltac stage_done :=
  eexists; eexists;
  split; [ reflexivity | ];
  split; [ reflexivity | ];
  split; [ cbn; first [ reflexivity | congruence ] | ];
  split; [ reflexivity | ];
  split; [ cbn; rewrite <- ?app_assoc;
           first [ reflexivity | symmetry; apply app_nil_r ] | ];
  split; reflexivity.

(** The package stage always runs to its end, makes its one request and
    adds nothing but package issues. *)
Lemma run_checkNpmPackage env this st :
  exists st' delta,
    checkNpmPackage env this st = (Normal tt, st') /\
    heap_submission st' = heap_submission st /\
    var_repoData st' = var_repoData st /\
    net_requests st' =
      (net_requests st ++
       [(npmUrl (heap_submission st),
         request_headers this (npmUrl (heap_submission st)) [])])%list /\
    var_issues st' = (var_issues st ++ delta)%list /\
    forallb is_npm_issue delta = true /\
    var_npmData st' =
      match settled env this (npmUrl (heap_submission st)) [] with
      | inr resp => data resp
      | inl _ => var_npmData st
      end.
Proof.
  unfold checkNpmPackage, crossReference, makeRequest, try_catch, bind, get_submission,
    log_request, set_npmData, get_npmData, get_repoData, prop, call_includes.
  cbn.
  destruct (settled env this (npmUrl (heap_submission st)) []) as [e | resp]; cbn.
  - destruct (is_status (response e) 404); cbn; stage_done.
  - destruct (nullish (data resp)) eqn:N; cbn; [ stage_done | ].
    destruct (truthy (member (data resp) "private")); cbn;
      (destruct (var_repoData st) eqn:R; cbn; [ | stage_done ]);
      (destruct (normalizeRepositoryUrl (member (data resp) "repository")); cbn;
       try stage_done);
      match goal with
      | |- context [when (negb ?b)] => destruct b
      end; cbn; stage_done.
Qed.

Lemma run_npmMetadata st :
  npmMetadata st =
  (Normal (if truthy (var_npmData st)
           then npmSummary (heap_submission st) (var_npmData st)
           else VNull), st).
Proof.
  unfold npmMetadata, bind, get_npmData, get_submission, prop.
  destruct (var_npmData st) as [ | | b | n | x | l | ps ] eqn:E; cbn; try reflexivity.
  - destruct b; reflexivity.
  - destruct (n =? 0)%Z; reflexivity.
  - destruct (x =? EmptyString); reflexivity.
Qed.

Lemma run_githubMetadata_none st :
  var_repoData st = None -> githubMetadata st = (Normal VNull, st).
Proof.
  intros H. unfold githubMetadata, bind, get_repoData. rewrite H. reflexivity.
Qed.

Lemma run_finalReturn_no_repo st :
  var_repoData st = None ->
  finalReturn st =
  (Return {| passed := (List.length (var_issues st) =? 0)%nat;
             issues := var_issues st;
             metadata :=
               Some (VObj [("github", VNull);
                           ("npm", if truthy (var_npmData st)
                                   then npmSummary (heap_submission st) (var_npmData st)
                                   else VNull)]) |}, st).
Proof.
  intros H. unfold finalReturn, bind, get_issues.
  rewrite (run_githubMetadata_none st H), run_npmMetadata. reflexivity.
Qed.

Lemma guard_passes s :
  fields_present s = true ->
  negb (present (repo s)) || negb (present (owner s)) ||
  negb (present (npm_package_name s)) = false.
Proof.
  unfold fields_present.
  destruct (present (repo s)), (present (owner s)), (present (npm_package_name s));
    cbn; congruence.
Qed.

(** What the whole audit does once the repository fetch was rejected. *)
Lemma audit_after_failed_fetch env this s e :
  fields_present s = true ->
  settled env this (repoUrl s) [] = inl e ->
  exists st rest,
    auditPlugin env this s =
    (Resolved
       {| passed := false;
          issues := repositoryIssue e :: rest;
          metadata :=
            Some (VObj [("github", VNull);
                        ("npm",
                         match settled env this (npmUrl s) [] with
                         | inr resp =>
                             if truthy (data resp) then npmSummary s (data resp)
                             else VNull
                         | inl _ => VNull
                         end)]) |}, st) /\
    forallb is_npm_issue rest = true /\
    net_requests st =
      [(repoUrl s, request_headers this (repoUrl s) []);
       (npmUrl s, request_headers this (npmUrl s) [])].
Proof.
  intros F H.
  unfold auditPlugin, auditBody, try_catch, tryBlock, bind, get_submission.
  cbn [init heap_submission]. rewrite (guard_passes s F).
  rewrite run_fetchRepository_failed with (e := e) by exact H.
  rewrite run_checkRepository_skipped by reflexivity.
  match goal with
  | |- context [checkNpmPackage env this ?st1] =>
      destruct (run_checkNpmPackage env this st1)
        as (st2 & delta & E & Hs & Hr & Hn & Hi & Hd & Hv)
  end.
  rewrite E. cbn in Hs, Hr, Hn, Hi, Hv.
  rewrite run_finalReturn_no_repo by exact Hr.
  cbn [settle]. rewrite Hs, Hi, Hv. exists st2, delta.
  split; [ | split; [ exact Hd | exact Hn ] ].
  f_equal. f_equal.
  destruct (settled env this (npmUrl s) []); reflexivity.
Qed.


Lemma present_false f : missing_or_empty f -> present f = false.
Proof. intros [-> | ->]; reflexivity. Qed.

Lemma guard_fires s :
  missing_or_empty (repo s) \/ missing_or_empty (owner s) \/
  missing_or_empty (npm_package_name s) ->
  negb (present (repo s)) || negb (present (owner s)) ||
  negb (present (npm_package_name s)) = true.
Proof.
  intros [H | [H | H]]; rewrite (present_false _ H); cbn;
    rewrite ?orb_true_r; reflexivity.
Qed.

(** C5. A submission with a missing or empty required field is turned away
    at once: [passed] is false, the only issue is the missing-fields one, the
    result carries no metadata and no request has been made; this holds in
    both revisions. *)
Theorem missing_fields_rejected_without_requests :
  forall (env : Env) (this : PluginAuditor) (s : Submission),
    missing_or_empty (repo s) \/ missing_or_empty (owner s) \/
    missing_or_empty (npm_package_name s) ->
    let verdict :=
      Resolved {| passed := false; issues := [MISSING_FIELDS]; metadata := None |} in
    fst (Auditor.auditPlugin env this s) = verdict /\
    net_requests (snd (Auditor.auditPlugin env this s)) = [] /\
    var_repoData (snd (Auditor.auditPlugin env this s)) = None /\
    var_npmData (snd (Auditor.auditPlugin env this s)) = VNull /\
    fst (AuditJs.auditPlugin env this s) = verdict /\
    net_requests (snd (AuditJs.auditPlugin env this s)) = [] /\
    var_repoData (snd (AuditJs.auditPlugin env this s)) = None /\
    var_npmData (snd (AuditJs.auditPlugin env this s)) = VNull.
Proof.
  intros env this s H verdict. subst verdict.
  unfold Auditor.auditPlugin, Auditor.auditBody, Auditor.tryBlock,
    AuditJs.auditPlugin, AuditJs.auditBody, AuditJs.tryBlock,
    try_catch, bind, get_submission.
  cbn [init heap_submission]. rewrite (guard_fires s H). cbn.
  repeat split; reflexivity.
Qed.

(** C2. With the three fields present, a rejected repository fetch does not
    end the audit of the accumulating revision: the package request is still
    made, the promise resolves, and the result carries a [metadata] object
    whose [github] entry is [null] and whose [npm] entry is the summary of
    the package document when that fetch brought back a truthy document
    (and [null] when it was rejected). *)
Theorem failed_repository_fetch_keeps_auditing :
  forall (env : Env) (this : PluginAuditor) (s : Submission) (e : Failure),
    fields_present s = true ->
    settled env this (repoUrl s) [] = inl e ->
    exists r st npm,
      Auditor.auditPlugin env this s = (Resolved r, st) /\
      In (npmUrl s, request_headers this (npmUrl s) []) (net_requests st) /\
      metadata r = Some (VObj [("github", VNull); ("npm", npm)]) /\
      (forall resp,
          settled env this (npmUrl s) [] = inr resp ->
          truthy (data resp) = true ->
          npm = npmSummary s (data resp)) /\
      (forall e',
          settled env this (npmUrl s) [] = inl e' -> npm = VNull).
Proof.
  intros env this s e F H.
  destruct (audit_after_failed_fetch env this s e F H) as (st & rest & E & _ & N).
  eexists; exists st; eexists. split; [ exact E | ].
  split; [ rewrite N; right; left; reflexivity | ].
  split; [ reflexivity | ].
  split.
  - intros resp R T. rewrite R, T. reflexivity.
  - intros e' R. rewrite R. reflexivity.
Qed.

(** A rejection built by [makeRequest] repeats its status under [response],
    or has no [response] at all and then no status other than 500. *)
Lemma settled_rejection_shape env this url hs e :
  settled env this url hs = inl e ->
  response e = status e \/
  (response e = None /\ (status e = Some 500%Z \/ status e = None)).
Proof.
  unfold settled.
  destruct (https_get env url (request_headers this url hs)) as [code h body | msg | msg].
  - destruct (includes url "api.github.com" && is_header (header "x-ratelimit-remaining" h) "0").
    + intros E; injection E as <-; left; reflexivity.
    + destruct (code >=? 400)%Z.
      * intros E; injection E as <-; left; reflexivity.
      * destruct (JSON_parse env body); [ discriminate | ].
        intros E; injection E as <-; right; cbn; auto.
  - intros E; injection E as <-; right; cbn; auto.
  - intros E; injection E as <-; right; cbn; auto.
Qed.

Lemma run_settled_rate_limited env this url opts code hs body :
  includes url "api.github.com" = true ->
  https_get env url (request_headers this url opts) = Responded code hs body ->
  header "x-ratelimit-remaining" hs = Some "0" ->
  settled env this url opts = inl (rateLimitExceeded env hs).
Proof.
  intros U G R. unfold settled. rewrite G, U, R. reflexivity.
Qed.


(** The topics stage wraps whatever its request was rejected with. *)
Lemma run_checkTopics_rejected env this st e :
  settled env this (topicsUrl (heap_submission st)) topicsOptions = inl e ->
  checkTopics env this st =
  (Normal tt,
   add_issue (TOPICS_ERROR ++ message e)
     (add_request (topicsUrl (heap_submission st))
        (request_headers this (topicsUrl (heap_submission st)) topicsOptions) st)).
Proof.
  intros H.
  unfold checkTopics, makeRequest, try_catch, bind, get_submission, log_request.
  rewrite H. reflexivity.
Qed.

(** *** The final [return] *)

(** [metadata.github] is computed without touching the state and without
    a [return]. *)
Lemma run_githubMetadata st :
  exists c, githubMetadata st = (c, st) /\ forall r, c <> Return r.
Proof.
  unfold githubMetadata, bind, get_repoData, get_submission, prop.
  destruct (var_repoData st) as [rd | ]; [ | eexists; split; [ reflexivity | discriminate ] ].
  destruct (truthy (data rd)); [ | eexists; split; [ reflexivity | discriminate ] ].
  destruct (nullish (data rd)); cbn;
    [ eexists; split; [ reflexivity | discriminate ] | ].
  destruct (nullish (member (data rd) "owner")); cbn;
    eexists; (split; [ reflexivity | discriminate ]).
Qed.

Lemma finalReturn_result st c st' :
  finalReturn st = (c, st') ->
  st' = st /\
  forall r, c = Return r ->
    issues r = var_issues st /\
    exists github,
      metadata r =
      Some (VObj [("github", github);
                  ("npm", if truthy (var_npmData st)
                          then npmSummary (heap_submission st) (var_npmData st)
                          else VNull)]).
Proof.
  unfold finalReturn, bind at 1 2, get_issues.
  destruct (run_githubMetadata st) as (g & -> & G).
  destruct g as [gh | r0 | e].
  - unfold bind. rewrite run_npmMetadata. cbn.
    intros E; injection E as <- <-. split; [ reflexivity | ].
    intros r E; injection E as <-. cbn. eauto.
  - destruct (G r0 eq_refl).
  - intros E; injection E as <- <-. split; [ reflexivity | intros r; discriminate ].
Qed.

Lemma bare_tryBlock env this :
  returns (fun r => metadata r = None) (tryBlock env this).
Proof.
  unfold tryBlock, fetchRepository, checkRepository, checkTopics, checkNpmPackage,
    crossReference, makeRequest, call_includes, description_too_short.
  change (fun _ : unit => issues <- get_issues ;;
             return_ {| passed := false; issues := issues; metadata := None |})
    with (fun _ : unit => @AuditJs.abort unit).
  repeat returns_step ltac:(apply bare_push_abort) ltac:(fail).
Qed.

(** A result of the accumulating revision is an early return without
    metadata, or the final [return] evaluated in the state left behind. *)
Lemma auditPlugin_resolved env this s r st :
  auditPlugin env this s = (Resolved r, st) ->
  metadata r = None \/ finalReturn st = (Return r, st).
Proof.
  unfold auditPlugin.
  destruct (auditBody env this (init s)) as [c st0] eqn:B.
  intros E; injection E as E <-. apply settle_resolved in E; subst c.
  revert B. unfold auditBody, bind.
  destruct (try_catch (tryBlock env this)
              (fun error => push (UNEXPECTED ++ message error)) (init s))
    as [[[] | r0 | e] st1] eqn:T.
  - intros F. destruct (finalReturn_result _ _ _ F) as [-> _]. right; exact F.
  - intros E; injection E as <- <-. left.
    assert (R : returns (fun r => metadata r = None)
                  (try_catch (tryBlock env this)
                     (fun error => push (UNEXPECTED ++ message error)))).
    { apply returns_try_catch; [ apply bare_tryBlock | ].
      intros e. apply no_return_returns. intros ? ?; discriminate. }
    apply (R (init s)). rewrite T. reflexivity.
  - discriminate.
Qed.

(** *** The repository checks *)

Lemma trimmed_not_empty d :
  (10 <= String.length (trim d))%nat -> truthy (VStr d) = true.
Proof. destruct d; cbn; [ lia | reflexivity ]. Qed.

Lemma description_long_enough d :
  (10 <= String.length (trim d))%nat ->
  description_too_short (VStr d) = ret false.
Proof.
  intros H. unfold description_too_short. rewrite (trimmed_not_empty d H).
  cbn [negb]. apply Nat.ltb_ge in H. rewrite H. reflexivity.
Qed.

Lemma tagged_maiar names :
  In (VStr "maiar") names -> array_includes names "maiar" = true.
Proof.
  intros H. unfold array_includes. apply existsb_exists.
  exists (VStr "maiar"). split; [ exact H | reflexivity ].
Qed.

Lemma member_is_object v k x : member v k = x -> x <> VUndefined -> nullish v = false.
Proof. destruct v; cbn; congruence. Qed.

Section CleanRepository.

Variables (env : Env) (this : PluginAuditor).
Variables (repositoryDoc topicsDoc : value) (d : string) (names : list value).

Hypothesis public : truthy (member repositoryDoc "private") = false.
Hypothesis described : member repositoryDoc "description" = VStr d.
Hypothesis long_enough : (10 <= String.length (trim d))%nat.
Hypothesis topics_listed : member topicsDoc "names" = VArr names.
Hypothesis tagged : In (VStr "maiar") names.

Lemma repositoryDoc_object : nullish repositoryDoc = false.
Proof. apply (member_is_object _ _ _ described). discriminate. Qed.

Lemma topicsDoc_object : nullish topicsDoc = false.
Proof. apply (member_is_object _ _ _ topics_listed). discriminate. Qed.

(** The repository checks of the accumulating revision add nothing. *)
Lemma run_checkRepository_clean st rresp :
  var_repoData st = Some rresp ->
  data rresp = repositoryDoc ->
  fetches (settled env this) (topicsUrl (heap_submission st)) topicsOptions topicsDoc ->
  checkRepository env this st =
  (Normal tt,
   add_request (topicsUrl (heap_submission st))
     (request_headers this (topicsUrl (heap_submission st)) topicsOptions) st).
Proof.
  intros R D (tresp & T & DT).
  unfold checkRepository, checkTopics, makeRequest, try_catch, bind, get_repoData,
    get_submission, log_request, prop.
  rewrite R, D, repositoryDoc_object. cbn.
  rewrite public, described, (description_long_enough d long_enough). cbn.
  rewrite T. cbn.
  rewrite DT, topicsDoc_object. cbn. rewrite topics_listed. cbn.
  rewrite (tagged_maiar names tagged). reflexivity.
Qed.

Lemma clean_audit s r :
  fields_present s = true ->
  fetches (settled env this) (repoUrl s) [] repositoryDoc ->
  fetches (settled env this) (topicsUrl s) topicsOptions topicsDoc ->
  fst (auditPlugin env this s) = Resolved r ->
  forallb is_npm_issue (issues r) = true.
Proof.
  intros F (rresp & R & D) T.
  unfold auditPlugin, auditBody, try_catch, tryBlock, bind, get_submission.
  cbn [init heap_submission]. rewrite (guard_passes s F).
  rewrite run_fetchRepository_ok with (resp := rresp) by exact R.
  rewrite run_checkRepository_clean with (rresp := rresp);
    [ | reflexivity | exact D | exact T ].
  match goal with
  | |- context [checkNpmPackage env this ?st1] =>
      destruct (run_checkNpmPackage env this st1)
        as (st2 & delta & E & _ & _ & _ & Hi & Hd & _)
  end.
  rewrite E. cbn in Hi.
  destruct (finalReturn st2) as [c st3] eqn:FR.
  destruct (finalReturn_result _ _ _ FR) as [_ I].
  cbn. intros S. apply settle_resolved in S.
  destruct (I r S) as [-> _]. rewrite Hi. exact Hd.
Qed.

Lemma run_githubMetadata_js st :
  exists c, AuditJs.githubMetadata st = (c, st) /\ forall r, c <> Return r.
Proof.
  unfold AuditJs.githubMetadata, bind, get_repoData, prop.
  destruct (var_repoData st) as [rd | ]; [ | eexists; split; [ reflexivity | discriminate ] ].
  destruct (nullish (data rd)); cbn;
    [ eexists; split; [ reflexivity | discriminate ] | ].
  destruct (nullish (member (data rd) "owner")); cbn;
    eexists; (split; [ reflexivity | discriminate ]).
Qed.

Lemma run_npmMetadata_js st :
  exists c, AuditJs.npmMetadata st = (c, st) /\ forall r, c <> Return r.
Proof.
  unfold AuditJs.npmMetadata, bind, get_npmData, get_submission, prop.
  destruct (truthy (var_npmData st)); [ | eexists; split; [ reflexivity | discriminate ] ].
  destruct (nullish (var_npmData st)); cbn;
    [ eexists; split; [ reflexivity | discriminate ] | ].
  destruct (nullish (member (var_npmData st) "dist-tags")); cbn;
    [ eexists; split; [ reflexivity | discriminate ] | ].
  destruct (nullish (member (var_npmData st) "time")); cbn;
    eexists; (split; [ reflexivity | discriminate ]).
Qed.

Lemma finalReturn_issues_js st c st' :
  AuditJs.finalReturn st = (c, st') ->
  forall r, c = Return r -> issues r = var_issues st.
Proof.
  unfold AuditJs.finalReturn, bind at 1 2, get_issues.
  destruct (run_githubMetadata_js st) as (g & -> & G).
  destruct g as [gh | r0 | e].
  - unfold bind. destruct (run_npmMetadata_js st) as (n & -> & N).
    destruct n as [npm | r0 | e].
    + cbn. intros E; injection E as <- <-. intros r E; injection E as <-. reflexivity.
    + destruct (N r0 eq_refl).
    + intros E; injection E as <- <-. intros r; discriminate.
  - destruct (G r0 eq_refl).
  - intros E; injection E as <- <-. intros r; discriminate.
Qed.

(** The same checks in [audit.js]: whatever the package stage does, the
    verdict holds package issues and unexpected-error issues only. *)
Lemma clean_audit_js s r :
  fields_present s = true ->
  fetches (AuditJs.settled env this) (repoUrl s) [] repositoryDoc ->
  fetches (AuditJs.settled env this) (topicsUrl s) topicsOptions topicsDoc ->
  fst (AuditJs.auditPlugin env this s) = Resolved r ->
  forallb expected_issue (issues r) = true.
Proof.
  intros F (rresp & R & D) (tresp & T & DT).
  unfold AuditJs.auditPlugin, AuditJs.auditBody.
  unfold bind at 1.
  assert (Try : exists c st,
             try_catch (AuditJs.tryBlock env this)
               (fun error => push (UNEXPECTED ++ message error)) (init s) = (c, st) /\
             match c with
             | Normal _ => forallb expected_issue (var_issues st) = true
             | Return r0 => forallb expected_issue (issues r0) = true
             | Throw _ => False
             end).
  { unfold AuditJs.tryBlock, AuditJs.fetchRepository, AuditJs.checkTopics,
      AuditJs.fetchNpmPackage, AuditJs.makeRequest, AuditJs.abort,
      try_catch, bind, get_submission, get_issues, get_npmData, log_request,
      set_repoData, set_npmData, prop, call_includes.
    cbn [init heap_submission]. rewrite (guard_passes s F). cbn.
    rewrite R. cbn. rewrite D, repositoryDoc_object. cbn.
    rewrite public, described, (description_long_enough d long_enough). cbn.
    rewrite T. cbn.
    rewrite DT, topicsDoc_object. cbn. rewrite topics_listed. cbn.
    rewrite (tagged_maiar names tagged). cbn.
    destruct (AuditJs.settled env this (npmUrl s) []) as [e | nresp]; cbn.
    - destruct (is_status (response e) 404); cbn;
        eexists; eexists; (split; [ reflexivity | reflexivity ]).
    - destruct (nullish (data nresp)); cbn;
        [ eexists; eexists; (split; [ reflexivity | reflexivity ]) | ].
      destruct (truthy (member (data nresp) "private")); cbn;
        destruct (AuditJs.normalizeRepositoryUrl (member (data nresp) "repository"));
        cbn;
        try (eexists; eexists; (split; [ reflexivity | reflexivity ]));
        match goal with
        | |- context [when (negb ?b)] => destruct b
        end; cbn; eexists; eexists; (split; [ reflexivity | reflexivity ]). }
  destruct Try as (c & st & -> & H).
  destruct c as [[] | r0 | e]; [ | | destruct H ].
  - destruct (AuditJs.finalReturn st) as [c st'] eqn:FR. cbn.
    intros S. apply settle_resolved in S.
    rewrite (finalReturn_issues_js _ _ _ FR r S). exact H.
  - cbn. intros E; injection E as <-. exact H.
Qed.

End CleanRepository.

Lemma only_npm_issues r :
  forallb is_npm_issue (issues r) = true -> no_repository_issue r.
Proof.
  intros H. rewrite forallb_forall in H.
  repeat split; intros I; apply H in I; discriminate.
Qed.

Lemma no_expected_issue_is_a_repository_issue r :
  forallb expected_issue (issues r) = true -> no_repository_issue r.
Proof.
  intros H. rewrite forallb_forall in H.
  repeat split; intros I; apply H in I; discriminate.
Qed.


(** C9 (amended). When the repository document is public, its description
    is at least ten characters long once trimmed, and the topics document
    lists ["maiar"], a verdict of either revision holds none of the three
    issues of the repository checks. *)
Theorem clean_repository_raises_no_repository_issue :
  forall (env : Env) (this : PluginAuditor) (s : Submission)
         (repositoryDoc topicsDoc : value) (d : string) (names : list value)
         (r : AuditResult),
    fields_present s = true ->
    truthy (member repositoryDoc "private") = false ->
    member repositoryDoc "description" = VStr d ->
    (10 <= String.length (trim d))%nat ->
    member topicsDoc "names" = VArr names ->
    In (VStr "maiar") names ->
    (fetches (Auditor.settled env this) (repoUrl s) [] repositoryDoc /\
     fetches (Auditor.settled env this) (topicsUrl s) topicsOptions topicsDoc /\
     fst (Auditor.auditPlugin env this s) = Resolved r) \/
    (fetches (AuditJs.settled env this) (repoUrl s) [] repositoryDoc /\
     fetches (AuditJs.settled env this) (topicsUrl s) topicsOptions topicsDoc /\
     fst (AuditJs.auditPlugin env this s) = Resolved r) ->
    no_repository_issue r.
Proof.
  intros env this s repositoryDoc topicsDoc d names r F P D L T M
    [(R & TR & A) | (R & TR & A)].
  - apply only_npm_issues.
    exact (clean_audit env this repositoryDoc topicsDoc d names P D L T M s r F R TR A).
  - apply no_expected_issue_is_a_repository_issue.
    exact (clean_audit_js env this repositoryDoc topicsDoc d names P D L T M s r F R TR A).
Qed.

(** C9 as first stated: ten characters before trimming are not enough. *)
Lemma padded_description_is_flagged : ~ untrimmed_length_suffices.
Proof.
  intros H.
  assert (E : exists r,
             fst (Auditor.auditPlugin Scenario.padded_description Scenario.anonymous
                    Scenario.submission) = Resolved r /\
             In REPO_DESCRIPTION (issues r)).
  { vm_compute. eexists. split; [ reflexivity | left; reflexivity ]. }
  destruct E as (r & E & I).
  assert (N : no_repository_issue r).
  { apply (H Scenario.padded_description Scenario.anonymous Scenario.submission
             (Scenario.repositoryDoc "  plugin  ") Scenario.topicsDoc
             "  plugin  " [VStr "maiar"] r).
    - reflexivity.
    - reflexivity.
    - reflexivity.
    - cbn. lia.
    - reflexivity.
    - left; reflexivity.
    - eexists. split; vm_compute; reflexivity.
    - eexists. split; vm_compute; reflexivity.
    - exact E. }
  destruct N as (_ & N & _). exact (N I).
Qed.

(** The outer [catch] lets no exception of the [try] block through. *)
Lemma outer_catch_is_total env this st e :
  fst (try_catch (tryBlock env this)
         (fun error => push (UNEXPECTED ++ message error)) st) <> Throw e.
Proof.
  unfold try_catch.
  destruct (tryBlock env this st) as [[[] | r | e0] st1]; cbn; discriminate.
Qed.

Lemma truthy_not_nullish v : truthy v = true -> nullish v = false.
Proof. destruct v; cbn; congruence. Qed.

(** The one way for the accumulating revision to reject: the repository
    document is truthy and its [owner] is [null] or missing. *)
Lemma auditPlugin_rejects_only_on_owner env this s e :
  fst (auditPlugin env this s) = Rejected e ->
  exists rd,
    var_repoData (snd (auditPlugin env this s)) = Some rd /\
    truthy (data rd) = true /\
    nullish (member (data rd) "owner") = true /\
    e = NativeError (cannot_read (member (data rd) "owner") "login").
Proof.
  unfold auditPlugin, auditBody, bind.
  pose proof (outer_catch_is_total env this (init s)) as T.
  destruct (try_catch (tryBlock env this)
              (fun error => push (UNEXPECTED ++ message error)) (init s))
    as [[[] | r0 | e0] st]; cbn in T.
  - unfold finalReturn, githubMetadata, bind, get_issues, get_repoData, get_submission,
      prop.
    destruct (var_repoData st) as [rd | ] eqn:R.
    + destruct (truthy (data rd)) eqn:D.
      * rewrite (truthy_not_nullish _ D). cbn -[npmMetadata].
        destruct (nullish (member (data rd) "owner")) eqn:O; cbn -[npmMetadata].
        -- intros E; injection E as <-. exists rd. rewrite R. auto.
        -- rewrite run_npmMetadata. cbn. discriminate.
      * cbn -[npmMetadata]. rewrite run_npmMetadata. cbn. discriminate.
    + cbn -[npmMetadata]. rewrite run_npmMetadata. cbn. discriminate.
  - cbn. discriminate.
  - destruct (T e0 eq_refl).
Qed.

(** C7. The final [return] is evaluated outside the [try]: when the
    repository document has no [owner], reading [owner.login] throws and the
    promise of the accumulating revision is rejected; in [audit.js] a package
    document without [dist-tags] has the same effect. *)
Theorem metadata_assembly_can_reject :
  fst (Auditor.auditPlugin Scenario.ownerless Scenario.anonymous Scenario.submission) =
    Rejected (NativeError "Cannot read properties of undefined (reading 'login')") /\
  fst (AuditJs.auditPlugin Scenario.untagged Scenario.anonymous Scenario.submission) =
    Rejected (NativeError "Cannot read properties of undefined (reading 'latest')").
Proof. split; vm_compute; reflexivity. Qed.

(** *** The theorems at work on concrete worlds *)

Lemma passed_iff_no_issues_witness :
  let r := {| passed := false;
              issues := ["GitHub repository not found"];
              metadata := None |} in
  fst (AuditJs.auditPlugin Scenario.repository_gone Scenario.anonymous
         Scenario.submission) = Resolved r /\
  (passed r = true <-> issues r = []).
Proof.
  intros r. split; [ vm_compute; reflexivity | ].
  apply (passed_iff_no_issues Scenario.repository_gone Scenario.anonymous
           Scenario.submission r).
  right. vm_compute. reflexivity.
Defined.

Lemma missing_fields_rejected_without_requests_witness :
  missing_or_empty (owner Scenario.ownerless_submission) /\
  fst (Auditor.auditPlugin Scenario.healthy Scenario.anonymous
         Scenario.ownerless_submission) =
    Resolved {| passed := false; issues := [MISSING_FIELDS]; metadata := None |} /\
  net_requests (snd (Auditor.auditPlugin Scenario.healthy Scenario.anonymous
                       Scenario.ownerless_submission)) = [].
Proof.
  assert (M : missing_or_empty (owner Scenario.ownerless_submission))
    by (right; reflexivity).
  split; [ exact M | ].
  destruct (missing_fields_rejected_without_requests Scenario.healthy Scenario.anonymous
              Scenario.ownerless_submission (or_intror (or_introl M)))
    as (V & N & _).
  split; [ exact V | exact N ].
Defined.

Lemma failed_repository_fetch_keeps_auditing_witness :
  fields_present Scenario.submission = true /\
  settled Scenario.repository_gone Scenario.anonymous (repoUrl Scenario.submission) [] =
    inl {| status := Some 404%Z; message := "HTTP 404: Not Found";
           response := Some 404%Z |} /\
  exists r st npm,
    Auditor.auditPlugin Scenario.repository_gone Scenario.anonymous Scenario.submission =
      (Resolved r, st) /\
    In (npmUrl Scenario.submission,
        request_headers Scenario.anonymous (npmUrl Scenario.submission) [])
       (net_requests st) /\
    metadata r = Some (VObj [("github", VNull); ("npm", npm)]) /\
    npm = npmSummary Scenario.submission (data Scenario.packageResponse).
Proof.
  assert (F : fields_present Scenario.submission = true) by reflexivity.
  assert (S : settled Scenario.repository_gone Scenario.anonymous
                (repoUrl Scenario.submission) [] =
              inl {| status := Some 404%Z; message := "HTTP 404: Not Found";
                     response := Some 404%Z |}) by (vm_compute; reflexivity).
  split; [ exact F | ]. split; [ exact S | ].
  destruct (failed_repository_fetch_keeps_auditing Scenario.repository_gone
              Scenario.anonymous Scenario.submission _ F S)
    as (r & st & npm & A & I & M & Ok & _).
  exists r, st, npm. repeat split; try assumption.
  apply (Ok Scenario.packageResponse); vm_compute; reflexivity.
Defined.

Lemma clean_repository_raises_no_repository_issue_witness :
  exists r,
    fst (Auditor.auditPlugin Scenario.healthy Scenario.anonymous Scenario.submission) =
      Resolved r /\
    no_repository_issue r.
Proof.
  eexists. split; [ vm_compute; reflexivity | ].
  apply (clean_repository_raises_no_repository_issue Scenario.healthy Scenario.anonymous
           Scenario.submission (Scenario.repositoryDoc "A plugin that does x")
           Scenario.topicsDoc "A plugin that does x" [VStr "maiar"]).
  - reflexivity.
  - reflexivity.
  - reflexivity.
  - apply Nat.leb_le. vm_compute. reflexivity.
  - reflexivity.
  - left; reflexivity.
  - left. split; [ | split ].
    + eexists. split; vm_compute; reflexivity.
    + eexists. split; vm_compute; reflexivity.
    + vm_compute. reflexivity.
Defined.

(** *** Where [audit.js] goes its own way *)

(** After a failed repository fetch [audit.js] returns at once: one request,
    one issue, no metadata. *)
Remark audit_js_aborts_after_failed_fetch :
  AuditJs.auditPlugin Scenario.repository_gone Scenario.anonymous Scenario.submission =
  (Resolved {| passed := false; issues := [REPO_NOT_FOUND]; metadata := None |},
   add_issue REPO_NOT_FOUND
     (add_request (repoUrl Scenario.submission)
        (AuditJs.request_headers Scenario.anonymous (repoUrl Scenario.submission) [])
        (init Scenario.submission))).
Proof. vm_compute. reflexivity. Qed.

(** It words the 403 case as a visibility problem, and knows no rate limit. *)
Remark audit_js_words_forbidden_differently :
  fst (AuditJs.auditPlugin Scenario.forbidden Scenario.anonymous Scenario.submission) =
    Resolved {| passed := false; issues := [AuditJs.REPO_NOT_PUBLIC]; metadata := None |} /\
  fst (AuditJs.auditPlugin Scenario.rate_limited Scenario.anonymous Scenario.submission) =
    Resolved {| passed := false; issues := [AuditJs.REPO_NOT_PUBLIC]; metadata := None |}.
Proof. split; vm_compute; reflexivity. Qed.

(** It copies the author of the package document as it is. *)
Remark audit_js_keeps_author_as_is :
  exists r md,
    fst (AuditJs.auditPlugin Scenario.healthy Scenario.anonymous Scenario.submission) =
      Resolved r /\
    metadata r = Some md /\
    member (member md "npm") "author" = VStr "Jane Doe".
Proof.
  vm_compute. do 2 eexists.
  split; [ reflexivity | ]. split; reflexivity.
Qed.

(** * The methods and the command line, case by case *)

Import Checks.

(** ** [makeRequest] *)

(** X1. [makeRequest] is fulfilled exactly when a response arrived that is
    not cut short by the rate limit, has a status below 400 and a body that
    parses; the resolved object then carries the parsed body, that status and
    the response headers. *)
Theorem makeRequest_fulfilled_iff :
  forall (env : Env) (this : PluginAuditor) (url : string) (opts : headers_t)
         (resp : Response),
    settled env this url opts = inr resp <->
    exists statusCode hs body,
      https_get env url (request_headers this url opts) =
        Responded statusCode hs body /\
      includes url "api.github.com" &&
        is_header (header "x-ratelimit-remaining" hs) "0" = false /\
      (statusCode < 400)%Z /\
      JSON_parse env body = inl (data resp) /\
      resp_status resp = statusCode /\
      resp_headers resp = Some hs.
Proof.
  intros env this url opts resp. unfold settled. split.
  - destruct (https_get env url (request_headers this url opts))
      as [code hs body | msg | msg]; try discriminate.
    destruct (includes url "api.github.com" &&
              is_header (header "x-ratelimit-remaining" hs) "0") eqn:L;
      [ discriminate | ].
    destruct (code >=? 400)%Z eqn:C; [ discriminate | ].
    destruct (JSON_parse env body) as [v | msg] eqn:J; [ | discriminate ].
    intros E; injection E as <-. exists code, hs, body.
    rewrite Z.geb_leb in C. apply Z.leb_gt in C.
    repeat split; try reflexivity; assumption.
  - intros (code & hs & body & G & L & C & J & S & H).
    rewrite G, L.
    assert (C' : (code >=? 400)%Z = false).
    { rewrite Z.geb_leb. apply Z.leb_gt. exact C. }
    rewrite C', J. destruct resp as [d s h]; cbn in *. subst. reflexivity.
Qed.

(** X2. The status of a settled request tells success from failure, in both
    revisions: a fulfilled request has a status below 400, and the status of
    a rejection, when it has one, is 400 or more. *)
Theorem makeRequest_status_partition :
  forall (env : Env) (this : PluginAuditor) (url : string) (opts : headers_t),
    match settled env this url opts with
    | inr resp => (resp_status resp < 400)%Z
    | inl e => forall c, status e = Some c -> (400 <= c)%Z
    end /\
    match AuditJs.settled env this url opts with
    | inr resp => (resp_status resp < 400)%Z
    | inl e => forall c, status e = Some c -> (400 <= c)%Z
    end.
Proof.
  intros env this url opts. split.
  - unfold settled.
    destruct (https_get env url (request_headers this url opts))
      as [code hs body | msg | msg]; cbn.
    + destruct (includes url "api.github.com" &&
                is_header (header "x-ratelimit-remaining" hs) "0"); cbn.
      * intros c E; injection E as <-. lia.
      * destruct (code >=? 400)%Z eqn:C; cbn.
        -- intros c E; injection E as <-. apply Z.geb_le in C. exact C.
        -- destruct (JSON_parse env body); cbn.
           ++ rewrite Z.geb_leb in C. apply Z.leb_gt in C. exact C.
           ++ intros c E; injection E as <-. lia.
    + intros c E; injection E as <-. lia.
    + discriminate.
  - unfold AuditJs.settled.
    destruct (https_get env url (AuditJs.request_headers this url opts))
      as [code hs body | msg | msg]; cbn; try discriminate.
    destruct (code >=? 400)%Z eqn:C; cbn.
    + intros c E; injection E as <-. apply Z.geb_le in C. exact C.
    + destruct (JSON_parse env body); cbn; [ | discriminate ].
      rewrite Z.geb_leb in C. apply Z.leb_gt in C. exact C.
Qed.

(** *** The headers of a request *)

Lemma header_set_header k k' v hs :
  header k (set_header k' v hs) = if k =? k' then Some v else header k hs.
Proof.
  induction hs as [ | [k0 v0] hs IH]; cbn.
  - destruct (k =? k'); reflexivity.
  - destruct (String.eqb_spec k' k0) as [-> | N]; cbn.
    + destruct (k =? k0); reflexivity.
    + rewrite IH. destruct (String.eqb_spec k k0) as [-> | N'].
      * destruct (String.eqb_spec k0 k') as [E | _]; [ congruence | reflexivity ].
      * reflexivity.
Qed.

Lemma header_app k hs1 hs2 :
  header k (hs1 ++ hs2)%list =
  match header k hs1 with
  | Some v => Some v
  | None => header k hs2
  end.
Proof.
  induction hs1 as [ | [k0 v0] hs1 IH]; cbn; [ reflexivity | ].
  destruct (k =? k0); [ reflexivity | exact IH ].
Qed.

Lemma header_spread k base extra :
  header k (spread base extra) =
  match last_header k extra with
  | Some v => Some v
  | None => header k base
  end.
Proof.
  unfold spread, last_header. revert base.
  induction extra as [ | [k1 v1] extra IH]; intros base; cbn; [ reflexivity | ].
  rewrite IH, header_app, header_set_header. cbn.
  destruct (header k (rev extra)); [ reflexivity | ].
  destruct (k =? k1); reflexivity.
Qed.

Lemma header_of_request this url opts k :
  header k (request_headers this url opts) =
    (if attaches_token this url && (k =? "Authorization")
     then Some ("token " ++ show (githubToken this))
     else match last_header k opts with
          | Some v => Some v
          | None => header k defaultHeaders
          end).
Proof.
  unfold request_headers, attaches_token.
  destruct (present (githubToken this) && includes url "api.github.com"); cbn [andb].
  - rewrite header_set_header.
    destruct (k =? "Authorization"); [ reflexivity | ].
    rewrite header_spread. reflexivity.
  - rewrite header_spread. reflexivity.
Qed.

Lemma header_of_request_js this url opts k :
  header k (AuditJs.request_headers this url opts) =
    (if attaches_token this url && (k =? "Authorization")
     then Some ("token " ++ show (githubToken this))
     else match last_header k opts with
          | Some v => Some v
          | None => header k defaultHeaders_js
          end).
Proof.
  unfold AuditJs.request_headers, attaches_token.
  destruct (present (githubToken this) && includes url "api.github.com"); cbn [andb].
  - rewrite header_set_header.
    destruct (k =? "Authorization"); [ reflexivity | ].
    rewrite header_spread. reflexivity.
  - rewrite header_spread. reflexivity.
Qed.

(** X3. Every header of a request is accounted for, in both revisions: the
    token under [Authorization] when a token is configured and the URL
    contains [api.github.com]; otherwise what the caller gave last under that
    name, and failing that the default ([User-Agent] always, the v3 [Accept]
    in the accumulating revision only). *)
Theorem request_headers_lookup :
  forall (this : PluginAuditor) (url : string) (opts : headers_t) (k : string),
    header k (request_headers this url opts) =
      (if attaches_token this url && (k =? "Authorization")
       then Some ("token " ++ show (githubToken this))
       else match last_header k opts with
            | Some v => Some v
            | None => header k defaultHeaders
            end) /\
    header k (AuditJs.request_headers this url opts) =
      (if attaches_token this url && (k =? "Authorization")
       then Some ("token " ++ show (githubToken this))
       else match last_header k opts with
            | Some v => Some v
            | None => header k defaultHeaders_js
            end).
Proof.
  intros this url opts k. split.
  - apply header_of_request.
  - apply header_of_request_js.
Qed.



(** ** The stages of [auditPlugin], one by one *)

Lemma description_too_short_spec d :
  description_too_short d =
  if negb (truthy d) || (typeof d =? "string")
  then ret (negb (description_ok d))
  else throw (NativeError (not_a_function "repoData.data.description.trim")).
Proof.
  unfold description_too_short.
  destruct d as [ | | b | n | s | l | ps ]; cbn; try reflexivity.
  - destruct b; reflexivity.
  - destruct (n =? 0)%Z; reflexivity.
  - destruct s; cbn; [ reflexivity | ].
    rewrite negb_involutive. reflexivity.
Qed.

Lemma call_includes_spec expr x needle :
  call_includes expr x needle = ret (value_includes x needle) \/
  (value_includes x needle = false /\
   exists msg, call_includes expr x needle = throw (NativeError msg)).
Proof.
  destruct x; cbn; eauto.
Qed.

(** Settles the description of a stage once it has been run to a final
    state: the outcome, the four frame conditions and the issues added; what
    is left is the condition under which no issue was added. *)
Ltac stage_ran :=
  split; [ reflexivity | ];
  split; [ reflexivity | ];
  split; [ cbn; first [ reflexivity | congruence ] | ];
  split; [ reflexivity | ];
  split; [ reflexivity | ];
  split; [ cbn; rewrite <- ?app_assoc;
           first [ reflexivity | symmetry; apply app_nil_r ] | ].

(** The topics stage: one request, and no issue exactly when the topics
    document lists the tag. *)
Lemma run_checkTopics_spec env this st :
  exists st' delta,
    checkTopics env this st = (Normal tt, st') /\
    heap_submission st' = heap_submission st /\
    var_repoData st' = var_repoData st /\
    var_npmData st' = var_npmData st /\
    net_requests st' =
      (net_requests st ++ [topicsRequest this (heap_submission st)])%list /\
    var_issues st' = (var_issues st ++ delta)%list /\
    (delta = [] <->
     fulfilled_with topics_ok
       (settled env this (topicsUrl (heap_submission st)) topicsOptions) = true).
Proof.
  unfold checkTopics, makeRequest, try_catch, bind, get_submission, log_request, prop,
    topicsRequest, fulfilled_with, topics_ok.
  destruct (settled env this (topicsUrl (heap_submission st)) topicsOptions)
    as [e | tresp]; cbn.
  - eexists; eexists. stage_ran. split; discriminate.
  - destruct (nullish (data tresp)); cbn.
    + eexists; eexists. stage_ran. split; discriminate.
    + destruct (call_includes_spec "topicsResponse.data.names"
                  (member (data tresp) "names") "maiar") as [-> | (V & e & ->)]; cbn.
      * destruct (value_includes (member (data tresp) "names") "maiar"); cbn.
        -- eexists; exists []. stage_ran. split; reflexivity.
        -- eexists; eexists. stage_ran. split; discriminate.
      * rewrite V. eexists; eexists. stage_ran. split; discriminate.
Qed.

(** *** Stepping through a body *)

Lemma bind_normal {A B} (m : M A) (f : A -> M B) st a st' :
  m st = (Normal a, st') -> bind m f st = f a st'.
Proof. intros H. unfold bind. rewrite H. reflexivity. Qed.

Lemma bind_throw {A B} (m : M A) (f : A -> M B) st e st' :
  m st = (Throw e, st') -> bind m f st = (Throw e, st').
Proof. intros H. unfold bind. rewrite H. reflexivity. Qed.

Lemma run_prop v k st :
  nullish v = false -> prop v k st = (Normal (member v k), st).
Proof. intros H. unfold prop. rewrite H. reflexivity. Qed.

Lemma run_prop_nullish v k st :
  nullish v = true -> prop v k st = (Throw (NativeError (cannot_read v k)), st).
Proof. intros H. unfold prop. rewrite H. reflexivity. Qed.

Lemma run_when_push b msg st :
  when b (push msg) st = (Normal tt, if b then add_issue msg st else st).
Proof. destruct b; reflexivity. Qed.

Lemma run_description_too_short d st :
  description_too_short d st =
  if negb (truthy d) || (typeof d =? "string")
  then (Normal (negb (description_ok d)), st)
  else (Throw (NativeError (not_a_function "repoData.data.description.trim")), st).
Proof.
  rewrite description_too_short_spec.
  destruct (negb (truthy d) || (typeof d =? "string")); reflexivity.
Qed.

Lemma issues_after_flags (p q : bool) (a b : string) st :
  var_issues (if q then add_issue b (if p then add_issue a st else st)
              else (if p then add_issue a st else st)) =
  (var_issues st ++ (if p then [a] else []) ++ (if q then [b] else []))%list.
Proof.
  destruct p, q; cbn; rewrite <- ?app_assoc, ?app_nil_r; reflexivity.
Qed.

(** The repository checks. When the two tests on the document can be made,
    the topics request follows and the stage runs to its end; it adds no
    issue exactly when the document and the topics document are in order.
    Otherwise a [TypeError] leaves the stage before any request. *)
Lemma run_checkRepository_spec env this st rd :
  var_repoData st = Some rd ->
  exists c st' delta,
    checkRepository env this st = (c, st') /\
    heap_submission st' = heap_submission st /\
    var_repoData st' = var_repoData st /\
    var_npmData st' = var_npmData st /\
    var_issues st' = (var_issues st ++ delta)%list /\
    if repository_checks_run (data rd) then
      c = Normal tt /\
      net_requests st' =
        (net_requests st ++ [topicsRequest this (heap_submission st)])%list /\
      (delta = [] <->
       repository_ok (data rd) &&
       fulfilled_with topics_ok
         (settled env this (topicsUrl (heap_submission st)) topicsOptions) = true)
    else
      (exists msg, c = Throw (NativeError msg)) /\
      net_requests st' = net_requests st /\
      delta = if truthy (member (data rd) "private") then [REPO_PRIVATE] else [].
Proof.
  intros R.
  unfold checkRepository, bind at 1, get_repoData. rewrite R.
  unfold repository_checks_run, repository_ok.
  destruct (nullish (data rd)) eqn:N; cbn [negb andb].
  - rewrite (bind_throw _ _ _ _ _ (run_prop_nullish _ _ _ N)).
    eexists; exists st, []. rewrite app_nil_r.
    split; [ reflexivity | ]. repeat split; eauto.
    destruct (data rd); cbn in N |- *; congruence.
  - rewrite (bind_normal _ _ _ _ _ (run_prop _ _ _ N)).
    rewrite (bind_normal _ _ _ _ _ (run_when_push _ _ _)).
    rewrite (bind_normal _ _ _ _ _ (run_prop _ _ _ N)).
    set (p := truthy (member (data rd) "private")).
    set (d := member (data rd) "description").
    set (st1 := if p then add_issue REPO_PRIVATE st else st).
    assert (F1 : heap_submission st1 = heap_submission st /\
                 var_repoData st1 = var_repoData st /\
                 var_npmData st1 = var_npmData st /\
                 net_requests st1 = net_requests st)
      by (subst st1; destruct p; auto).
    destruct F1 as (Fh & Fr & Fn & Fq).
    unfold bind at 1. rewrite run_description_too_short.
    destruct (negb (truthy d) || (typeof d =? "string")).
    + rewrite (bind_normal _ _ _ _ _ (run_when_push _ _ _)).
      set (q := negb (description_ok d)).
      set (st2 := if q then add_issue REPO_DESCRIPTION st1 else st1).
      assert (F2 : heap_submission st2 = heap_submission st /\
                   var_repoData st2 = var_repoData st /\
                   var_npmData st2 = var_npmData st /\
                   net_requests st2 = net_requests st)
        by (subst st2; destruct q; cbn; auto).
      destruct F2 as (Gh & Gr & Gn & Gq).
      destruct (run_checkTopics_spec env this st2)
        as (st' & delta & E & H1 & H2 & H3 & H4 & H5 & H6).
      rewrite E.
      exists (Normal tt), st',
        ((if p then [REPO_PRIVATE] else []) ++
         (if q then [REPO_DESCRIPTION] else []) ++ delta)%list.
      rewrite Gh in *.
      split; [ reflexivity | ]. split; [ congruence | ]. split; [ congruence | ].
      split; [ congruence | ].
      split.
      { rewrite H5. subst st2 st1. rewrite issues_after_flags.
        rewrite <- !app_assoc. reflexivity. }
      split; [ reflexivity | ]. split; [ congruence | ].
      subst q. destruct p, (description_ok d); cbn; try (split; discriminate).
      exact H6.
    + eexists; exists st1, (if p then [REPO_PRIVATE] else []).
      split; [ reflexivity | ]. split; [ exact Fh | ]. split; [ congruence | ].
      split; [ exact Fn | ].
      split; [ subst st1; destruct p; cbn; rewrite ?app_nil_r; reflexivity | ].
      split; [ eauto | ]. split; [ exact Fq | reflexivity ].
Qed.

(** The package stage with the repository data at hand: no issue exactly
    when the package document is public and points back to the repository. *)
Lemma run_checkNpmPackage_clean env this st rd :
  var_repoData st = Some rd ->
  exists st' delta,
    checkNpmPackage env this st = (Normal tt, st') /\
    var_issues st' = (var_issues st ++ delta)%list /\
    (delta = [] <->
     fulfilled_with (package_ok (heap_submission st))
       (settled env this (npmUrl (heap_submission st)) []) = true).
Proof.
  intros R.
  unfold checkNpmPackage, crossReference, makeRequest, try_catch, bind, get_submission,
    log_request, set_npmData, get_npmData, get_repoData, prop, fulfilled_with, package_ok.
  cbn.
  destruct (settled env this (npmUrl (heap_submission st)) []) as [e | resp]; cbn.
  - destruct (is_status (response e) 404); cbn;
      eexists; eexists; (split; [ reflexivity | ]);
      (split; [ reflexivity | split; discriminate ]).
  - destruct (nullish (data resp)) eqn:N; cbn.
    + eexists; eexists; (split; [ reflexivity | ]);
        (split; [ reflexivity | split; discriminate ]).
    + destruct (truthy (member (data resp) "private")); cbn; rewrite R; cbn;
        (destruct (call_includes_spec "normalizedRepoUrl"
                     (normalizeRepositoryUrl (member (data resp) "repository"))
                     (ownerSlashRepo (heap_submission st)))
           as [-> | (V & e & ->)]; cbn;
         [ destruct (value_includes
                       (normalizeRepositoryUrl (member (data resp) "repository"))
                       (ownerSlashRepo (heap_submission st))); cbn
         | rewrite ?V ]);
        eexists; eexists; (split; [ reflexivity | ]);
        (split; [ cbn; rewrite <- ?app_assoc;
                  first [ reflexivity | symmetry; apply app_nil_r ]
                | split; first [ discriminate | reflexivity ] ]).
Qed.

(** The final [return]: it throws exactly when [owner.login] cannot be read,
    and hands back [finalResult] otherwise. *)
Lemma run_finalReturn st :
  finalReturn st =
  if owner_unreadable (var_repoData st) then
    match var_repoData st with
    | Some rd =>
        (Throw (NativeError (cannot_read (member (data rd) "owner") "login")), st)
    | None => (Return (finalResult st), st)
    end
  else (Return (finalResult st), st).
Proof.
  unfold finalReturn, bind at 1 2, get_issues, githubMetadata, bind at 1, get_repoData.
  unfold owner_unreadable, finalResult, githubEntry.
  destruct (var_repoData st) as [rd | ].
  - destruct (truthy (data rd)) eqn:T; cbn [andb].
    + rewrite (bind_normal _ _ _ _ _ (run_prop _ _ _ (truthy_not_nullish _ T))).
      rewrite (bind_normal _ _ _ _ _ (run_prop _ _ _ (truthy_not_nullish _ T))).
      destruct (nullish (member (data rd) "owner")) eqn:O.
      * rewrite (bind_throw _ _ _ _ _ (run_prop_nullish _ _ _ O)). reflexivity.
      * rewrite (bind_normal _ _ _ _ _ (run_prop _ _ _ O)).
        rewrite !(bind_normal _ _ _ _ _ (run_prop _ _ _ (truthy_not_nullish _ T))).
        unfold bind at 1, get_submission, ret. unfold bind at 1.
        rewrite run_npmMetadata. reflexivity.
    + unfold ret at 1. unfold bind at 1. rewrite run_npmMetadata. reflexivity.
  - unfold ret at 1. unfold bind at 1. rewrite run_npmMetadata. reflexivity.
Qed.

(** ** The whole audit *)

Lemma same_run {A} (m : M A) st a1 s1 a2 s2 :
  m st = (Normal a1, s1) -> m st = (Normal a2, s2) -> s1 = s2.
Proof. intros H1 H2. rewrite H1 in H2. congruence. Qed.

(** What the [try] block leaves behind when the three fields are present:
    the requests made, the data kept and the issues gathered, by the way the
    repository request settled. *)
Lemma run_try_block env this s :
  fields_present s = true ->
  exists st,
    try_catch (tryBlock env this)
      (fun error => push (UNEXPECTED ++ message error)) (init s) = (Normal tt, st) /\
    heap_submission st = s /\
    match settled env this (repoUrl s) [] with
    | inl e =>
        var_repoData st = None /\
        net_requests st = [repositoryRequest this s; packageRequest this s] /\
        var_npmData st = fetched (settled env this (npmUrl s) []) /\
        exists rest, var_issues st = repositoryIssue e :: rest
    | inr rresp =>
        var_repoData st = Some rresp /\
        if repository_checks_run (data rresp) then
          net_requests st =
            [repositoryRequest this s; topicsRequest this s; packageRequest this s] /\
          var_npmData st = fetched (settled env this (npmUrl s) []) /\
          (var_issues st = [] <->
           repository_ok (data rresp) &&
           fulfilled_with topics_ok (settled env this (topicsUrl s) topicsOptions) &&
           fulfilled_with (package_ok s) (settled env this (npmUrl s) []) = true)
        else
          net_requests st = [repositoryRequest this s] /\
          var_npmData st = VNull /\
          exists msg,
            var_issues st =
              ((if truthy (member (data rresp) "private") then [REPO_PRIVATE] else [])
               ++ [(UNEXPECTED ++ msg)%string])%list
    end.
Proof.
  intros F.
  unfold try_catch, tryBlock, bind at 1, get_submission.
  cbn [init heap_submission]. rewrite (guard_passes s F).
  destruct (settled env this (repoUrl s) []) as [e | rresp] eqn:S.
  - rewrite (bind_normal _ _ _ _ _ (run_fetchRepository_failed env this (init s) e S)).
    erewrite bind_normal by (apply run_checkRepository_skipped; reflexivity).
    match goal with
    | |- context [checkNpmPackage env this ?st1] =>
        destruct (run_checkNpmPackage env this st1)
          as (st2 & delta & E & Hs & Hr & Hn & Hi & _ & Hv)
    end.
    rewrite E. exists st2. cbn in Hs, Hr, Hn, Hi, Hv.
    split; [ reflexivity | ]. split; [ exact Hs | ]. split; [ exact Hr | ].
    split; [ exact Hn | ].
    split; [ rewrite Hv; unfold fetched;
             destruct (settled env this (npmUrl s) []); reflexivity | ].
    exists delta. exact Hi.
  - rewrite (bind_normal _ _ _ _ _ (run_fetchRepository_ok env this (init s) rresp S)).
    set (st1 := put_repoData rresp
                  (add_request (repoUrl (heap_submission (init s)))
                     (request_headers this (repoUrl (heap_submission (init s))) [])
                     (init s))).
    destruct (run_checkRepository_spec env this st1 rresp eq_refl)
      as (c & st2 & d1 & E & Hh & Hr & Hn & Hi & Hc).
    cbn in Hh, Hr, Hn, Hi.
    destruct (repository_checks_run (data rresp)).
    + destruct Hc as (-> & Hq & Hd). cbn in Hq.
      unfold st1 in Hd. cbn [heap_submission put_repoData add_request init] in Hd.
      rewrite (bind_normal _ _ _ _ _ E).
      destruct (run_checkNpmPackage env this st2)
        as (st3 & d2 & E2 & Gs & Gr & Gn & Gi & _ & Gv).
      destruct (run_checkNpmPackage_clean env this st2 rresp Hr)
        as (st3' & d3 & E3 & Gi' & Gd).
      assert (st3' = st3) as -> by exact (same_run _ _ _ _ _ _ E3 E2).
      assert (d3 = d2) as ->.
      { rewrite Gi in Gi'. apply app_inv_head in Gi'. congruence. }
      rewrite E2. exists st3. rewrite Hh in *.
      split; [ reflexivity | ]. split; [ congruence | ]. split; [ congruence | ].
      split; [ rewrite Gn, Hq; reflexivity | ].
      split; [ rewrite Gv, Hn; unfold fetched;
               destruct (settled env this (npmUrl s) []); reflexivity | ].
      rewrite Gi, Hi. cbn [app].
      destruct (repository_ok (data rresp) &&
                fulfilled_with topics_ok (settled env this (topicsUrl s) topicsOptions))
        eqn:B; cbn [andb].
      * assert (d1 = []) as -> by (apply Hd; reflexivity). cbn [app]. exact Gd.
      * split; [ | discriminate ].
        intros Z. apply app_eq_nil in Z. destruct Z as [Z _].
        apply Hd in Z. discriminate.
    + destruct Hc as ((msg & ->) & Hq & ->). cbn in Hq.
      rewrite (bind_throw _ _ _ _ _ E). cbn [message NativeError].
      eexists. split; [ reflexivity | ]. cbn.
      split; [ exact Hh | ]. split; [ exact Hr | ].
      split; [ rewrite Hq; reflexivity | ]. split; [ exact Hn | ].
      exists msg. rewrite Hi. reflexivity.
Qed.

Lemma auditPlugin_from_try env this s st :
  try_catch (tryBlock env this)
    (fun error => push (UNEXPECTED ++ message error)) (init s) = (Normal tt, st) ->
  auditPlugin env this s = (settle (fst (finalReturn st)), st).
Proof.
  intros T. unfold auditPlugin, auditBody.
  rewrite (bind_normal _ _ _ _ _ T).
  rewrite run_finalReturn.
  destruct (owner_unreadable (var_repoData st)); [ | reflexivity ].
  destruct (var_repoData st); reflexivity.
Qed.

Lemma auditPlugin_without_fields env this s :
  fields_present s = false ->
  auditPlugin env this s =
  (Resolved {| passed := false; issues := [MISSING_FIELDS]; metadata := None |},
   add_issue MISSING_FIELDS (init s)).
Proof.
  intros F.
  assert (G : negb (present (repo s)) || negb (present (owner s)) ||
              negb (present (npm_package_name s)) = true).
  { unfold fields_present in F.
    destruct (present (repo s)), (present (owner s)), (present (npm_package_name s));
      cbn in *; congruence. }
  unfold auditPlugin, auditBody, tryBlock, try_catch, bind, get_submission.
  cbn [init heap_submission]. rewrite G. reflexivity.
Qed.

Lemma passed_finalResult st : passed (finalResult st) = true <-> var_issues st = [].
Proof.
  unfold finalResult; cbn. destruct (var_issues st); cbn; split; congruence.
Qed.

Lemma repository_ok_truthy doc : repository_ok doc = true -> truthy doc = true.
Proof.
  unfold repository_ok, description_ok.
  destruct doc; cbn; try discriminate; try reflexivity.
  all: rewrite ?andb_false_r; discriminate.
Qed.

Lemma repository_ok_runs doc :
  repository_ok doc = true -> repository_checks_run doc = true.
Proof.
  unfold repository_ok, repository_checks_run, description_ok.
  destruct (nullish doc); cbn; [ discriminate | ].
  destruct (truthy (member doc "private")); cbn; [ discriminate | ].
  destruct (member doc "description"); cbn; try discriminate.
  intros _. apply orb_true_r.
Qed.

(** X5. When the accumulating revision says [passed]: exactly when the three
    fields are present, the three requests are fulfilled, the repository
    document is public with a description of ten characters or more once
    trimmed and an [owner] that can be read, the topics document lists
    ["maiar"], and the package document is public with a repository
    reference that contains [owner/repo]. *)
Theorem audit_passes_iff :
  forall (env : Env) (this : PluginAuditor) (s : Submission),
    (exists r, fst (auditPlugin env this s) = Resolved r /\ passed r = true) <->
    fields_present s = true /\
    fulfilled_with repository_passes (settled env this (repoUrl s) []) = true /\
    fulfilled_with topics_ok (settled env this (topicsUrl s) topicsOptions) = true /\
    fulfilled_with (package_ok s) (settled env this (npmUrl s) []) = true.
Proof.
  intros env this s.
  destruct (fields_present s) eqn:F.
  2:{ rewrite (auditPlugin_without_fields env this s F). cbn. split.
      - intros (r & E & P). injection E as <-. discriminate.
      - intros (X & _); discriminate. }
  destruct (run_try_block env this s F) as (st & T & Hs & H).
  rewrite (auditPlugin_from_try env this s st T). cbn [fst].
  rewrite run_finalReturn. unfold owner_unreadable.
  destruct (settled env this (repoUrl s) []) as [e | rresp]; cbn [fulfilled_with].
  - destruct H as (R & _ & _ & rest & I). rewrite R. cbn. split.
    + intros (r & E & P). injection E as <-.
      apply passed_finalResult in P. congruence.
    + intros (_ & X & _); discriminate.
  - destruct H as (R & H). rewrite R. unfold repository_passes.
    destruct (repository_checks_run (data rresp)) eqn:C.
    + destruct H as (_ & _ & I). split.
      * intros (r & E & P).
        destruct (truthy (data rresp) && nullish (member (data rresp) "owner")) eqn:O;
          cbn in E; [ discriminate | ].
        injection E as <-. apply passed_finalResult, I in P.
        apply andb_prop in P. destruct P as [P P3].
        apply andb_prop in P. destruct P as [P1 P2].
        rewrite P1, P2, P3. rewrite (repository_ok_truthy _ P1) in O. cbn in O.
        rewrite O. auto.
      * intros (_ & P1 & P2 & P3).
        apply andb_prop in P1. destruct P1 as [P1 O].
        apply negb_true_iff in O. rewrite O, andb_false_r. cbn.
        eexists. split; [ reflexivity | ].
        apply passed_finalResult, I. rewrite P1, P2, P3. reflexivity.
    + destruct H as (_ & _ & msg & I). split.
      * intros (r & E & P).
        destruct (truthy (data rresp) && nullish (member (data rresp) "owner"));
          cbn in E; [ discriminate | ].
        injection E as <-. apply passed_finalResult in P. rewrite P in I.
        destruct (truthy (member (data rresp) "private")); discriminate.
      * intros (_ & P1 & _). exfalso.
        apply andb_prop in P1. destruct P1 as [P1 _].
        apply repository_ok_runs in P1. congruence.
Qed.

(** X6. The requests of an audit of the accumulating revision, in order:
    none when a field is missing; the repository and the package when the
    repository request is rejected; the repository alone when the tests on
    its document throw; the repository, the topics and the package
    otherwise. *)
Theorem requests_of_an_audit :
  forall (env : Env) (this : PluginAuditor) (s : Submission),
    net_requests (snd (auditPlugin env this s)) =
    if fields_present s then
      match settled env this (repoUrl s) [] with
      | inl _ => [repositoryRequest this s; packageRequest this s]
      | inr rresp =>
          if repository_checks_run (data rresp)
          then [repositoryRequest this s; topicsRequest this s; packageRequest this s]
          else [repositoryRequest this s]
      end
    else [].
Proof.
  intros env this s.
  destruct (fields_present s) eqn:F.
  2:{ rewrite (auditPlugin_without_fields env this s F). reflexivity. }
  destruct (run_try_block env this s F) as (st & T & _ & H).
  rewrite (auditPlugin_from_try env this s st T). cbn [snd].
  destruct (settled env this (repoUrl s) []) as [e | rresp].
  - destruct H as (_ & Q & _). exact Q.
  - destruct H as (_ & H).
    destruct (repository_checks_run (data rresp)); destruct H as (Q & _); exact Q.
Qed.

(** X7. The metadata of a result of the accumulating revision is a function
    of what was fetched: absent when a field is missing; otherwise [github]
    summarizes the repository document when that request was fulfilled with
    a truthy document, and [npm] summarizes the package document when the
    package was requested and the request fulfilled with a truthy document;
    each is [null] in every other case. *)
Theorem metadata_of_an_audit :
  forall (env : Env) (this : PluginAuditor) (s : Submission) (r : AuditResult),
    fst (auditPlugin env this s) = Resolved r ->
    metadata r =
    if fields_present s then
      Some (VObj
        [("github",
          match settled env this (repoUrl s) [] with
          | inr rresp =>
              if truthy (data rresp) then githubSummary s (data rresp) else VNull
          | inl _ => VNull
          end);
         ("npm",
          match settled env this (repoUrl s) [] with
          | inr rresp =>
              if repository_checks_run (data rresp)
              then npmEntry s (fetched (settled env this (npmUrl s) []))
              else VNull
          | inl _ => npmEntry s (fetched (settled env this (npmUrl s) []))
          end)])
    else None.
Proof.
  intros env this s r.
  destruct (fields_present s) eqn:F.
  2:{ rewrite (auditPlugin_without_fields env this s F). cbn.
      intros E; injection E as <-. reflexivity. }
  destruct (run_try_block env this s F) as (st & T & Hs & H).
  rewrite (auditPlugin_from_try env this s st T). cbn [fst].
  rewrite run_finalReturn.
  assert (G : forall P : Prop,
             (finalResult st = r -> P) ->
             settle (fst (if owner_unreadable (var_repoData st)
                          then match var_repoData st with
                               | Some rd =>
                                   (Throw (NativeError
                                             (cannot_read (member (data rd) "owner")
                                                "login")), st)
                               | None => (Return (finalResult st), st)
                               end
                          else (@Return unit (finalResult st), st))) = Resolved r -> P).
  { intros P K.
    destruct (owner_unreadable (var_repoData st)) eqn:O.
    - destruct (var_repoData st); cbn; [ discriminate | ].
      intros E; injection E as E; auto.
    - cbn. intros E; injection E as E; auto. }
  apply G. intros <-. unfold finalResult. cbn [metadata]. rewrite Hs.
  destruct (settled env this (repoUrl s) []) as [e | rresp].
  - destruct H as (R & _ & V & _). rewrite R, V. reflexivity.
  - destruct H as (R & H). rewrite R. cbn [githubEntry].
    destruct (repository_checks_run (data rresp)).
    + destruct H as (_ & V & _). rewrite V. reflexivity.
    + destruct H as (_ & V & _). rewrite V. reflexivity.
Qed.

(** X8. A repository document on which the tests cannot be made (it is
    [null], or its description is neither falsy nor a string) ends the
    [try] block with a [TypeError]: the repository request is the only one,
    and the issues are the visibility issue, if the document says
    [private], followed by one unexpected-error issue. *)
Theorem untestable_repository_document :
  forall (env : Env) (this : PluginAuditor) (s : Submission) (rresp : Response),
    fields_present s = true ->
    settled env this (repoUrl s) [] = inr rresp ->
    repository_checks_run (data rresp) = false ->
    exists msg,
      let found :=
        ((if truthy (member (data rresp) "private") then [REPO_PRIVATE] else [])
         ++ [(UNEXPECTED ++ msg)%string])%list in
      var_issues (snd (auditPlugin env this s)) = found /\
      net_requests (snd (auditPlugin env this s)) = [repositoryRequest this s] /\
      var_npmData (snd (auditPlugin env this s)) = VNull /\
      forall r, fst (auditPlugin env this s) = Resolved r ->
                issues r = found /\ passed r = false.
Proof.
  intros env this s rresp F S C.
  destruct (run_try_block env this s F) as (st & T & Hs & H).
  rewrite (auditPlugin_from_try env this s st T). cbn [fst snd].
  rewrite S, C in H. destruct H as (R & Q & V & msg & I).
  exists msg. cbn zeta. split; [ exact I | ]. split; [ exact Q | ].
  split; [ exact V | ].
  intros r. rewrite run_finalReturn.
  destruct (owner_unreadable (var_repoData st)).
  - rewrite R. cbn. discriminate.
  - cbn. intros E; injection E as <-. cbn. rewrite I. split; [ reflexivity | ].
    destruct (truthy (member (data rresp) "private")); reflexivity.
Qed.

(** *** Failures of the repository request, from the network up *)

Lemma first_issue_after_failed_fetch env this s e :
  fields_present s = true ->
  settled env this (repoUrl s) [] = inl e ->
  exists r st rest,
    auditPlugin env this s = (Resolved r, st) /\
    issues r = repositoryIssue e :: rest /\
    forallb is_npm_issue rest = true.
Proof.
  intros F S.
  destruct (audit_after_failed_fetch env this s e F S) as (st & rest & A & N & _).
  eexists; exists st, rest. split; [ exact A | ]. split; [ reflexivity | exact N ].
Qed.

(** X9. When the repository request fails on the wire (the request emits
    ["error"]), the first issue is the generic repository issue around
    [Network error: <message>], and the audit goes on to the package. *)
Theorem repository_network_error :
  forall (env : Env) (this : PluginAuditor) (s : Submission) (msg : string),
    fields_present s = true ->
    https_get env (repoUrl s) (request_headers this (repoUrl s) []) =
      RequestError msg ->
    exists r st rest,
      auditPlugin env this s = (Resolved r, st) /\
      issues r = (REPO_ERROR ++ "Network error: " ++ msg) :: rest /\
      forallb is_npm_issue rest = true /\
      In (packageRequest this s) (net_requests st).
Proof.
  intros env this s msg F G.
  assert (S : settled env this (repoUrl s) [] =
              inl {| status := Some 500%Z; message := "Network error: " ++ msg;
                     response := None |}).
  { unfold settled. rewrite G. reflexivity. }
  destruct (audit_after_failed_fetch env this s _ F S) as (st & rest & A & N & Q).
  eexists; exists st, rest. split; [ exact A | ]. split; [ reflexivity | ].
  split; [ exact N | ]. rewrite Q. right; left; reflexivity.
Qed.

(** X10. When the repository request is answered with a status below 400
    and a body that does not parse, the first issue is the generic
    repository issue around [Failed to parse JSON response: <message>]; no
    repository data is kept. *)
Theorem repository_malformed_body :
  forall (env : Env) (this : PluginAuditor) (s : Submission)
         (code : Z) (hs : headers_t) (body msg : string),
    fields_present s = true ->
    https_get env (repoUrl s) (request_headers this (repoUrl s) []) =
      Responded code hs body ->
    header "x-ratelimit-remaining" hs <> Some "0" ->
    (code < 400)%Z ->
    JSON_parse env body = inr msg ->
    exists r st rest,
      auditPlugin env this s = (Resolved r, st) /\
      issues r = (REPO_ERROR ++ "Failed to parse JSON response: " ++ msg) :: rest /\
      forallb is_npm_issue rest = true /\
      var_repoData st = None.
Proof.
  intros env this s code hs body msg F G L C J.
  assert (L' : is_header (header "x-ratelimit-remaining" hs) "0" = false).
  { destruct (header "x-ratelimit-remaining" hs) as [v | ]; cbn; [ | reflexivity ].
    destruct (String.eqb_spec v "0"); [ congruence | reflexivity ]. }
  assert (C' : (code >=? 400)%Z = false).
  { rewrite Z.geb_leb. apply Z.leb_gt. exact C. }
  assert (S : settled env this (repoUrl s) [] =
              inl {| status := Some 500%Z;
                     message := "Failed to parse JSON response: " ++ msg;
                     response := None |}).
  { unfold settled. rewrite G, L', andb_false_r, C', J. reflexivity. }
  destruct (run_try_block env this s F) as (st0 & T & _ & H).
  rewrite S in H. destruct H as (R & _).
  destruct (audit_after_failed_fetch env this s _ F S) as (st & rest & A & N & _).
  eexists; exists st, rest. split; [ exact A | ]. split; [ reflexivity | ].
  split; [ exact N | ].
  rewrite (auditPlugin_from_try env this s st0 T) in A.
  injection A as _ <-. exact R.
Qed.

(** X11. A plain 429 answer to the repository request (quota header not at
    ["0"]) is taken for the rate-limit case: the first issue is the
    rejection's own message, [HTTP 429: <body>], with nothing around it. *)
Theorem repository_plain_429 :
  forall (env : Env) (this : PluginAuditor) (s : Submission)
         (hs : headers_t) (body : string),
    fields_present s = true ->
    https_get env (repoUrl s) (request_headers this (repoUrl s) []) =
      Responded 429 hs body ->
    header "x-ratelimit-remaining" hs <> Some "0" ->
    exists r st rest,
      auditPlugin env this s = (Resolved r, st) /\
      issues r = ("HTTP 429: " ++ body) :: rest /\
      forallb is_npm_issue rest = true.
Proof.
  intros env this s hs body F G L.
  assert (L' : is_header (header "x-ratelimit-remaining" hs) "0" = false).
  { destruct (header "x-ratelimit-remaining" hs) as [v | ]; cbn; [ | reflexivity ].
    destruct (String.eqb_spec v "0"); [ congruence | reflexivity ]. }
  assert (S : settled env this (repoUrl s) [] =
              inl {| status := Some 429%Z; message := "HTTP 429: " ++ body;
                     response := Some 429%Z |}).
  { unfold settled. rewrite G, L', andb_false_r. reflexivity. }
  exact (first_issue_after_failed_fetch env this s _ F S).
Qed.

(** *** The package stage *)

(** X12. A rejected package request adds exactly one issue, chosen by the
    status: the not-found issue for 404, the generic package issue around
    the rejection's message for anything else; the package data stays
    [null]-initialised and the stage never throws. *)
Theorem package_failure_issue :
  forall (env : Env) (this : PluginAuditor) (st : State) (e : Failure),
    settled env this (npmUrl (heap_submission st)) [] = inl e ->
    checkNpmPackage env this st =
    (Normal tt,
     add_issue
       (if is_status (status e) 404 then NPM_NOT_FOUND else NPM_ERROR ++ message e)
       (add_request (npmUrl (heap_submission st))
          (request_headers this (npmUrl (heap_submission st)) []) st)).
Proof.
  intros env this st e S.
  unfold checkNpmPackage, makeRequest, try_catch, bind, get_submission, log_request.
  rewrite S. cbn.
  destruct (settled_rejection_shape env this _ _ e S) as [E | [E [E' | E']]];
    rewrite E, ?E'; cbn; try destruct (is_status (status e) 404); reflexivity.
Qed.

Lemma normalized_not_nullish v : nullish (normalizeRepositoryUrl v) = false.
Proof.
  unfold normalizeRepositoryUrl.
  destruct (negb (truthy v)); [ reflexivity | ].
  destruct (typeof v =? "string") eqn:T.
  - destruct v; cbn in T |- *; congruence.
  - destruct ((typeof v =? "object") && truthy (member v "url")) eqn:U;
      [ | reflexivity ].
    apply andb_prop in U. destruct U as [_ U]. apply truthy_not_nullish, U.
Qed.

(** X13. A [TypeError] raised inside the package block is caught by the
    block's own handler and reported as a package access issue: for a
    [null] package document, and for a repository reference whose
    normalized value has no [includes] method (a truthy [url] that is a
    number, a boolean or an object). In the second case the package data is
    kept all the same. *)
Theorem package_block_type_errors :
  forall (env : Env) (this : PluginAuditor) (st : State) (rd resp : Response),
    var_repoData st = Some rd ->
    settled env this (npmUrl (heap_submission st)) [] = inr resp ->
    (nullish (data resp) = true \/
     has_includes (normalizeRepositoryUrl (member (data resp) "repository")) = false) ->
    exists st',
      checkNpmPackage env this st = (Normal tt, st') /\
      var_npmData st' = data resp /\
      var_issues st' =
        if nullish (data resp)
        then (var_issues st ++
              [(NPM_ERROR ++ cannot_read (data resp) "private")%string])%list
        else (var_issues st ++
              (if truthy (member (data resp) "private") then [NPM_PRIVATE] else []) ++
              [(NPM_ERROR ++ not_a_function "normalizedRepoUrl.includes")%string])%list.
Proof.
  intros env this st rd resp R S H.
  unfold checkNpmPackage, crossReference, makeRequest, try_catch, bind, get_submission,
    log_request, set_npmData, get_npmData, get_repoData, prop, call_includes.
  cbn. rewrite S. cbn.
  destruct (nullish (data resp)) eqn:N; cbn.
  - eexists. split; [ reflexivity | ]. split; reflexivity.
  - destruct H as [H | H]; [ discriminate | ].
    pose proof (normalized_not_nullish (member (data resp) "repository")) as NN.
    destruct (truthy (member (data resp) "private")); cbn; rewrite R; cbn;
      destruct (normalizeRepositoryUrl (member (data resp) "repository"));
      cbn in H, NN; try discriminate; cbn;
      (eexists; split; [ reflexivity | ]; split; [ reflexivity | ]);
      cbn; rewrite <- ?app_assoc; reflexivity.
Qed.

(** ** [audit.js], stage by stage *)

Lemma bind_return {A B} (m : M A) (f : A -> M B) st r st' :
  m st = (Return r, st') -> bind m f st = (Return r, st').
Proof. intros H. unfold bind. rewrite H. reflexivity. Qed.

Lemma settled_js_rejection_shape env this url hs e :
  AuditJs.settled env this url hs = inl e -> response e = status e.
Proof.
  unfold AuditJs.settled.
  destruct (https_get env url (AuditJs.request_headers this url hs))
    as [code h body | msg | msg].
  - destruct (code >=? 400)%Z.
    + intros E; injection E as <-; reflexivity.
    + destruct (JSON_parse env body); [ discriminate | ].
      intros E; injection E as <-; reflexivity.
  - intros E; injection E as <-; reflexivity.
  - intros E; injection E as <-; reflexivity.
Qed.

Lemma run_fetchRepository_js_failed env this st e :
  AuditJs.settled env this (repoUrl (heap_submission st)) [] = inl e ->
  AuditJs.fetchRepository env this st =
  (Return (aborted (var_issues st ++ [repositoryIssue_js e])),
   add_issue (repositoryIssue_js e)
     (add_request (repoUrl (heap_submission st))
        (AuditJs.request_headers this (repoUrl (heap_submission st)) []) st)).
Proof.
  intros H.
  unfold AuditJs.fetchRepository, AuditJs.makeRequest, AuditJs.abort, try_catch, bind,
    get_submission, get_issues, log_request.
  rewrite H. unfold repositoryIssue_js. cbn.
  destruct (is_status (response e) 404); [ reflexivity | ].
  destruct (is_status (response e) 403); reflexivity.
Qed.

Lemma run_fetchRepository_js_ok env this st resp :
  AuditJs.settled env this (repoUrl (heap_submission st)) [] = inr resp ->
  AuditJs.fetchRepository env this st =
  (Normal resp,
   put_repoData resp
     (add_request (repoUrl (heap_submission st))
        (AuditJs.request_headers this (repoUrl (heap_submission st)) []) st)).
Proof.
  intros H.
  unfold AuditJs.fetchRepository, AuditJs.makeRequest, try_catch, bind,
    get_submission, log_request.
  rewrite H. reflexivity.
Qed.

(** The topics stage of [audit.js]: one request; the stage runs to its end
    when its block completes, adding the tag issue unless the tag is listed,
    and returns from the audit otherwise. *)
Lemma run_checkTopics_js env this st :
  exists c st' delta,
    AuditJs.checkTopics env this st = (c, st') /\
    heap_submission st' = heap_submission st /\
    var_repoData st' = var_repoData st /\
    var_npmData st' = var_npmData st /\
    net_requests st' =
      (net_requests st ++ [topicsRequest_js this (heap_submission st)])%list /\
    var_issues st' = (var_issues st ++ delta)%list /\
    if topics_block_completes
         (AuditJs.settled env this (topicsUrl (heap_submission st)) topicsOptions)
    then
      c = Normal tt /\
      (delta = [] <->
       fulfilled_with topics_ok
         (AuditJs.settled env this (topicsUrl (heap_submission st)) topicsOptions) = true)
    else
      c = Return (aborted (var_issues st ++ delta)) /\ delta <> [].
Proof.
  unfold AuditJs.checkTopics, AuditJs.makeRequest, AuditJs.abort, try_catch, bind,
    get_submission, get_issues, log_request, prop, topicsRequest_js,
    topics_block_completes, fulfilled_with, topics_ok.
  destruct (AuditJs.settled env this (topicsUrl (heap_submission st)) topicsOptions)
    as [e | tresp]; cbn.
  - eexists; eexists; eexists. stage_ran. split; [ reflexivity | discriminate ].
  - destruct (nullish (data tresp)); cbn.
    + eexists; eexists; eexists. stage_ran. split; [ reflexivity | discriminate ].
    + destruct (member (data tresp) "names") as [ | | b | n | x | l | ps ]; cbn;
        try (eexists; eexists; eexists; stage_ran;
             split; [ reflexivity | discriminate ]).
      * destruct (includes x "maiar"); cbn.
        -- eexists; eexists; exists []. stage_ran.
           split; [ reflexivity | split; reflexivity ].
        -- eexists; eexists; eexists. stage_ran.
           split; [ reflexivity | split; discriminate ].
      * destruct (array_includes l "maiar"); cbn.
        -- eexists; eexists; exists []. stage_ran.
           split; [ reflexivity | split; reflexivity ].
        -- eexists; eexists; eexists. stage_ran.
           split; [ reflexivity | split; discriminate ].
Qed.

Lemma run_fetchNpmPackage_js env this st :
  AuditJs.fetchNpmPackage env this st =
  match AuditJs.settled env this (npmUrl (heap_submission st)) [] with
  | inr resp =>
      (Normal tt,
       put_npmData (data resp)
         (add_request (npmUrl (heap_submission st))
            (AuditJs.request_headers this (npmUrl (heap_submission st)) []) st))
  | inl e =>
      (Return (aborted (var_issues st ++ [packageIssue e])),
       add_issue (packageIssue e)
         (add_request (npmUrl (heap_submission st))
            (AuditJs.request_headers this (npmUrl (heap_submission st)) []) st))
  end.
Proof.
  unfold AuditJs.fetchNpmPackage, AuditJs.makeRequest, AuditJs.abort, try_catch, bind,
    get_submission, get_issues, log_request, packageIssue.
  destruct (AuditJs.settled env this (npmUrl (heap_submission st)) []) as [e | resp];
    cbn; [ | reflexivity ].
  destruct (is_status (response e) 404); reflexivity.
Qed.

Lemma not_nil_app {A} (l : list A) (x : A) : (l ++ [x])%list <> [].
Proof. intros E. apply app_eq_nil in E. destruct E as [_ E]. discriminate. Qed.

Lemma not_nil_app_r {A} (l d : list A) : d <> [] -> (l ++ d)%list <> [].
Proof. intros N E. apply app_eq_nil in E. destruct E as [_ E]. auto. Qed.

(** The end of the [try] block of [audit.js], from the package data on: it
    runs to its end without an issue exactly when the package document is
    in order, and throws a [TypeError] or adds an issue otherwise. *)
Lemma run_package_checks_js st doc :
  var_npmData st = doc ->
  exists c st' delta,
    (npmData <- get_npmData ;;
     npm_private <- prop npmData "private" ;;
     when (truthy npm_private) (push NPM_PRIVATE) ;;
     repository <- prop npmData "repository" ;;
     let normalizedRepoUrl := AuditJs.normalizeRepositoryUrl repository in
     s <- get_submission ;;
     matches <- call_includes "normalizedRepoUrl" normalizedRepoUrl
                  (ownerSlashRepo s) ;;
     when (negb matches) (push NPM_MISMATCH)) st = (c, st') /\
    heap_submission st' = heap_submission st /\
    var_repoData st' = var_repoData st /\
    var_npmData st' = var_npmData st /\
    net_requests st' = net_requests st /\
    var_issues st' = (var_issues st ++ delta)%list /\
    ((c = Normal tt /\ delta = [] /\ package_ok (heap_submission st) doc = true) \/
     (c = Normal tt /\ delta <> [] /\ package_ok (heap_submission st) doc = false) \/
     ((exists msg, c = Throw (NativeError msg)) /\
      package_ok (heap_submission st) doc = false)).
Proof.
  intros V.
  unfold bind, get_npmData, get_submission, prop, call_includes, package_ok.
  rewrite V.
  change AuditJs.normalizeRepositoryUrl with normalizeRepositoryUrl.
  destruct (nullish doc); cbn.
  - eexists; eexists; exists []. rewrite app_nil_r.
    repeat (split; [ first [ reflexivity | exact V ] | ]). right; right. eauto.
  - destruct (truthy (member doc "private")); cbn;
      destruct (normalizeRepositoryUrl (member doc "repository")); cbn;
      try match goal with
        | |- context [when (negb ?b)] => destruct b
        end; cbn;
      eexists; eexists; eexists;
      (split; [ reflexivity | ]); (split; [ reflexivity | ]);
      (split; [ reflexivity | ]); (split; [ exact V | ]);
      (split; [ reflexivity | ]);
      (split; [ cbn; rewrite <- ?app_assoc;
                first [ reflexivity | symmetry; apply app_nil_r ] | ]);
      first [ left; split; [ reflexivity | split; reflexivity ]
            | right; left; split; [ reflexivity | split; [ discriminate | reflexivity ] ]
            | right; right; split; [ eauto | reflexivity ] ].
Qed.

(** Replaces the run under the innermost [let] of the goal by its outcome. *)
Ltac use_run E :=
  match type of E with
  | _ = ?outcome =>
      match goal with
      | |- context [let (_, _) := ?t in _] =>
          replace t with outcome by (symmetry; exact E)
      end
  end.

(** What the [try] block of [audit.js] leaves behind when the three fields
    are present. *)
Lemma run_try_block_js env this s :
  fields_present s = true ->
  exists c st,
    try_catch (AuditJs.tryBlock env this)
      (fun error => push (UNEXPECTED ++ message error)) (init s) = (c, st) /\
    heap_submission st = s /\
    match AuditJs.settled env this (repoUrl s) [] with
    | inl e =>
        c = Return (aborted [repositoryIssue_js e]) /\
        net_requests st = [repositoryRequest_js this s]
    | inr rresp =>
        var_repoData st = Some rresp /\
        if repository_checks_run (data rresp) then
          if topics_block_completes
               (AuditJs.settled env this (topicsUrl s) topicsOptions)
          then
            net_requests st =
              [repositoryRequest_js this s; topicsRequest_js this s;
               packageRequest_js this s] /\
            match AuditJs.settled env this (npmUrl s) [] with
            | inl e => exists found, c = Return (aborted found) /\ found <> []
            | inr nresp =>
                c = Normal tt /\
                var_npmData st = data nresp /\
                (var_issues st = [] <->
                 repository_ok (data rresp) &&
                 fulfilled_with topics_ok
                   (AuditJs.settled env this (topicsUrl s) topicsOptions) &&
                 package_ok s (data nresp) = true)
            end
          else
            net_requests st = [repositoryRequest_js this s; topicsRequest_js this s] /\
            exists found, c = Return (aborted found) /\ found <> []
        else
          c = Normal tt /\
          net_requests st = [repositoryRequest_js this s] /\
          var_npmData st = VNull /\
          var_issues st <> []
    end.
Proof.
  intros F.
  unfold try_catch, AuditJs.tryBlock, bind at 1, get_submission.
  cbn [init heap_submission]. rewrite (guard_passes s F).
  destruct (AuditJs.settled env this (repoUrl s) []) as [e | rresp] eqn:S.
  - rewrite (bind_return _ _ _ _ _ (run_fetchRepository_js_failed env this (init s) e S)).
    eexists; eexists. split; [ reflexivity | ]. repeat split.
  - rewrite (bind_normal _ _ _ _ _ (run_fetchRepository_js_ok env this (init s) rresp S)).
    set (st1 := put_repoData rresp
                  (add_request (repoUrl (heap_submission (init s)))
                     (AuditJs.request_headers this (repoUrl (heap_submission (init s))) [])
                     (init s))).
    unfold repository_checks_run, repository_ok.
    destruct (nullish (data rresp)) eqn:N; cbn [negb andb].
    { rewrite (bind_throw _ _ _ _ _ (run_prop_nullish _ _ _ N)).
      eexists; eexists. split; [ reflexivity | ]. cbn.
      repeat split. discriminate. }
    rewrite (bind_normal _ _ _ _ _ (run_prop _ _ _ N)).
    rewrite (bind_normal _ _ _ _ _ (run_when_push _ _ _)).
    rewrite (bind_normal _ _ _ _ _ (run_prop _ _ _ N)).
    set (p := truthy (member (data rresp) "private")).
    set (d := member (data rresp) "description").
    set (st2 := if p then add_issue REPO_PRIVATE st1 else st1).
    assert (F2 : heap_submission st2 = s /\ var_repoData st2 = Some rresp /\
                 var_npmData st2 = VNull /\
                 net_requests st2 = [repositoryRequest_js this s] /\
                 var_issues st2 = if p then [REPO_PRIVATE] else [])
      by (subst st2; destruct p; cbn; auto).
    destruct F2 as (Ah & Ar & An & Aq & Ai).
    unfold bind at 1. rewrite run_description_too_short.
    destruct (negb (truthy d) || (typeof d =? "string")).
    2:{ eexists; eexists. split; [ reflexivity | ]. cbn.
        split; [ exact Ah | ]. split; [ exact Ar | ]. split; [ reflexivity | ].
        split; [ exact Aq | ]. split; [ exact An | ]. apply not_nil_app. }
    rewrite (bind_normal _ _ _ _ _ (run_when_push _ _ _)).
    set (q := negb (description_ok d)).
    set (st3 := if q then add_issue REPO_DESCRIPTION st2 else st2).
    assert (F3 : heap_submission st3 = s /\ var_repoData st3 = Some rresp /\
                 var_npmData st3 = VNull /\
                 net_requests st3 = [repositoryRequest_js this s] /\
                 var_issues st3 =
                   ((if p then [REPO_PRIVATE] else []) ++
                    (if q then [REPO_DESCRIPTION] else []))%list).
    { subst st3. destruct q; cbn; rewrite ?Ai, ?app_nil_r; auto. }
    destruct F3 as (Bh & Br & Bn & Bq & Bi).
    destruct (run_checkTopics_js env this st3)
      as (c & st4 & d4 & E & Ch & Cr & Cn & Cq & Ci & Cc).
    rewrite Bh in *. rewrite Bq in Cq. rewrite Bi in Ci. rewrite Br in Cr.
    rewrite Bn in Cn.
    destruct (topics_block_completes
                (AuditJs.settled env this (topicsUrl s) topicsOptions)).
    2:{ destruct Cc as (-> & Cd).
        rewrite (bind_return _ _ _ _ _ E).
        eexists; eexists. split; [ reflexivity | ].
        split; [ exact Ch | ]. split; [ exact Cr | ]. split; [ exact Cq | ].
        eexists. split; [ reflexivity | ]. apply not_nil_app_r, Cd. }
    destruct Cc as (-> & Cd).
    rewrite (bind_normal _ _ _ _ _ E).
    unfold bind at 1. rewrite run_fetchNpmPackage_js. rewrite Ch.
    destruct (AuditJs.settled env this (npmUrl s) []) as [e | nresp].
    { eexists; eexists. split; [ reflexivity | ]. cbn.
      split; [ exact Ch | ]. split; [ exact Cr | ].
      split; [ rewrite Cq; reflexivity | ].
      eexists. split; [ reflexivity | ]. apply not_nil_app. }
    set (st5 := put_npmData (data nresp)
                  (add_request (npmUrl s) (AuditJs.request_headers this (npmUrl s) []) st4)).
    destruct (run_package_checks_js st5 (data nresp) eq_refl)
      as (c & st6 & d6 & E6 & Dh & Dr & Dn & Dq & Di & Dc).
    cbn in Dh, Dr, Dn, Dq, Di. rewrite Ch in Dh.
    unfold st5 in Dc. cbn [heap_submission put_npmData add_request] in Dc.
    rewrite Ch in Dc.
    assert (Base : var_issues st4 = [] <->
                   negb p && description_ok d &&
                   fulfilled_with topics_ok
                     (AuditJs.settled env this (topicsUrl s) topicsOptions) = true).
    { rewrite Ci. subst q.
      destruct p, (description_ok d); cbn; try (split; discriminate). exact Cd. }
    destruct Dc as [(-> & -> & P) | [(-> & Dd & P) | ((msg & ->) & P)]].
    + use_run E6. eexists; eexists. split; [ reflexivity | ].
      split; [ exact Dh | ]. split; [ congruence | ].
      split; [ rewrite Dq, Cq; reflexivity | ].
      split; [ reflexivity | ]. split; [ exact Dn | ].
      rewrite Di, app_nil_r, P, andb_true_r. exact Base.
    + use_run E6. eexists; eexists. split; [ reflexivity | ].
      split; [ exact Dh | ]. split; [ congruence | ].
      split; [ rewrite Dq, Cq; reflexivity | ].
      split; [ reflexivity | ]. split; [ exact Dn | ].
      rewrite Di, P, andb_false_r. split; [ | discriminate ].
      intros Z. destruct (not_nil_app_r _ _ Dd Z).
    + use_run E6. cbn [message NativeError].
      eexists; eexists. split; [ reflexivity | ]. cbn.
      split; [ exact Dh | ]. split; [ congruence | ].
      split; [ rewrite Dq, Cq; reflexivity | ].
      split; [ reflexivity | ]. split; [ exact Dn | ].
      rewrite P, andb_false_r. split; [ | discriminate ].
      intros Z. destruct (not_nil_app _ _ Z).
Qed.

Lemma npmMetadata_js_spec st :
  if truthy (var_npmData st) && negb (package_readable (var_npmData st))
  then exists msg, AuditJs.npmMetadata st = (Throw (NativeError msg), st)
  else AuditJs.npmMetadata st =
       (Normal (if truthy (var_npmData st)
                then npmSummary_js (heap_submission st) (var_npmData st)
                else VNull), st).
Proof.
  unfold AuditJs.npmMetadata, package_readable.
  rewrite (bind_normal _ _ _ _ _ (eq_refl : get_npmData st = (Normal (var_npmData st), st))).
  destruct (truthy (var_npmData st)) eqn:T; cbn [andb]; [ | reflexivity ].
  rewrite (bind_normal _ _ _ _ _
             (eq_refl : get_submission st = (Normal (heap_submission st), st))).
  rewrite (bind_normal _ _ _ _ _ (run_prop _ "dist-tags" _ (truthy_not_nullish _ T))).
  destruct (nullish (member (var_npmData st) "dist-tags")) eqn:D; cbn [negb andb].
  - rewrite (bind_throw _ _ _ _ _ (run_prop_nullish _ "latest" _ D)). eauto.
  - rewrite (bind_normal _ _ _ _ _ (run_prop _ "latest" _ D)).
    rewrite (bind_normal _ _ _ _ _ (run_prop _ "time" _ (truthy_not_nullish _ T))).
    destruct (nullish (member (var_npmData st) "time")) eqn:M; cbn [negb].
    + rewrite (bind_throw _ _ _ _ _ (run_prop_nullish _ "modified" _ M)). eauto.
    + rewrite (bind_normal _ _ _ _ _ (run_prop _ "modified" _ M)).
      rewrite (bind_normal _ _ _ _ _ (run_prop _ "author" _ (truthy_not_nullish _ T))).
      rewrite (bind_normal _ _ _ _ _ (run_prop _ "maintainers" _ (truthy_not_nullish _ T))).
      reflexivity.
Qed.

Lemma githubMetadata_js_spec st :
  if match var_repoData st with
     | Some rd => nullish (data rd) || nullish (member (data rd) "owner")
     | None => false
     end
  then exists msg, AuditJs.githubMetadata st = (Throw (NativeError msg), st)
  else AuditJs.githubMetadata st =
       (Normal match var_repoData st with
               | Some rd => githubSummary_js (data rd)
               | None => VNull
               end, st).
Proof.
  unfold AuditJs.githubMetadata.
  rewrite (bind_normal _ _ _ _ _
             (eq_refl : get_repoData st = (Normal (var_repoData st), st))).
  destruct (var_repoData st) as [rd | ]; [ | reflexivity ].
  destruct (nullish (data rd)) eqn:N; cbn [orb].
  - rewrite (bind_throw _ _ _ _ _ (run_prop_nullish _ "name" _ N)). eauto.
  - rewrite (bind_normal _ _ _ _ _ (run_prop _ "name" _ N)).
    rewrite (bind_normal _ _ _ _ _ (run_prop _ "owner" _ N)).
    destruct (nullish (member (data rd) "owner")) eqn:O.
    + rewrite (bind_throw _ _ _ _ _ (run_prop_nullish _ "login" _ O)). eauto.
    + rewrite (bind_normal _ _ _ _ _ (run_prop _ "login" _ O)).
      rewrite (bind_normal _ _ _ _ _ (run_prop _ "full_name" _ N)).
      rewrite (bind_normal _ _ _ _ _ (run_prop _ "stargazers_count" _ N)).
      rewrite (bind_normal _ _ _ _ _ (run_prop _ "description" _ N)).
      rewrite (bind_normal _ _ _ _ _ (run_prop _ "topics" _ N)).
      rewrite (bind_normal _ _ _ _ _ (run_prop _ "updated_at" _ N)).
      reflexivity.
Qed.

Lemma run_finalReturn_js st :
  if metadata_unreadable_js (var_repoData st) (var_npmData st)
  then exists msg, AuditJs.finalReturn st = (Throw (NativeError msg), st)
  else AuditJs.finalReturn st = (Return (finalResult_js st), st).
Proof.
  pose proof (githubMetadata_js_spec st) as G.
  pose proof (npmMetadata_js_spec st) as N.
  unfold AuditJs.finalReturn, metadata_unreadable_js, finalResult_js.
  rewrite (bind_normal _ _ _ _ _ (eq_refl : get_issues st = (Normal (var_issues st), st))).
  destruct (match var_repoData st with
            | Some rd => nullish (data rd) || nullish (member (data rd) "owner")
            | None => false
            end); cbn [orb].
  - destruct G as (msg & G). rewrite (bind_throw _ _ _ _ _ G). eauto.
  - rewrite (bind_normal _ _ _ _ _ G).
    destruct (truthy (var_npmData st) && negb (package_readable (var_npmData st))).
    + destruct N as (msg & N). rewrite (bind_throw _ _ _ _ _ N). eauto.
    + rewrite (bind_normal _ _ _ _ _ N). reflexivity.
Qed.

Lemma auditPlugin_js_from_try env this s c st :
  try_catch (AuditJs.tryBlock env this)
    (fun error => push (UNEXPECTED ++ message error)) (init s) = (c, st) ->
  (forall r, c = Return r -> AuditJs.auditPlugin env this s = (Resolved r, st)) /\
  (c = Normal tt ->
   AuditJs.auditPlugin env this s = (settle (fst (AuditJs.finalReturn st)), st)).
Proof.
  intros T. unfold AuditJs.auditPlugin, AuditJs.auditBody. split.
  - intros r ->. rewrite (bind_return _ _ _ _ _ T). reflexivity.
  - intros ->. rewrite (bind_normal _ _ _ _ _ T).
    pose proof (run_finalReturn_js st) as R.
    destruct (metadata_unreadable_js (var_repoData st) (var_npmData st)).
    + destruct R as (msg & ->). reflexivity.
    + rewrite R. reflexivity.
Qed.

Lemma auditPlugin_js_without_fields env this s :
  fields_present s = false ->
  AuditJs.auditPlugin env this s =
  (Resolved (aborted [MISSING_FIELDS]), add_issue MISSING_FIELDS (init s)).
Proof.
  intros F.
  assert (G : negb (present (repo s)) || negb (present (owner s)) ||
              negb (present (npm_package_name s)) = true).
  { unfold fields_present in F.
    destruct (present (repo s)), (present (owner s)), (present (npm_package_name s));
      cbn in *; congruence. }
  unfold AuditJs.auditPlugin, AuditJs.auditBody, AuditJs.tryBlock, try_catch, bind,
    get_submission.
  cbn [init heap_submission]. rewrite G. reflexivity.
Qed.

(** X14. [audit.js] stops at a rejected repository request: the promise
    resolves to a failed verdict with that one issue and no metadata, and no
    other request is made. The issue goes by the status: not found for 404,
    not public for 403, the generic repository issue around the message
    otherwise. *)
Theorem audit_js_stops_at_failed_fetch :
  forall (env : Env) (this : PluginAuditor) (s : Submission) (e : Failure),
    fields_present s = true ->
    AuditJs.settled env this (repoUrl s) [] = inl e ->
    let found :=
      if is_status (status e) 404 then REPO_NOT_FOUND
      else if is_status (status e) 403 then AuditJs.REPO_NOT_PUBLIC
      else REPO_ERROR ++ message e in
    fst (AuditJs.auditPlugin env this s) =
      Resolved {| passed := false; issues := [found]; metadata := None |} /\
    net_requests (snd (AuditJs.auditPlugin env this s)) = [repositoryRequest_js this s].
Proof.
  intros env this s e F S found.
  destruct (run_try_block_js env this s F) as (c & st & T & _ & H).
  rewrite S in H. destruct H as (-> & Q).
  destruct (auditPlugin_js_from_try env this s _ st T) as [A _].
  rewrite (A _ eq_refl). cbn [fst snd]. split; [ | exact Q ].
  unfold aborted, repositoryIssue_js, found.
  rewrite (settled_js_rejection_shape env this _ _ e S). reflexivity.
Qed.

(** X15. The requests of an audit by [audit.js], in order: none when a field
    is missing; the repository alone when that request is rejected or the
    tests on its document throw; the repository and the topics when the
    topics block does not complete; all three otherwise. *)
Theorem requests_of_an_audit_js :
  forall (env : Env) (this : PluginAuditor) (s : Submission),
    net_requests (snd (AuditJs.auditPlugin env this s)) =
    if fields_present s then
      match AuditJs.settled env this (repoUrl s) [] with
      | inl _ => [repositoryRequest_js this s]
      | inr rresp =>
          if repository_checks_run (data rresp) then
            if topics_block_completes
                 (AuditJs.settled env this (topicsUrl s) topicsOptions)
            then [repositoryRequest_js this s; topicsRequest_js this s;
                  packageRequest_js this s]
            else [repositoryRequest_js this s; topicsRequest_js this s]
          else [repositoryRequest_js this s]
      end
    else [].
Proof.
  intros env this s.
  destruct (fields_present s) eqn:F.
  2:{ rewrite (auditPlugin_js_without_fields env this s F). reflexivity. }
  destruct (run_try_block_js env this s F) as (c & st & T & _ & H).
  destruct (auditPlugin_js_from_try env this s c st T) as [A B].
  assert (Q : snd (AuditJs.auditPlugin env this s) = st).
  { destruct c as [[] | r | e].
    - rewrite (B eq_refl). reflexivity.
    - rewrite (A r eq_refl). reflexivity.
    - exfalso. destruct (AuditJs.settled env this (repoUrl s) []) as [e0 | rresp].
      + destruct H as (H & _); discriminate.
      + destruct H as (_ & H).
        destruct (repository_checks_run (data rresp)).
        * destruct (topics_block_completes
                      (AuditJs.settled env this (topicsUrl s) topicsOptions)).
          -- destruct H as (_ & H).
             destruct (AuditJs.settled env this (npmUrl s) []).
             ++ destruct H as (found & H & _); discriminate.
             ++ destruct H as (H & _); discriminate.
          -- destruct H as (_ & found & H & _); discriminate.
        * destruct H as (H & _); discriminate. }
  rewrite Q.
  destruct (AuditJs.settled env this (repoUrl s) []) as [e0 | rresp].
  - destruct H as (_ & H); exact H.
  - destruct H as (_ & H).
    destruct (repository_checks_run (data rresp)).
    + destruct (topics_block_completes
                  (AuditJs.settled env this (topicsUrl s) topicsOptions));
        destruct H as (H & _); exact H.
    + destruct H as (_ & H & _); exact H.
Qed.

Lemma startsWith_empty_slash a b :
  startsWith EmptyString (a ++ "/" ++ b) = false.
Proof. destruct a; reflexivity. Qed.

Lemma package_ok_truthy s doc : package_ok s doc = true -> truthy doc = true.
Proof.
  unfold package_ok.
  destruct doc; cbn -[ownerSlashRepo]; try discriminate; try reflexivity.
  all: unfold ownerSlashRepo; cbn [includes];
    rewrite startsWith_empty_slash; cbn; rewrite ?andb_false_r; discriminate.
Qed.

Lemma topics_ok_completes p :
  fulfilled_with topics_ok p = true -> topics_block_completes p = true.
Proof.
  unfold topics_block_completes, topics_ok.
  destruct p as [e | resp]; cbn; [ discriminate | ].
  destruct (nullish (data resp)); cbn; [ discriminate | ].
  destruct (member (data resp) "names"); cbn; congruence.
Qed.

Lemma passed_finalResult_js st :
  passed (finalResult_js st) = true <-> var_issues st = [].
Proof.
  unfold finalResult_js; cbn [passed].
  destruct (var_issues st); cbn; split; congruence.
Qed.

(** How the call of [audit.js] ends once the [try] block has run to its
    end. *)
Lemma auditPlugin_js_at_the_end env this s st :
  try_catch (AuditJs.tryBlock env this)
    (fun error => push (UNEXPECTED ++ message error)) (init s) = (Normal tt, st) ->
  if metadata_unreadable_js (var_repoData st) (var_npmData st)
  then exists msg, fst (AuditJs.auditPlugin env this s) = Rejected (NativeError msg)
  else fst (AuditJs.auditPlugin env this s) = Resolved (finalResult_js st).
Proof.
  intros T.
  destruct (auditPlugin_js_from_try env this s _ st T) as [_ B].
  rewrite (B eq_refl). cbn [fst].
  pose proof (run_finalReturn_js st) as R.
  destruct (metadata_unreadable_js (var_repoData st) (var_npmData st)).
  - destruct R as (msg & ->). exists msg. reflexivity.
  - rewrite R. reflexivity.
Qed.

(** X16. [audit.js] resolves to a passing verdict exactly when the submission
    names its three fields and the three requests are fulfilled with
    documents in order: a public repository with a description of ten
    characters once trimmed and an [owner], topics that list the tag, and a
    public package that points back to the repository and has [dist-tags]
    and [time]. *)
Theorem audit_js_passes_iff :
  forall (env : Env) (this : PluginAuditor) (s : Submission),
    (exists r, fst (AuditJs.auditPlugin env this s) = Resolved r /\ passed r = true) <->
    fields_present s = true /\
    fulfilled_with repository_passes (AuditJs.settled env this (repoUrl s) []) = true /\
    fulfilled_with topics_ok
      (AuditJs.settled env this (topicsUrl s) topicsOptions) = true /\
    fulfilled_with (package_passes_js s)
      (AuditJs.settled env this (npmUrl s) []) = true.
Proof.
  intros env this s.
  destruct (fields_present s) eqn:F.
  2:{ rewrite (auditPlugin_js_without_fields env this s F). cbn [fst]. split.
      - intros (r & E & P). injection E as <-. discriminate.
      - intros (E & _). discriminate. }
  destruct (run_try_block_js env this s F) as (c & st & T & Hs & H).
  destruct (auditPlugin_js_from_try env this s c st T) as [A B].
  assert (early : forall found,
            c = Return (aborted found) ->
            ~ (exists r, fst (AuditJs.auditPlugin env this s) = Resolved r /\
                         passed r = true)).
  { intros found -> (r & E & P). rewrite (A _ eq_refl) in E. cbn in E.
    injection E as <-. discriminate. }
  destruct (AuditJs.settled env this (repoUrl s) []) as [e | rresp].
  { destruct H as (C & _). split.
    - intros L. destruct (early _ C L).
    - intros (_ & E & _). discriminate. }
  destruct H as (R & H). cbn [fulfilled_with].
  destruct (repository_checks_run (data rresp)) eqn:K.
  2:{ destruct H as (-> & _ & _ & I).
      pose proof (auditPlugin_js_at_the_end env this s st T) as Z.
      split.
      - intros (r & E & P).
        destruct (metadata_unreadable_js (var_repoData st) (var_npmData st)).
        + destruct Z as (msg & Z). congruence.
        + rewrite Z in E. injection E as <-.
          apply passed_finalResult_js in P. contradiction.
      - intros (_ & P & _). unfold repository_passes in P.
        apply andb_prop in P. destruct P as [P _].
        apply repository_ok_runs in P. congruence. }
  destruct (topics_block_completes
              (AuditJs.settled env this (topicsUrl s) topicsOptions)) eqn:Tc.
  2:{ destruct H as (_ & found & C & _). split.
      - intros L. destruct (early _ C L).
      - intros (_ & _ & P & _). apply topics_ok_completes in P. congruence. }
  destruct H as (_ & H).
  destruct (AuditJs.settled env this (npmUrl s) []) as [e | nresp].
  { destruct H as (found & C & _). split.
    - intros L. destruct (early _ C L).
    - intros (_ & _ & _ & E). discriminate. }
  destruct H as (-> & N & I). cbn [fulfilled_with].
  pose proof (auditPlugin_js_at_the_end env this s st T) as Z.
  rewrite R, N in Z. unfold metadata_unreadable_js in Z.
  unfold repository_passes, package_passes_js.
  split.
  - intros (r & E & P).
    destruct ((nullish (data rresp) || nullish (member (data rresp) "owner")) ||
              truthy (data nresp) && negb (package_readable (data nresp))) eqn:U.
    + destruct Z as (msg & Z). congruence.
    + rewrite Z in E. injection E as <-.
      apply passed_finalResult_js, I in P.
      apply andb_prop in P. destruct P as [P P3].
      apply andb_prop in P. destruct P as [P1 P2].
      apply orb_false_elim in U. destruct U as [U1 U2].
      apply orb_false_elim in U1. destruct U1 as [_ U1].
      rewrite (package_ok_truthy _ _ P3) in U2. cbn in U2.
      apply negb_false_iff in U2.
      rewrite P1, P2, P3, U1, U2. auto.
  - intros (_ & P1 & P2 & P3).
    apply andb_prop in P1. destruct P1 as [P1 O].
    apply andb_prop in P3. destruct P3 as [P3 D].
    apply negb_true_iff in O.
    assert (Nn : nullish (data rresp) = false).
    { unfold repository_ok in P1. destruct (nullish (data rresp)); [ discriminate | reflexivity ]. }
    rewrite Nn, O, D in Z. cbn in Z. rewrite andb_false_r in Z.
    eexists. split; [ exact Z | ].
    apply passed_finalResult_js, I. rewrite P1, P2, P3. reflexivity.
Qed.

(** How the [try] block of [audit.js] ends when the three fields are there:
    with a [return] of a failed verdict, or by running to its end. *)
Lemma try_block_js_ends env this s :
  fields_present s = true ->
  exists c st,
    try_catch (AuditJs.tryBlock env this)
      (fun error => push (UNEXPECTED ++ message error)) (init s) = (c, st) /\
    if returns_early_js env this s
    then exists found, found <> [] /\ c = Return (aborted found)
    else c = Normal tt.
Proof.
  intros F. unfold returns_early_js. rewrite F. cbn [negb orb].
  destruct (run_try_block_js env this s F) as (c & st & T & _ & H).
  exists c, st. split; [ exact T | ].
  destruct (AuditJs.settled env this (repoUrl s) []) as [e | rresp].
  { destruct H as (C & _). exists [repositoryIssue_js e].
    split; [ discriminate | exact C ]. }
  destruct H as (_ & H).
  destruct (repository_checks_run (data rresp)); cbn [andb].
  2:{ destruct H as (C & _). exact C. }
  destruct (topics_block_completes
              (AuditJs.settled env this (topicsUrl s) topicsOptions));
    cbn [negb orb].
  2:{ destruct H as (_ & found & C & N). exists found. auto. }
  destruct H as (_ & H).
  destruct (AuditJs.settled env this (npmUrl s) []) as [e | nresp];
    cbn [is_fulfilled negb].
  - destruct H as (found & C & N). exists found. auto.
  - destruct H as (C & _). exact C.
Qed.

(** X17. [audit.js] returns early exactly when a field is missing, the
    repository request is rejected, or, the tests on the repository document
    having run, the topics block does not complete or the package request is
    rejected. The promise then resolves to a verdict with at least one issue
    and no metadata; in every other case a resolved verdict carries
    metadata. *)
Theorem audit_js_early_return :
  forall (env : Env) (this : PluginAuditor) (s : Submission),
    if returns_early_js env this s
    then exists found,
           found <> [] /\
           fst (AuditJs.auditPlugin env this s) = Resolved (aborted found)
    else forall r,
           fst (AuditJs.auditPlugin env this s) = Resolved r -> metadata r <> None.
Proof.
  intros env this s.
  destruct (fields_present s) eqn:F.
  2:{ unfold returns_early_js. rewrite F. cbn [negb orb].
      exists [MISSING_FIELDS].
      rewrite (auditPlugin_js_without_fields env this s F).
      split; [ discriminate | reflexivity ]. }
  destruct (try_block_js_ends env this s F) as (c & st & T & H).
  destruct (auditPlugin_js_from_try env this s c st T) as [A _].
  destruct (returns_early_js env this s).
  - destruct H as (found & N & ->). exists found.
    rewrite (A _ eq_refl). split; [ exact N | reflexivity ].
  - subst c. intros r E.
    pose proof (auditPlugin_js_at_the_end env this s st T) as Z.
    destruct (metadata_unreadable_js (var_repoData st) (var_npmData st)).
    + destruct Z as (msg & Z). congruence.
    + rewrite Z in E. injection E as <-. discriminate.
Qed.

(** X18. [audit.js] rejects exactly when its [try] block runs to the end
    and the final [return] cannot read what it needs: the repository
    document is [null] or has no [owner], or the package document is truthy
    and lacks [dist-tags] or [time]. What it rejects with is a
    [TypeError]. *)
Theorem audit_js_rejects_iff :
  forall (env : Env) (this : PluginAuditor) (s : Submission),
    ((exists e, fst (AuditJs.auditPlugin env this s) = Rejected e) <->
     rejects_js env this s = true) /\
    forall e, fst (AuditJs.auditPlugin env this s) = Rejected e ->
              exists msg, e = NativeError msg.
Proof.
  intros env this s. unfold rejects_js.
  destruct (fields_present s) eqn:F; cbn [andb].
  2:{ rewrite (auditPlugin_js_without_fields env this s F). cbn [fst].
      split; [ split; [ intros (e & K) | ]; discriminate | discriminate ]. }
  destruct (run_try_block_js env this s F) as (c & st & T & Hs & H).
  destruct (auditPlugin_js_from_try env this s c st T) as [A B].
  assert (early : forall found,
            c = Return (aborted found) ->
            forall e, fst (AuditJs.auditPlugin env this s) <> Rejected e).
  { intros found -> e. rewrite (A _ eq_refl). discriminate. }
  assert (late : forall rresp npmData,
            c = Normal tt -> var_repoData st = Some rresp -> var_npmData st = npmData ->
            ((exists e, fst (AuditJs.auditPlugin env this s) = Rejected e) <->
             metadata_unreadable_js (Some rresp) npmData = true) /\
            forall e, fst (AuditJs.auditPlugin env this s) = Rejected e ->
                      exists msg, e = NativeError msg).
  { intros rresp npmData -> R N.
    pose proof (auditPlugin_js_at_the_end env this s st T) as Z.
    rewrite R, N in Z.
    destruct (metadata_unreadable_js (Some rresp) npmData).
    - destruct Z as (msg & Z). rewrite Z. split.
      + split; [ reflexivity | eauto ].
      + intros e K; injection K as <-. eauto.
    - rewrite Z. split; [ split; [ intros (e & K) | ]; discriminate | discriminate ]. }
  destruct (AuditJs.settled env this (repoUrl s) []) as [e0 | rresp].
  { destruct H as (C & _). split.
    - split; [ intros (e & K); destruct (early _ C e K) | discriminate ].
    - intros e K. destruct (early _ C e K). }
  destruct H as (R & H).
  destruct (repository_checks_run (data rresp)).
  2:{ destruct H as (C & _ & N & _). exact (late rresp VNull C R N). }
  destruct (topics_block_completes
              (AuditJs.settled env this (topicsUrl s) topicsOptions)); cbn [andb].
  2:{ destruct H as (_ & found & C & _). split.
      - split; [ intros (e & K); destruct (early _ C e K) | discriminate ].
      - intros e K. destruct (early _ C e K). }
  destruct H as (_ & H).
  destruct (AuditJs.settled env this (npmUrl s) []) as [e0 | nresp];
    cbn [fulfilled_with].
  - destruct H as (found & C & _). split.
    + split; [ intros (e & K); destruct (early _ C e K) | discriminate ].
    + intros e K. destruct (early _ C e K).
  - destruct H as (C & N & _). exact (late rresp (data nresp) C R N).
Qed.

(** *** The command line *)

(** How a call of the accumulating revision ends, by what the [try] block
    left behind. *)
Lemma auditPlugin_ends env this s :
  if fields_present s then
    exists st,
      try_catch (tryBlock env this)
        (fun error => push (UNEXPECTED ++ message error)) (init s) = (Normal tt, st) /\
      snd (auditPlugin env this s) = st /\
      fst (auditPlugin env this s) =
        match var_repoData st with
        | Some rd =>
            if truthy (data rd) && nullish (member (data rd) "owner")
            then Rejected (NativeError (cannot_read (member (data rd) "owner") "login"))
            else Resolved (finalResult st)
        | None => Resolved (finalResult st)
        end
  else auditPlugin env this s =
       (Resolved (aborted [MISSING_FIELDS]), add_issue MISSING_FIELDS (init s)).
Proof.
  destruct (fields_present s) eqn:F.
  2:{ exact (auditPlugin_without_fields env this s F). }
  destruct (run_try_block env this s F) as (st & T & _).
  exists st. split; [ exact T | ].
  rewrite (auditPlugin_from_try env this s st T). cbn [fst snd].
  split; [ reflexivity | ].
  rewrite run_finalReturn. unfold owner_unreadable.
  destruct (var_repoData st) as [rd | ]; [ | reflexivity ].
  destruct (truthy (data rd) && nullish (member (data rd) "owner")); reflexivity.
Qed.

(** X19. The accumulating revision rejects in one case only: the three
    fields are there, the repository request is fulfilled with a truthy
    document, and that document has no [owner] to read [login] from. The
    rejection is the [TypeError] of that read. *)
Theorem auditPlugin_rejects_iff :
  forall (env : Env) (this : PluginAuditor) (s : Submission) (e : Failure),
    fst (auditPlugin env this s) = Rejected e <->
    fields_present s = true /\
    exists rresp,
      settled env this (repoUrl s) [] = inr rresp /\
      truthy (data rresp) = true /\
      nullish (member (data rresp) "owner") = true /\
      e = NativeError (cannot_read (member (data rresp) "owner") "login").
Proof.
  intros env this s e.
  pose proof (auditPlugin_ends env this s) as E.
  destruct (fields_present s) eqn:F.
  2:{ rewrite E. cbn [fst]. split; [ discriminate | ].
      intros (K & _); discriminate. }
  destruct E as (st & T & _ & ->).
  destruct (run_try_block env this s F) as (st' & T' & _ & H).
  assert (st' = st) as -> by congruence.
  destruct (settled env this (repoUrl s) []) as [e0 | rresp].
  - destruct H as (-> & _). split; [ discriminate | ].
    intros (_ & rresp & K & _); discriminate.
  - destruct H as (-> & _).
    destruct (truthy (data rresp)) eqn:D; cbn [andb].
    + destruct (nullish (member (data rresp) "owner")) eqn:O.
      * split.
        -- intros K; injection K as <-. split; [ reflexivity | ].
           exists rresp. auto.
        -- intros (_ & x & K & _ & _ & ->). injection K as <-. reflexivity.
      * split; [ discriminate | ].
        intros (_ & x & K & _ & O' & _). injection K as <-. congruence.
    + split; [ discriminate | ].
      intros (_ & x & K & D' & _). injection K as <-. congruence.
Qed.

Lemma run_main env token s :
  Main.main env token s =
  {| output :=
       fst (try_main
              (and_then (preamble token, inr tt)
                 (fun _ =>
                    and_then
                      (Main.written_by_auditPlugin env {| githubToken := token |} s,
                       inr tt)
                      (fun _ =>
                         and_then
                           (awaited (fst (auditPlugin env {| githubToken := token |} s)))
                           (Main.report s)))));
     requests := net_requests (snd (auditPlugin env {| githubToken := token |} s));
     ending :=
       snd (try_main
              (and_then (preamble token, inr tt)
                 (fun _ =>
                    and_then
                      (Main.written_by_auditPlugin env {| githubToken := token |} s,
                       inr tt)
                      (fun _ =>
                         and_then
                           (awaited (fst (auditPlugin env {| githubToken := token |} s)))
                           (Main.report s))))) |}.
Proof.
  unfold Main.main.
  destruct (auditPlugin env {| githubToken := token |} s) as [o st]. cbn [fst snd].
  destruct (try_main _) as [out how]. reflexivity.
Qed.

Lemma run_main_js env token s :
  MainJs.main env token s =
  {| output :=
       fst (try_main
              (and_then (preamble token, inr tt)
                 (fun _ =>
                    and_then
                      (awaited (fst (AuditJs.auditPlugin env {| githubToken := token |} s)))
                      MainJs.report)));
     requests :=
       net_requests (snd (AuditJs.auditPlugin env {| githubToken := token |} s));
     ending :=
       snd (try_main
              (and_then (preamble token, inr tt)
                 (fun _ =>
                    and_then
                      (awaited (fst (AuditJs.auditPlugin env {| githubToken := token |} s)))
                      MainJs.report))) |}.
Proof.
  unfold MainJs.main.
  destruct (AuditJs.auditPlugin env {| githubToken := token |} s) as [o st].
  cbn [fst snd].
  destruct (try_main _) as [out how]. reflexivity.
Qed.

(** X20. When the accumulating revision rejects, its command line shows no
    verdict: after the preamble and the rate-limit lines of the audit it
    writes the error and exits with 1, so that the issues gathered up to
    there are lost. *)
Theorem cli_shows_only_the_rejection :
  forall (env : Env) (token : option string) (s : Submission) (rresp : Response),
    fields_present s = true ->
    settled env {| githubToken := token |} (repoUrl s) [] = inr rresp ->
    truthy (data rresp) = true ->
    nullish (member (data rresp) "owner") = true ->
    output (Main.main env token s) =
      (preamble token ++
       Main.written_by_auditPlugin env {| githubToken := token |} s ++
       [LogError "Error running audit:"
          (NativeError (cannot_read (member (data rresp) "owner") "login"))])%list /\
    ending (Main.main env token s) = Exit 1.
Proof.
  intros env token s rresp F S D O.
  pose proof (auditPlugin_ends env {| githubToken := token |} s) as E.
  rewrite F in E. destruct E as (st & T & _ & E).
  destruct (run_try_block env {| githubToken := token |} s F) as (st' & T' & _ & H).
  assert (st' = st) as -> by congruence.
  rewrite S in H. destruct H as (R & _).
  rewrite R, D, O in E. cbn [andb] in E.
  rewrite run_main, E.
  unfold try_main, and_then, awaited, raise. cbn [fst snd output ending].
  rewrite !app_nil_r. split; [ | reflexivity ].
  rewrite <- app_assoc. reflexivity.
Qed.

(** X21. For a submission that lacks a field the command line of the
    accumulating revision shows the verdict: no information lines, the
    failed status, the one issue and the placeholder metadata; it makes no
    request and ends normally. *)
Theorem cli_shows_missing_fields :
  forall (env : Env) (token : option string) (s : Submission),
    fields_present s = false ->
    Main.main env token s =
    {| output :=
         (preamble token ++
          [Log (nl ++ "Plugin Information:");
           Log "==================";
           Log "GitHub repository information not available";
           Log "NPM package information not available";
           Log (nl ++ "Audit Results:");
           Log "=============";
           LogStatus false;
           Log (nl ++ "Issues Found:");
           Log "- Missing required fields in submission";
           Log (nl ++ "Detailed Metadata:");
           LogJson (Main.fullMetadata s (aborted [MISSING_FIELDS]))])%list;
       requests := [];
       ending := Completed |}.
Proof.
  intros env token s F.
  rewrite run_main, (auditPlugin_without_fields env _ s F).
  unfold Main.written_by_auditPlugin. rewrite F. reflexivity.
Qed.

(** X22. The command line of [audit.js] never shows an early verdict:
    whenever [auditPlugin] returns early, reading [metadata.github] throws,
    and the run ends with that [TypeError] and exit code 1 before the status
    and the issues are written. *)
Theorem cli_js_hides_early_verdicts :
  forall (env : Env) (token : option string) (s : Submission),
    returns_early_js env {| githubToken := token |} s = true ->
    output (MainJs.main env token s) =
      (preamble token ++
       [Log (nl ++ "Plugin Information:");
        Log "==================";
        LogError "Error running audit:"
          (NativeError (cannot_read VUndefined "github"))])%list /\
    ending (MainJs.main env token s) = Exit 1.
Proof.
  intros env token s R.
  assert (E : exists found,
             fst (AuditJs.auditPlugin env {| githubToken := token |} s) =
               Resolved (aborted found)).
  { destruct (fields_present s) eqn:F.
    - destruct (try_block_js_ends env {| githubToken := token |} s F)
        as (c & st & T & H).
      rewrite R in H. destruct H as (found & _ & ->).
      destruct (auditPlugin_js_from_try env _ s _ st T) as [A _].
      exists found. rewrite (A _ eq_refl). reflexivity.
    - exists [MISSING_FIELDS].
      rewrite (auditPlugin_js_without_fields env _ s F). reflexivity. }
  destruct E as (found & E).
  rewrite run_main_js, E. cbn. rewrite <- app_assoc. split; reflexivity.
Qed.

Lemma isPublic_of_finalResult s st :
  member (member (Main.fullMetadata s (finalResult st)) "github") "isPublic" =
  match var_repoData st with
  | Some rd => if truthy (data rd) then VBool true else VStr "Unknown"
  | None => VStr "Unknown"
  end.
Proof.
  unfold Main.fullMetadata, finalResult, metadata_of. cbn [metadata].
  unfold githubEntry.
  destruct (var_repoData st) as [rd | ]; [ | reflexivity ].
  destruct (truthy (data rd)); reflexivity.
Qed.

(** X23. The detailed metadata of the command line never says that a
    repository is private: for every verdict of the accumulating revision
    its [isPublic] is [true] when the repository request was fulfilled with
    a truthy document, and ["Unknown"] otherwise, while the verdict's own
    [isPublic] is the negation of the document's [private]. *)
Theorem cli_says_public_for_private :
  forall (env : Env) (this : PluginAuditor) (s : Submission) (r : AuditResult),
    fst (auditPlugin env this s) = Resolved r ->
    member (member (Main.fullMetadata s r) "github") "isPublic" =
      (if fields_present s &&
          fulfilled_with truthy (settled env this (repoUrl s) [])
       then VBool true else VStr "Unknown") /\
    forall rresp,
      fields_present s = true ->
      settled env this (repoUrl s) [] = inr rresp ->
      truthy (data rresp) = true ->
      member (member (metadata_of r) "github") "isPublic" =
        VBool (negb (truthy (member (data rresp) "private"))).
Proof.
  intros env this s r.
  pose proof (auditPlugin_ends env this s) as E.
  destruct (fields_present s) eqn:F.
  2:{ rewrite E. cbn [fst]. intros K; injection K as <-.
      split; [ reflexivity | discriminate ]. }
  destruct E as (st & T & _ & ->).
  destruct (run_try_block env this s F) as (st' & T' & Hs & H).
  assert (st' = st) as -> by congruence.
  cbn [andb].
  destruct (settled env this (repoUrl s) []) as [e0 | rresp].
  - destruct H as (R & _). rewrite R.
    intros K; injection K as <-. split.
    + rewrite isPublic_of_finalResult, R. reflexivity.
    + intros x _ K; discriminate.
  - destruct H as (R & _). rewrite R. cbn [fulfilled_with].
    destruct (truthy (data rresp)) eqn:D; cbn [andb].
    + destruct (nullish (member (data rresp) "owner")); [ discriminate | ].
      intros K; injection K as <-. split.
      * rewrite isPublic_of_finalResult, R, D. reflexivity.
      * intros x _ K _. injection K as <-.
        unfold finalResult, metadata_of. cbn [metadata].
        rewrite R. cbn [githubEntry]. rewrite D. reflexivity.
    + intros K; injection K as <-. split.
      * rewrite isPublic_of_finalResult, R, D. reflexivity.
      * intros x _ K D'. injection K as <-. congruence.
Qed.

(** *** The package URL *)

Lemma all_chars_app p a b :
  all_chars p (a ++ b) = all_chars p a && all_chars p b.
Proof.
  induction a as [ | c a IH]; cbn; [ reflexivity | ].
  rewrite IH. apply andb_assoc.
Qed.

Lemma hex_digit_unreserved n : (n < 16)%nat -> uri_unreserved (hex_digit n) = true.
Proof.
  intros H. do 16 (destruct n as [ | n]; [ reflexivity | ]). lia.
Qed.

Lemma percent_safe n : (n < 256)%nat -> all_chars uri_safe (percent n) = true.
Proof.
  intros H. unfold percent. cbn [all_chars]. unfold uri_safe at 2 3.
  rewrite !hex_digit_unreserved.
  - reflexivity.
  - apply Nat.mod_upper_bound. discriminate.
  - apply Nat.Div0.div_lt_upper_bound. exact H.
Qed.

Lemma nat_of_ascii_bound c : (nat_of_ascii c < 256)%nat.
Proof. destruct c as [[] [] [] [] [] [] [] []]; vm_compute; lia. Qed.

Lemma encodeURIComponent_safe s : all_chars uri_safe (encodeURIComponent s) = true.
Proof.
  induction s as [ | c s IH]; [ reflexivity | ].
  cbn [encodeURIComponent]. rewrite all_chars_app, IH, andb_true_r.
  pose proof (nat_of_ascii_bound c) as B.
  destruct (uri_unreserved c) eqn:U.
  - cbn. unfold uri_safe. rewrite U. reflexivity.
  - destruct (nat_of_ascii c <? 128)%nat.
    + apply percent_safe. exact B.
    + rewrite all_chars_app, !percent_safe; [ reflexivity | | ].
      * pose proof (Nat.mod_upper_bound (nat_of_ascii c) 64). lia.
      * assert (nat_of_ascii c / 64 < 4)%nat
          by (apply Nat.Div0.div_lt_upper_bound; exact B).
        lia.
Qed.

Lemma safe_string_has_no_slash s :
  all_chars uri_safe s = true -> includes s "/" = false.
Proof.
  induction s as [ | c s IH]; [ reflexivity | ].
  cbn [all_chars includes startsWith]. intros H.
  apply andb_prop in H. destruct H as [C H].
  rewrite (IH H), orb_false_r, andb_true_r.
  destruct (Ascii.eqb_spec "/"%char c) as [<- | N]; [ discriminate C | reflexivity ].
Qed.

(** X24. The package name is one path segment of the registry URL:
    whatever the name, what follows the host in the URL of the package
    request is made of unreserved characters and percent escapes, and holds
    no slash. *)
Theorem package_url_is_escaped :
  forall s : Submission,
    exists name,
      npmUrl s = "https://registry.npmjs.org/" ++ name /\
      all_chars uri_safe name = true /\
      includes name "/" = false.
Proof.
  intros s. exists (encodeURIComponent (show (npm_package_name s))).
  split; [ reflexivity | ].
  pose proof (encodeURIComponent_safe (show (npm_package_name s))) as H.
  split; [ exact H | exact (safe_string_has_no_slash _ H) ].
Qed.

(** *** The properties at work on concrete worlds *)

Lemma metadata_of_an_audit_witness :
  exists r,
    fst (auditPlugin Scenario.healthy Scenario.anonymous Scenario.submission) =
      Resolved r /\
    metadata r =
      Some (VObj
        [("github",
          githubSummary Scenario.submission (Scenario.repositoryDoc "A plugin that does x"));
         ("npm",
          npmSummary Scenario.submission (Scenario.packageDoc (VStr "Jane Doe")))]).
Proof.
  assert (A : exists r,
             fst (auditPlugin Scenario.healthy Scenario.anonymous Scenario.submission) =
               Resolved r) by (vm_compute; eexists; reflexivity).
  destruct A as (r & A). exists r. split; [ exact A | ].
  rewrite (metadata_of_an_audit Scenario.healthy Scenario.anonymous Scenario.submission
             r A).
  vm_compute. reflexivity.
Defined.

Lemma untestable_repository_document_witness :
  exists msg,
    var_issues (snd (auditPlugin Cases.numeric_description Scenario.anonymous
                       Scenario.submission)) =
      [REPO_PRIVATE; UNEXPECTED ++ msg] /\
    net_requests (snd (auditPlugin Cases.numeric_description Scenario.anonymous
                         Scenario.submission)) =
      [repositoryRequest Scenario.anonymous Scenario.submission].
Proof.
  destruct (untestable_repository_document Cases.numeric_description Scenario.anonymous
              Scenario.submission
              {| data := VObj [("owner", VObj [("login", VStr "acme")]);
                               ("private", VBool true);
                               ("description", VNum 5)];
                 resp_status := 200;
                 resp_headers := Some [("x-ratelimit-remaining", "59")] |}
              eq_refl eq_refl eq_refl) as (msg & I & N & _).
  exists msg. split; [ exact I | exact N ].
Defined.

Lemma repository_network_error_witness :
  exists r st rest,
    auditPlugin Cases.offline Scenario.anonymous Scenario.submission = (Resolved r, st) /\
    issues r =
      "Error accessing GitHub repository: Network error: getaddrinfo ENOTFOUND api.github.com"
      :: rest /\
    forallb is_npm_issue rest = true /\
    In (packageRequest Scenario.anonymous Scenario.submission) (net_requests st).
Proof.
  exact (repository_network_error Cases.offline Scenario.anonymous Scenario.submission
           "getaddrinfo ENOTFOUND api.github.com" eq_refl eq_refl).
Defined.

Lemma repository_malformed_body_witness :
  exists r st rest,
    auditPlugin Cases.html_answer Scenario.anonymous Scenario.submission =
      (Resolved r, st) /\
    issues r =
      "Error accessing GitHub repository: Failed to parse JSON response: Unexpected token < in JSON at position 0"
      :: rest /\
    forallb is_npm_issue rest = true /\
    var_repoData st = None.
Proof.
  apply (repository_malformed_body Cases.html_answer Scenario.anonymous
           Scenario.submission 200 [("x-ratelimit-remaining", "59")] "<html>"
           "Unexpected token < in JSON at position 0").
  - reflexivity.
  - reflexivity.
  - discriminate.
  - lia.
  - reflexivity.
Defined.

Lemma repository_plain_429_witness :
  exists r st rest,
    auditPlugin Cases.throttled Scenario.anonymous Scenario.submission =
      (Resolved r, st) /\
    issues r = "HTTP 429: Too Many Requests" :: rest /\
    forallb is_npm_issue rest = true.
Proof.
  apply (repository_plain_429 Cases.throttled Scenario.anonymous Scenario.submission
           [("x-ratelimit-remaining", "12")] "Too Many Requests").
  - reflexivity.
  - reflexivity.
  - discriminate.
Defined.

Lemma package_failure_issue_witness :
  settled Cases.package_gone Scenario.anonymous
    (npmUrl (heap_submission Scenario.before_package_stage)) [] =
    inl {| status := Some 404%Z; message := "HTTP 404: Not Found";
           response := Some 404%Z |} /\
  var_issues (snd (checkNpmPackage Cases.package_gone Scenario.anonymous
                     Scenario.before_package_stage)) = ["npm package not found"].
Proof.
  assert (S : settled Cases.package_gone Scenario.anonymous
                (npmUrl (heap_submission Scenario.before_package_stage)) [] =
              inl {| status := Some 404%Z; message := "HTTP 404: Not Found";
                     response := Some 404%Z |}) by (vm_compute; reflexivity).
  split; [ exact S | ].
  rewrite (package_failure_issue Cases.package_gone Scenario.anonymous
             Scenario.before_package_stage _ S).
  reflexivity.
Defined.

Lemma package_block_type_errors_witness :
  exists st',
    checkNpmPackage Cases.null_package Scenario.anonymous Scenario.before_package_stage =
      (Normal tt, st') /\
    var_npmData st' = VNull /\
    var_issues st' =
      ["Error accessing npm package: Cannot read properties of null (reading 'private')"].
Proof.
  destruct (package_block_type_errors Cases.null_package Scenario.anonymous
              Scenario.before_package_stage _
              {| data := VNull; resp_status := 200;
                 resp_headers := Some [("x-ratelimit-remaining", "59")] |}
              eq_refl eq_refl (or_introl eq_refl)) as (st' & R & V & I).
  exists st'. split; [ exact R | ]. split; [ exact V | exact I ].
Defined.

Lemma audit_js_stops_at_failed_fetch_witness :
  fst (AuditJs.auditPlugin Scenario.repository_gone Scenario.anonymous
         Scenario.submission) =
    Resolved {| passed := false;
                issues := ["GitHub repository not found"];
                metadata := None |} /\
  net_requests (snd (AuditJs.auditPlugin Scenario.repository_gone Scenario.anonymous
                       Scenario.submission)) =
    [repositoryRequest_js Scenario.anonymous Scenario.submission].
Proof.
  exact (audit_js_stops_at_failed_fetch Scenario.repository_gone Scenario.anonymous
           Scenario.submission
           {| status := Some 404%Z; message := "Not Found"; response := Some 404%Z |}
           eq_refl eq_refl).
Defined.

Lemma cli_shows_only_the_rejection_witness :
  output (Main.main Scenario.ownerless None Scenario.submission) =
    [Log (nl ++ "Running audit...");
     Log "Note: Running without GitHub token. Rate limits will be stricter.";
     Log (nl ++ "GitHub API Rate Limit Info:");
     Log "Remaining: 59";
     Log "Limit: undefined";
     Log "Resets at: 1/1/2030, 12:00:00 AM";
     LogError "Error running audit:"
       (NativeError "Cannot read properties of undefined (reading 'login')")] /\
  ending (Main.main Scenario.ownerless None Scenario.submission) = Exit 1.
Proof.
  destruct (cli_shows_only_the_rejection Scenario.ownerless None Scenario.submission
              {| data := VObj [("private", VBool false);
                               ("description", VStr "A plugin that does x")];
                 resp_status := 200;
                 resp_headers := Some [("x-ratelimit-remaining", "59")] |}
              eq_refl eq_refl eq_refl eq_refl) as [O E].
  split; [ rewrite O; reflexivity | exact E ].
Defined.

Lemma cli_shows_missing_fields_witness :
  ending (Main.main Scenario.healthy None Scenario.ownerless_submission) = Completed /\
  In (Log "- Missing required fields in submission")
     (output (Main.main Scenario.healthy None Scenario.ownerless_submission)).
Proof.
  rewrite (cli_shows_missing_fields Scenario.healthy None Scenario.ownerless_submission
             eq_refl).
  split; [ reflexivity | ].
  cbn. do 10 right. left. reflexivity.
Defined.

Lemma cli_js_hides_early_verdicts_witness :
  output (MainJs.main Scenario.repository_gone None Scenario.submission) =
    [Log (nl ++ "Running audit...");
     Log "Note: Running without GitHub token. Rate limits will be stricter.";
     Log (nl ++ "Plugin Information:");
     Log "==================";
     LogError "Error running audit:"
       (NativeError "Cannot read properties of undefined (reading 'github')")] /\
  ending (MainJs.main Scenario.repository_gone None Scenario.submission) = Exit 1.
Proof.
  exact (cli_js_hides_early_verdicts Scenario.repository_gone None Scenario.submission
           eq_refl).
Defined.

Lemma cli_says_public_for_private_witness :
  exists r,
    fst (auditPlugin Cases.private_repository Scenario.anonymous Scenario.submission) =
      Resolved r /\
    member (member (Main.fullMetadata Scenario.submission r) "github") "isPublic" =
      VBool true /\
    member (member (metadata_of r) "github") "isPublic" = VBool false.
Proof.
  assert (A : exists r,
             fst (auditPlugin Cases.private_repository Scenario.anonymous
                    Scenario.submission) = Resolved r)
    by (vm_compute; eexists; reflexivity).
  destruct A as (r & A). exists r. split; [ exact A | ].
  destruct (cli_says_public_for_private Cases.private_repository Scenario.anonymous
              Scenario.submission r A) as [P Q].
  split; [ exact P | ].
  exact (Q {| data := VObj [("name", VStr "plugin-x");
                            ("full_name", VStr "acme/plugin-x");
                            ("owner", VObj [("login", VStr "acme")]);
                            ("private", VBool true);
                            ("description", VStr "A plugin that does x")];
              resp_status := 200;
              resp_headers := Some [("x-ratelimit-remaining", "59")] |}
           eq_refl eq_refl eq_refl).
Defined.

(** * Where the two revisions part, and the cross-reference *)

(** ** After a failed repository fetch *)

(** C2 as first stated, of both revisions: [audit.js] returns at once after
    a rejected repository request, without the package request and without
    metadata. *)
Lemma audit_js_gives_up_after_failed_fetch : ~ audit_js_keeps_auditing.
Proof.
  intros H.
  destruct (H Scenario.repository_gone Scenario.anonymous Scenario.submission
              {| status := Some 404%Z; message := "Not Found"; response := Some 404%Z |}
              eq_refl eq_refl) as (r & st & A & _ & M).
  vm_compute in A. injection A as <- _. apply M. reflexivity.
Defined.

(** ** The rate limit *)

Lemma length_append (a b : string) :
  String.length (a ++ b) = (String.length a + String.length b)%nat.
Proof. induction a as [ | c a IH]; cbn; [ reflexivity | rewrite IH; reflexivity ]. Qed.

Lemma append_inv_head (a x y : string) : a ++ x = a ++ y -> x = y.
Proof.
  induction a as [ | c a IH]; cbn; intros H; [ exact H | ].
  injection H as H. exact (IH H).
Qed.

Lemma topicsUrl_is_not_repoUrl s : topicsUrl s <> repoUrl s.
Proof.
  unfold topicsUrl, repoUrl. intros H.
  do 3 apply append_inv_head in H.
  apply (f_equal String.length) in H. rewrite length_append in H. cbn in H. lia.
Qed.

(** With the two tests on the repository document made, the repository
    checks end in the topics stage, entered with the flags raised so far. *)
Lemma checkRepository_reaches_topics env this st rd :
  var_repoData st = Some rd ->
  repository_checks_run (data rd) = true ->
  exists st1 flags,
    checkRepository env this st = checkTopics env this st1 /\
    heap_submission st1 = heap_submission st /\
    var_repoData st1 = var_repoData st /\
    var_issues st1 = (var_issues st ++ flags)%list /\
    forall i, In i flags -> i = REPO_PRIVATE \/ i = REPO_DESCRIPTION.
Proof.
  intros R K.
  unfold checkRepository, bind at 1, get_repoData. rewrite R.
  unfold repository_checks_run in K.
  destruct (nullish (data rd)) eqn:N; [ discriminate K | ]. cbn [negb andb] in K.
  rewrite (bind_normal _ _ _ _ _ (run_prop _ _ _ N)).
  rewrite (bind_normal _ _ _ _ _ (run_when_push _ _ _)).
  rewrite (bind_normal _ _ _ _ _ (run_prop _ _ _ N)).
  unfold bind at 1. rewrite run_description_too_short, K.
  rewrite (bind_normal _ _ _ _ _ (run_when_push _ _ _)).
  set (p := truthy (member (data rd) "private")).
  set (q := negb (description_ok (member (data rd) "description"))).
  eexists.
  exists ((if p then [REPO_PRIVATE] else []) ++
          (if q then [REPO_DESCRIPTION] else []))%list.
  split; [ reflexivity | ].
  split; [ destruct p, q; reflexivity | ].
  split; [ destruct p, q; cbn; first [ reflexivity | exact R ] | ].
  split; [ apply issues_after_flags | ].
  intros i I. apply in_app_or in I.
  destruct I as [I | I]; [ destruct p | destruct q ]; cbn in I;
    try contradiction; destruct I as [<- | I]; try contradiction; auto.
Qed.

(** C3. A GitHub response whose [x-ratelimit-remaining] header is the string
    ["0"] makes [makeRequest] reject with status 429 and a message ending in
    the formatted reset time, whatever the status code and the body and
    whatever [JSON.parse] would do. When this happens to the repository
    request, the first issue of the result is that message, word for word,
    and all the others come from the package stage. When it happens to the
    topics request, the one issue the topics stage adds is that message
    behind the topics prefix, and the verdict of the audit holds the
    prefixed issue and not the bare message. *)
Theorem rate_limit_short_circuits :
  forall (env : Env) (this : PluginAuditor) (url : string) (opts : headers_t)
         (code : Z) (hs : headers_t) (body : string),
    includes url "api.github.com" = true ->
    https_get env url (request_headers this url opts) = Responded code hs body ->
    header "x-ratelimit-remaining" hs = Some "0" ->
    let limit_message :=
      "GitHub API rate limit exceeded. Resets at " ++
      Date_toLocaleString env (header "x-ratelimit-reset" hs) in
    (forall parse,
        settled (with_parser env parse) this url opts =
        inl {| status := Some 429%Z;
               message := limit_message;
               response := Some 429%Z |}) /\
    (forall s,
        fields_present s = true ->
        url = repoUrl s ->
        opts = [] ->
        exists r st rest,
          Auditor.auditPlugin env this s = (Resolved r, st) /\
          issues r = limit_message :: rest /\
          forallb is_npm_issue rest = true) /\
    (forall st,
        url = topicsUrl (heap_submission st) ->
        opts = topicsOptions ->
        checkTopics env this st =
        (Normal tt,
         add_issue (TOPICS_ERROR ++ limit_message)
           (add_request url (request_headers this url opts) st))) /\
    (forall s rresp r,
        fields_present s = true ->
        url = topicsUrl s ->
        opts = topicsOptions ->
        settled env this (repoUrl s) [] = inr rresp ->
        In (url, request_headers this url opts)
           (net_requests (snd (Auditor.auditPlugin env this s))) ->
        fst (Auditor.auditPlugin env this s) = Resolved r ->
        In (TOPICS_ERROR ++ limit_message) (issues r) /\
        ~ In limit_message (issues r)).
Proof.
  intros env this url opts code hs body U G R limit_message.
  split; [ | split; [ | split ] ].
  - intros parse.
    apply (run_settled_rate_limited (with_parser env parse) this url opts code hs body);
      assumption.
  - intros s F -> ->.
    pose proof (run_settled_rate_limited env this _ _ code hs body U G R) as E.
    destruct (audit_after_failed_fetch env this s _ F E) as (st & rest & A & N & _).
    eexists; exists st, rest. split; [ exact A | ]. split; [ reflexivity | exact N ].
  - intros st -> ->.
    pose proof (run_settled_rate_limited env this _ _ code hs body U G R) as E.
    rewrite (run_checkTopics_rejected env this st _ E). reflexivity.
  - intros s rresp r F -> -> SR Q A.
    pose proof (run_settled_rate_limited env this _ _ code hs body U G R) as E.
    pose proof (auditPlugin_ends env this s) as Z.
    rewrite F in Z. destruct Z as (st & T & Sn & Fs).
    destruct (run_try_block env this s F) as (st' & T' & _ & H).
    assert (st' = st) as -> by congruence.
    rewrite SR in H. destruct H as (Rd & H). rewrite Sn in Q.
    destruct (repository_checks_run (data rresp)) eqn:K.
    2:{ destruct H as (H & _). rewrite H in Q.
        destruct Q as [Q | []]. unfold repositoryRequest in Q.
        apply (f_equal fst) in Q. cbn [fst] in Q. symmetry in Q.
        destruct (topicsUrl_is_not_repoUrl s Q). }
    clear H.
    assert (Fr : r = finalResult st).
    { rewrite A, Rd in Fs.
      destruct (truthy (data rresp) && nullish (member (data rresp) "owner"));
        congruence. }
    subst r. unfold finalResult. cbn [issues].
    revert T. unfold try_catch, tryBlock, bind at 1, get_submission.
    cbn [init heap_submission]. rewrite (guard_passes s F).
    rewrite (bind_normal _ _ _ _ _ (run_fetchRepository_ok env this (init s) rresp SR)).
    set (st0 := put_repoData rresp
                  (add_request (repoUrl (heap_submission (init s)))
                     (request_headers this (repoUrl (heap_submission (init s))) [])
                     (init s))).
    destruct (checkRepository_reaches_topics env this st0 rresp eq_refl K)
      as (st1 & flags & C & Hh & _ & Hi & Hf).
    cbn in Hh, Hi.
    rewrite <- Hh in E.
    rewrite (run_checkTopics_rejected env this st1 _ E) in C.
    rewrite (bind_normal _ _ _ _ _ C).
    match goal with
    | |- context [checkNpmPackage env this ?st2] =>
        destruct (run_checkNpmPackage env this st2)
          as (st3 & delta & E3 & _ & _ & _ & I3 & N3 & _)
    end.
    rewrite E3. intros T. injection T as <-.
    rewrite I3. cbn [var_issues add_issue add_request]. rewrite Hi.
    cbn [rateLimitExceeded message].
    split.
    + apply in_or_app. left. apply in_or_app. right. left. reflexivity.
    + intros J. apply in_app_or in J. destruct J as [J | J].
      * apply in_app_or in J. destruct J as [J | [J | []]].
        -- destruct (Hf _ J) as [D | D]; discriminate D.
        -- discriminate J.
      * rewrite forallb_forall in N3. apply N3 in J. discriminate J.
Qed.

Lemma rate_limit_short_circuits_witness :
  includes (repoUrl Scenario.submission) "api.github.com" = true /\
  header "x-ratelimit-remaining" Scenario.rate_limited_headers = Some "0" /\
  settled Scenario.rate_limited Scenario.anonymous (repoUrl Scenario.submission) [] =
    inl {| status := Some 429%Z;
           message := "GitHub API rate limit exceeded. Resets at 1/1/2030, 12:00:00 AM";
           response := Some 429%Z |} /\
  (exists r st rest,
      Auditor.auditPlugin Scenario.rate_limited Scenario.anonymous Scenario.submission =
        (Resolved r, st) /\
      issues r =
        "GitHub API rate limit exceeded. Resets at 1/1/2030, 12:00:00 AM" :: rest /\
      forallb is_npm_issue rest = true) /\
  (exists r,
      fst (Auditor.auditPlugin Cases.topics_rate_limited Scenario.anonymous
             Scenario.submission) = Resolved r /\
      In "Error checking repository topics: GitHub API rate limit exceeded. Resets at 1/1/2030, 12:00:00 AM"
         (issues r) /\
      ~ In "GitHub API rate limit exceeded. Resets at 1/1/2030, 12:00:00 AM" (issues r)).
Proof.
  assert (U : includes (repoUrl Scenario.submission) "api.github.com" = true)
    by reflexivity.
  assert (R : header "x-ratelimit-remaining" Scenario.rate_limited_headers = Some "0")
    by reflexivity.
  destruct (rate_limit_short_circuits Scenario.rate_limited Scenario.anonymous
              (repoUrl Scenario.submission) [] 403 Scenario.rate_limited_headers
              "API rate limit exceeded" U eq_refl R) as (P & A & _).
  split; [ exact U | ]. split; [ exact R | ]. split; [ | split ].
  - exact (P (JSON_parse Scenario.rate_limited)).
  - exact (A Scenario.submission eq_refl eq_refl eq_refl).
  - assert (V : exists r,
               fst (Auditor.auditPlugin Cases.topics_rate_limited Scenario.anonymous
                      Scenario.submission) = Resolved r)
      by (vm_compute; eexists; reflexivity).
    destruct V as (r & V). exists r. split; [ exact V | ].
    destruct (rate_limit_short_circuits Cases.topics_rate_limited Scenario.anonymous
                (topicsUrl Scenario.submission) topicsOptions 200
                Scenario.rate_limited_headers "<topics document>"
                eq_refl eq_refl R) as (_ & _ & _ & T).
    apply (T Scenario.submission
             {| data := Scenario.repositoryDoc "A plugin that does x";
                resp_status := 200;
                resp_headers := Some [("x-ratelimit-remaining", "59")] |}
             r eq_refl eq_refl eq_refl eq_refl).
    + vm_compute. right; left; reflexivity.
    + exact V.
Defined.

(** C3 as first stated, of every GitHub request: when the quota runs out on
    the topics request the message is not an issue by itself, it stands
    behind the topics prefix. *)
Lemma rate_limited_topics_issue_is_prefixed : ~ rate_limit_message_is_an_issue.
Proof.
  intros H.
  assert (A : exists r st,
             Auditor.auditPlugin Cases.topics_rate_limited Scenario.anonymous
               Scenario.submission = (Resolved r, st) /\
             issues r =
               ["Error checking repository topics: GitHub API rate limit exceeded. Resets at 1/1/2030, 12:00:00 AM"] /\
             In (topicsUrl Scenario.submission,
                 request_headers Scenario.anonymous (topicsUrl Scenario.submission)
                   topicsOptions) (net_requests st)).
  { vm_compute. do 2 eexists. split; [ reflexivity | ].
    split; [ reflexivity | right; left; reflexivity ]. }
  destruct A as (r & st & A & I & N).
  pose proof (H Cases.topics_rate_limited Scenario.anonymous Scenario.submission
                (topicsUrl Scenario.submission) topicsOptions 200%Z
                Scenario.rate_limited_headers "<topics document>" r st
                eq_refl eq_refl eq_refl eq_refl A N) as K.
  rewrite I in K. vm_compute in K. destruct K as [K | []]. discriminate K.
Defined.

(** ** The issue for a rejected repository request *)

(** C4. A rejected repository request leaves exactly one issue of the
    repository stage, in either revision. The accumulating revision goes by
    the status: 429, whether it is the rate limit or a plain HTTP 429, gives
    the message as it is; 404 the not-found issue; 403 the forbidden issue
    around the message; anything else the generic issue around the message;
    every further issue of its result comes from the package stage.
    [audit.js] has no case for 429 and words 403 as a repository that is not
    public; its verdict holds that one issue and nothing else. *)
Theorem repository_failure_issue_by_status :
  forall (env : Env) (this : PluginAuditor) (s : Submission),
    fields_present s = true ->
    (forall e,
        settled env this (repoUrl s) [] = inl e ->
        exists r st rest,
          Auditor.auditPlugin env this s = (Resolved r, st) /\
          issues r =
            (if is_status (status e) 429 then message e
             else if is_status (status e) 404 then REPO_NOT_FOUND
             else if is_status (status e) 403 then REPO_FORBIDDEN ++ message e
             else REPO_ERROR ++ message e) :: rest /\
          forallb is_npm_issue rest = true) /\
    (forall e,
        AuditJs.settled env this (repoUrl s) [] = inl e ->
        fst (AuditJs.auditPlugin env this s) =
        Resolved
          {| passed := false;
             issues :=
               [if is_status (status e) 404 then REPO_NOT_FOUND
                else if is_status (status e) 403 then AuditJs.REPO_NOT_PUBLIC
                else REPO_ERROR ++ message e];
             metadata := None |}).
Proof.
  intros env this s F. split.
  - intros e H.
    destruct (audit_after_failed_fetch env this s e F H) as (st & rest & E & R & _).
    eexists; exists st, rest. split; [ exact E | ]. split; [ | exact R ].
    cbn [issues]. f_equal. unfold repositoryIssue.
    destruct (is_status (status e) 429); [ reflexivity | ].
    destruct (settled_rejection_shape env this _ _ e H) as [-> | [-> [-> | ->]]];
      reflexivity.
  - intros e H.
    destruct (run_try_block_js env this s F) as (c & st & T & _ & K).
    rewrite H in K. destruct K as (-> & _).
    destruct (auditPlugin_js_from_try env this s _ st T) as [A _].
    rewrite (A _ eq_refl). cbn [fst]. unfold aborted, repositoryIssue_js.
    rewrite (settled_js_rejection_shape env this _ _ e H). reflexivity.
Qed.

Lemma repository_failure_issue_by_status_witness :
  (exists r st rest,
      Auditor.auditPlugin Scenario.forbidden Scenario.anonymous Scenario.submission =
        (Resolved r, st) /\
      issues r = "GitHub API access forbidden: HTTP 403: Forbidden" :: rest /\
      forallb is_npm_issue rest = true) /\
  (exists r st rest,
      Auditor.auditPlugin Cases.throttled Scenario.anonymous Scenario.submission =
        (Resolved r, st) /\
      issues r = "HTTP 429: Too Many Requests" :: rest /\
      forallb is_npm_issue rest = true) /\
  fst (AuditJs.auditPlugin Scenario.forbidden Scenario.anonymous Scenario.submission) =
    Resolved {| passed := false;
                issues := ["GitHub repository is not public"];
                metadata := None |}.
Proof.
  split; [ | split ].
  - exact (proj1 (repository_failure_issue_by_status Scenario.forbidden
                    Scenario.anonymous Scenario.submission eq_refl)
             {| status := Some 403%Z; message := "HTTP 403: Forbidden";
                response := Some 403%Z |} eq_refl).
  - exact (proj1 (repository_failure_issue_by_status Cases.throttled
                    Scenario.anonymous Scenario.submission eq_refl)
             {| status := Some 429%Z; message := "HTTP 429: Too Many Requests";
                response := Some 429%Z |} eq_refl).
  - exact (proj2 (repository_failure_issue_by_status Scenario.forbidden
                    Scenario.anonymous Scenario.submission eq_refl)
             {| status := Some 403%Z; message := "Forbidden";
                response := Some 403%Z |} eq_refl).
Defined.

(** C4 as first stated, of both revisions: a plain HTTP 429 with quota left
    is no rate-limit rejection, yet the accumulating revision records its
    message without the generic prefix; and [audit.js] does not word a 403
    as forbidden access. *)
Lemma status_table_has_exceptions :
  ~ repository_issue_goes_by_status Auditor.request_headers Auditor.settled
      Auditor.auditPlugin /\
  ~ repository_issue_goes_by_status AuditJs.request_headers AuditJs.settled
      AuditJs.auditPlugin.
Proof.
  split; intros H.
  - destruct (H Cases.throttled Scenario.anonymous Scenario.submission
                {| status := Some 429%Z; message := "HTTP 429: Too Many Requests";
                   response := Some 429%Z |}
                {| passed := false;
                   issues := ["HTTP 429: Too Many Requests"];
                   metadata :=
                     Some (VObj [("github", VNull);
                                 ("npm",
                                  npmSummary Scenario.submission
                                    (Scenario.packageDoc (VStr "Jane Doe")))]) |}
                eq_refl eq_refl) as (rest & K).
    + intros code hs body G. vm_compute in G. injection G as _ <- _. discriminate.
    + vm_compute. reflexivity.
    + vm_compute in K. discriminate K.
  - destruct (H Scenario.forbidden Scenario.anonymous Scenario.submission
                {| status := Some 403%Z; message := "Forbidden";
                   response := Some 403%Z |}
                {| passed := false;
                   issues := ["GitHub repository is not public"];
                   metadata := None |}
                eq_refl eq_refl) as (rest & K).
    + intros code hs body G. vm_compute in G. injection G as _ <- _. discriminate.
    + vm_compute. reflexivity.
    + vm_compute in K. discriminate K.
Defined.

(** ** The cross-reference *)












(** ** The author of the package *)

(** C8. The author entry of [metadata.npm] in the accumulating revision.
    An author [{name, email, url}] comes out as it went in, and any other
    object as its [name], [email] and [url]; a bare string, ["Jane Doe"] or
    any other, becomes the name of an author whose [email] and [url] are
    [null], and so does every other value that is not an object. In every
    verdict that has an [npm] entry, the package request was fulfilled and
    the author of the entry is the author of the fetched document put in
    this form. *)
Theorem author_normalization :
  (forall n e u,
      normalizeAuthor (VObj [("name", n); ("email", e); ("url", u)]) =
      VObj [("name", n); ("email", e); ("url", u)]) /\
  (forall ps,
      normalizeAuthor (VObj ps) =
      VObj [("name", lookup "name" ps); ("email", lookup "email" ps);
            ("url", lookup "url" ps)]) /\
  (forall a : string,
      normalizeAuthor (VStr a) =
      VObj [("name", VStr a); ("email", VNull); ("url", VNull)]) /\
  normalizeAuthor (VStr "Jane Doe") =
    VObj [("name", VStr "Jane Doe"); ("email", VNull); ("url", VNull)] /\
  (forall a,
      (typeof a =? "object") = false ->
      normalizeAuthor a = VObj [("name", a); ("email", VNull); ("url", VNull)]) /\
  (forall a, is_structured_author (normalizeAuthor a) = true) /\
  (forall (env : Env) (this : PluginAuditor) (s : Submission) (r : AuditResult)
          (md : value),
      fst (auditPlugin env this s) = Resolved r ->
      metadata r = Some md ->
      member md "npm" <> VNull ->
      exists nresp,
        settled env this (npmUrl s) [] = inr nresp /\
        (forall a,
            member (data nresp) "author" = VStr a ->
            member (member md "npm") "author" =
              VObj [("name", VStr a); ("email", VNull); ("url", VNull)]) /\
        (forall n e u,
            member (data nresp) "author" =
              VObj [("name", n); ("email", e); ("url", u)] ->
            member (member md "npm") "author" =
              VObj [("name", n); ("email", e); ("url", u)]) /\
        is_structured_author (member (member md "npm") "author") = true).
Proof.
  assert (S : forall a, is_structured_author (normalizeAuthor a) = true).
  { intros a. unfold normalizeAuthor. destruct (typeof a =? "object"); reflexivity. }
  split; [ reflexivity | ]. split; [ reflexivity | ]. split; [ reflexivity | ].
  split; [ reflexivity | ].
  split; [ intros a T; unfold normalizeAuthor; rewrite T; reflexivity | ].
  split; [ exact S | ].
  intros env this s r md A Hmd Hnpm.
  pose proof (auditPlugin_ends env this s) as E.
  destruct (fields_present s) eqn:F.
  2:{ rewrite E in A. cbn in A. injection A as <-. discriminate Hmd. }
  destruct E as (st & T & _ & Fs).
  destruct (run_try_block env this s F) as (st' & T' & Hs & H).
  assert (st' = st) as -> by congruence.
  assert (R : r = finalResult st).
  { rewrite A in Fs. destruct (var_repoData st) as [rd | ]; [ | congruence ].
    destruct (truthy (data rd) && nullish (member (data rd) "owner")); congruence. }
  subst r. unfold finalResult in Hmd. cbn [metadata] in Hmd.
  injection Hmd as <-. cbn [member lookup String.eqb Ascii.eqb Bool.eqb] in Hnpm |- *.
  unfold npmEntry in Hnpm |- *.
  destruct (truthy (var_npmData st)) eqn:V; [ | congruence ].
  assert (D : exists nresp,
             settled env this (npmUrl s) [] = inr nresp /\
             var_npmData st = data nresp).
  { assert (W : var_npmData st = fetched (settled env this (npmUrl s) [])).
    { destruct (settled env this (repoUrl s) []) as [e | rresp].
      - destruct H as (_ & _ & W & _). exact W.
      - destruct H as (_ & H).
        destruct (repository_checks_run (data rresp)).
        + destruct H as (_ & W & _). exact W.
        + destruct H as (_ & W & _). rewrite W in V. discriminate V. }
    destruct (settled env this (npmUrl s) []) as [e | nresp].
    - rewrite W in V. discriminate V.
    - exists nresp. split; [ reflexivity | exact W ]. }
  destruct D as (nresp & SN & W).
  exists nresp. split; [ exact SN | ].
  unfold npmSummary. cbn [member lookup String.eqb Ascii.eqb Bool.eqb].
  rewrite W.
  split; [ | split ].
  - intros a ->. reflexivity.
  - intros n e u ->. reflexivity.
  - apply S.
Qed.

Lemma author_normalization_witness :
  exists r md,
    fst (auditPlugin Scenario.healthy Scenario.anonymous Scenario.submission) =
      Resolved r /\
    metadata r = Some md /\
    member (member md "npm") "author" =
      VObj [("name", VStr "Jane Doe"); ("email", VNull); ("url", VNull)] /\
    is_structured_author (member (member md "npm") "author") = true.
Proof.
  assert (A : exists r md,
             fst (auditPlugin Scenario.healthy Scenario.anonymous
                    Scenario.submission) = Resolved r /\
             metadata r = Some md /\
             member md "npm" <> VNull).
  { vm_compute. do 2 eexists.
    split; [ reflexivity | ]. split; [ reflexivity | discriminate ]. }
  destruct A as (r & md & A & M & N).
  destruct (proj2 (proj2 (proj2 (proj2 (proj2 (proj2 author_normalization)))))
              Scenario.healthy Scenario.anonymous Scenario.submission r md A M N)
    as (nresp & SN & Bare & _ & Shape).
  exists r, md. split; [ exact A | ]. split; [ exact M | ].
  split; [ | exact Shape ].
  apply Bare.
  assert (K : settled Scenario.healthy Scenario.anonymous
                (npmUrl Scenario.submission) [] = inr Scenario.packageResponse)
    by (vm_compute; reflexivity).
  rewrite K in SN. injection SN as <-. reflexivity.
Defined.

(** C8 as first stated, of both revisions: [audit.js] copies the author of
    the package document, and a bare string stays a bare string. *)
Lemma audit_js_leaves_a_bare_author : ~ audit_js_structures_the_author.
Proof.
  intros H.
  assert (A : exists r md,
             fst (AuditJs.auditPlugin Scenario.healthy Scenario.anonymous
                    Scenario.submission) = Resolved r /\
             metadata r = Some md /\
             member md "npm" <> VNull /\
             member (member md "npm") "author" = VStr "Jane Doe").
  { vm_compute. do 2 eexists.
    split; [ reflexivity | ]. split; [ reflexivity | ].
    split; [ discriminate | reflexivity ]. }
  destruct A as (r & md & A & M & N & J).
  pose proof (H Scenario.healthy Scenario.anonymous Scenario.submission r md A M N) as K.
  rewrite J in K. discriminate K.
Defined.
